(** * RoutineGamification: the progression and session state engine

    A shallow embedding of the JavaScript models (Skill, User, Routine,
    RoutineSession, Achievement) and managers (RoutineManager,
    AchievementManager) together with the properties of the specification
    that concern them.

    Conventions of the embedding:
    - integer-valued JS numbers are unbounded [Z]; fractional ones
      (multipliers, bonus fractions) are exact rationals [Q], so a product
      that is floored is floored exactly, where the code floors the
      product of doubles (which can fall just below the exact product:
      100 XP at a bonus of 0.15 give 114, not 115); the statements give
      a gain through [xpGained] or by bounds that hold either way;
    - a plain object used as a map ([skills], [xpEarned], the rewards of
      an item) is the [gmap] of its own properties; a lookup [obj[key]]
      of the code also finds what the object inherits from
      [Object.prototype], so the statements that read such a map at the
      categories of a reward are for categories outside
      [objectPrototypeMembers];
    - [NaN] only arises from [Math.pow] on a negative base and is the
      [None] of an [option Z];
    - [new Date()] is an explicit [now] argument, a calendar day plus a
      time of day; [toDateString] keeps the day;
    - objects mutated in place are passed and returned explicitly; the
      sessions cached by the RoutineManager live in a store of their own,
      so two cache keys may alias one session object;
    - a thrown exception is the [Throw] of a [result]. *)

From Stdlib Require Import ZArith QArith Qround Lia Bool.
From stdpp Require Import gmap strings list fin_maps.

Local Open Scope Z_scope.

(** ** Exceptions and dates *)

Inductive exn :=
  | Error (msg : string)
  | TypeError (msg : string).

Inductive result (A : Type) :=
  | Return (a : A)
  | Throw (e : exn).
Arguments Return {A} a.
Arguments Throw {A} e.

Definition isThrow {A} (r : result A) : bool :=
  match r with Throw _ => true | Return _ => false end.

Record Date := mkDate { dayNumber : Z; timeOfDay : Z }.

(** [date.toDateString()]: the calendar day, the time of day dropped. *)
Definition toDateString (d : Date) : Z := dayNumber d.

(** [d.setDate(d.getDate() - 1)]: the same time on the previous day. *)
Definition previousDay (d : Date) : Date := mkDate (dayNumber d - 1) (timeOfDay d).

(** ** Plain objects *)

(** The names every plain object inherits from [Object.prototype]. For
    such a name that is no own property, [obj[key]] is the inherited
    member (a function, or the prototype itself for [__proto__]) and not
    [undefined]: [obj[key] || 0] is that member, and [!obj[key]] is
    false. *)
Definition objectPrototypeMembers : list string :=
  [ "constructor"; "__defineGetter__"; "__defineSetter__"; "hasOwnProperty";
    "__lookupGetter__"; "__lookupSetter__"; "isPrototypeOf";
    "propertyIsEnumerable"; "toString"; "valueOf"; "__proto__"; "toLocaleString" ].

(** A key for which a lookup in a plain object sees own properties
    only, and rewards whose categories are such keys. *)
Definition plainKey (key : string) : Prop := key ∉ objectPrototypeMembers.

#[global] Instance plainKey_dec (key : string) : Decision (plainKey key).
Proof. unfold plainKey. apply _. Defined.

Definition plainKeys (rewards : list (string * Z)) : Prop :=
  Forall plainKey rewards.*1.

#[global] Instance plainKeys_dec (rewards : list (string * Z)) :
  Decision (plainKeys rewards).
Proof. unfold plainKeys. apply _. Defined.

(** ** Skill *)

Module Skill.

(** The three display strings are [None] when a snapshot lacks them. *)
Record t := mk {
  name : option string;
  icon : option string;
  type : option string;
  level : Z;
  currentXP : Z;
  totalXP : Z;
  prestige : Z
}.

Definition constructor (name icon type : option string) : t :=
  mk name icon type 1 0 0 0.

(** [Math.floor(100 * Math.pow(level, 1.5))] is the integer square root
    of [10000 * level^3]; the power of a negative base is NaN. *)
Definition getXPForNextLevel (s : t) : option Z :=
  if 100 <=? level s then Some 0
  else if level s <? 0 then None
  else Some (Z.sqrt (10000 * level s ^ 3)).

Definition getPrestigeMultiplier (s : t) : Q :=
  (1 + inject_Z (prestige s) * 0.05)%Q.

Record AddXPResult := mkAddXP {
  leveledUp : bool;
  newLevel : Z;
  xpGained : Z
}.

(** The test of the level-up loop; a comparison with NaN is false. *)
Definition levelUpTest (s : t) : bool :=
  match getXPForNextLevel s with
  | Some req => (req <=? currentXP s) && (level s <? 100)
  | None => false
  end.

Definition levelUpBody (s : t) : t :=
  match getXPForNextLevel s with
  | Some req =>
      mk (name s) (icon s) (type s) (level s + 1) (currentXP s - req)
         (totalXP s) (prestige s)
  | None => s
  end.

(** The [while] loop. Each turn raises [level] by one and the test needs
    [level < 100], so [100 - level] turns always suffice
    ([levelUpLoop_exit] below). *)
Fixpoint levelUpLoop (fuel : nat) (s : t) (leveledUp : bool) (newLevel : Z)
  : t * bool * Z :=
  match fuel with
  | O => (s, leveledUp, newLevel)
  | S fuel' =>
      if levelUpTest s
      then levelUpLoop fuel' (levelUpBody s) true (level (levelUpBody s))
      else (s, leveledUp, newLevel)
  end.

(** [adjustedXP] is the floor of the exact product. The code floors the
    product of doubles, which agrees when the multiplier is 1 (no
    prestige, no bonus) and can be one less otherwise; it is never below
    [xp] for multipliers of at least 1. *)
Definition addXP (s : t) (xp : Z) (streakBonus : Q) : AddXPResult * t :=
  let prestigeMultiplier := getPrestigeMultiplier s in
  let totalMultiplier := (prestigeMultiplier * (1 + streakBonus))%Q in
  let adjustedXP := Qfloor (inject_Z xp * totalMultiplier) in
  let s1 := mk (name s) (icon s) (type s) (level s)
               (currentXP s + adjustedXP) (totalXP s + adjustedXP)
               (prestige s) in
  let '(s2, leveledUp, newLevel) :=
    levelUpLoop (Z.to_nat (100 - level s1)) s1 false (level s1) in
  (mkAddXP leveledUp newLevel adjustedXP, s2).

Record PrestigeResult := mkPrestige {
  prestigeLevel : Z;
  multiplier : Q
}.

(** The body of the method [prestige()] of the class, run on [s]. *)
Definition prestige_method (s : t) : result (PrestigeResult * t) :=
  if level s <? 100 then Throw (Error "Must be level 100 to prestige")
  else
    let s' := mk (name s) (icon s) (type s) 1 0 (totalXP s) (prestige s + 1) in
    Return (mkPrestige (prestige s') (getPrestigeMultiplier s'), s').

(** Member lookup on an instance. The constructor assigns seven own
    properties; the class body puts its methods on the prototype. An own
    property is found first. *)
Definition ownProperties : list string :=
  ["name"; "icon"; "type"; "level"; "currentXP"; "totalXP"; "prestige"].

Definition prototypeMethods : list string :=
  ["getTier"; "getXPForNextLevel"; "getPrestigeMultiplier"; "addXP";
   "prestige"; "getProgressPercentage"; "toJSON"].

Inductive member := OwnData | PrototypeMethod.

Definition getMember (key : string) : option member :=
  if bool_decide (key ∈ ownProperties) then Some OwnData
  else if bool_decide (key ∈ prototypeMethods) then Some PrototypeMethod
  else None.

(** The call [skill.prestige()]: the member is looked up, then applied;
    applying a number is a TypeError. *)
Definition call_prestige (s : t) : result (PrestigeResult * t) :=
  match getMember "prestige" with
  | Some PrototypeMethod => prestige_method s
  | _ => Throw (TypeError "skill.prestige is not a function")
  end.

(** [data.level || 1] and the like: a missing or zero field is falsy. *)
Definition orElse (field : option Z) (dflt : Z) : Z :=
  match field with
  | Some v => if v =? 0 then dflt else v
  | None => dflt
  end.

Record Snapshot := mkSnapshot {
  s_name : option string;
  s_icon : option string;
  s_type : option string;
  s_level : option Z;
  s_currentXP : option Z;
  s_totalXP : option Z;
  s_prestige : option Z
}.

Definition fromJSON (data : Snapshot) : t :=
  let skill := constructor (s_name data) (s_icon data) (s_type data) in
  mk (name skill) (icon skill) (type skill)
     (orElse (s_level data) 1) (orElse (s_currentXP data) 0)
     (orElse (s_totalXP data) 0) (orElse (s_prestige data) 0).

(** The tiers, in the order of the keys of [LEVEL_TIERS]. *)
Record Tier := mkTier {
  tier_min : Z;
  tier_max : Z;
  tier_name : string
}.

Definition LEVEL_TIERS : list (string * Tier) :=
  [ ("BEGINNER", mkTier 1 10 "Beginner");
    ("NOVICE", mkTier 11 25 "Novice");
    ("INTERMEDIATE", mkTier 26 50 "Intermediate");
    ("ADVANCED", mkTier 51 75 "Advanced");
    ("EXPERT", mkTier 76 99 "Expert");
    ("MASTER", mkTier 100 100 "Master") ].

Definition inTier (s : t) (tier : Tier) : bool :=
  (tier_min tier <=? level s) && (level s <=? tier_max tier).

(** The first tier whose range holds the level; "Beginner" when the loop
    runs out. *)
Definition getTier (s : t) : string :=
  match List.find (fun entry => inTier s (snd entry)) LEVEL_TIERS with
  | Some entry => tier_name (snd entry)
  | None => "Beginner"
  end.

End Skill.


(** ** User *)

Module User.

Record Streak := mkStreak {
  current : Z;
  longest : Z;
  lastCompleted : option Date
}.

Record Stats := mkStats {
  totalRoutinesCompleted : Z;
  totalTasksCompleted : Z;
  totalXPEarned : Z;
  achievements : list string
}.

(** [skills] is the object keyed by skill type; [createdAt] and
    [lastActive] are [None] only when restored from a snapshot without
    them. *)
Record t := mk {
  username : string;
  createdAt : option Date;
  lastActive : option Date;
  skills : gmap string Skill.t;
  streak : Streak;
  stats : Stats
}.

Definition emptyStreak : Streak := mkStreak 0 0 None.
Definition emptyStats : Stats := mkStats 0 0 0 [].

Definition constructor (now : Date) (username : string) : t :=
  mk username (Some now) (Some now)
     (list_to_map
        [("physical", Skill.constructor (Some "Physical") (Some "💪") (Some "physical"));
         ("mental", Skill.constructor (Some "Mental") (Some "🧠") (Some "mental"));
         ("discipline", Skill.constructor (Some "Discipline") (Some "🎯") (Some "discipline"));
         ("productivity", Skill.constructor (Some "Productivity") (Some "⚡") (Some "productivity"));
         ("logic", Skill.constructor (Some "Logic") (Some "🧩") (Some "logic"));
         ("coding", Skill.constructor (Some "Coding") (Some "💻") (Some "coding"))])
     emptyStreak emptyStats.

Record StreakTier := mkTier {
  days : Z;
  bonus : Q;
  name : string
}.

Definition STREAK_BONUSES : list StreakTier :=
  [ mkTier 5 0.05 "5 Day Streak";
    mkTier 7 0.10 "7 Day Streak";
    mkTier 15 0.15 "2 Week Streak";
    mkTier 25 0.20 "25 Day Streak";
    mkTier 50 0.30 "50 Day Streak";
    mkTier 100 0.50 "100 Day Streak" ].

(** The loop over the table keeps the bonus of the last tier reached. *)
Definition getStreakBonus (u : t) : Q :=
  fold_left
    (fun (b : Q) (tier : StreakTier) =>
       if days tier <=? current (streak u) then bonus tier else b)
    STREAK_BONUSES 0%Q.

Definition updateStreak (now : Date) (u : t) : Z * t :=
  let today := toDateString now in
  let lastDay := option_map toDateString (lastCompleted (streak u)) in
  let current1 :=
    match lastDay with
    | None => 1
    | Some lastDay =>
        if lastDay =? today then current (streak u)
        else
          let yesterdayStr := toDateString (previousDay now) in
          if lastDay =? yesterdayStr then current (streak u) + 1 else 1
    end in
  let longest1 :=
    if longest (streak u) <? current1 then current1 else longest (streak u) in
  (current1,
   mk (username u) (createdAt u) (lastActive u) (skills u)
      (mkStreak current1 longest1 (Some now)) (stats u)).

Record XPResult := mkXPResult {
  skill : string;
  leveledUp : bool;
  newLevel : Z;
  xpGained : Z;
  streakBonus : Q
}.

(** [None] is the [null] returned for a skill type the user lacks. The
    guard [!this.skills[skillType]] is read on the own properties: for a
    type of [objectPrototypeMembers] that is no own skill the code finds
    the inherited member, passes the guard and throws a TypeError at
    [.addXP]; the statements on rewards are for types that are
    [plainKey]s. *)
Definition addSkillXP (now : Date) (u : t) (skillType : string) (xp : Z)
  : option XPResult * t :=
  match skills u !! skillType with
  | None => (None, u)
  | Some sk =>
      let streakBonus := getStreakBonus u in
      let '(result, sk') := Skill.addXP sk xp streakBonus in
      (Some (mkXPResult skillType (Skill.leveledUp result)
               (Skill.newLevel result) (Skill.xpGained result) streakBonus),
       mk (username u) (createdAt u) (Some now)
          (<[skillType := sk']> (skills u)) (streak u)
          (mkStats (totalRoutinesCompleted (stats u))
             (totalTasksCompleted (stats u))
             (totalXPEarned (stats u) + Skill.xpGained result)
             (achievements (stats u))))
  end.

(** One turn of the loop of [addRoutineRewards]: a result that is not
    null is pushed. *)
Definition rewardStep (now : Date) (acc : list XPResult * t) (entry : string * Z)
  : list XPResult * t :=
  let result := addSkillXP now (snd acc) (fst entry) (snd entry) in
  match fst result with
  | Some r => (fst acc ++ [r], snd result)
  | None => (fst acc, snd result)
  end.

(** [skillRewards] is the list of the entries of the rewards object. *)
Definition addRoutineRewards (now : Date) (u : t) (skillRewards : list (string * Z))
  : list XPResult * t :=
  fold_left (rewardStep now) skillRewards ([], u).

Definition completeTask (now : Date) (u : t) : t :=
  mk (username u) (createdAt u) (Some now) (skills u) (streak u)
     (mkStats (totalRoutinesCompleted (stats u))
        (totalTasksCompleted (stats u) + 1)
        (totalXPEarned (stats u)) (achievements (stats u))).

Definition completeRoutine (now : Date) (u : t) : t :=
  let u1 :=
    mk (username u) (createdAt u) (lastActive u) (skills u) (streak u)
       (mkStats (totalRoutinesCompleted (stats u) + 1)
          (totalTasksCompleted (stats u))
          (totalXPEarned (stats u)) (achievements (stats u))) in
  let u2 := snd (updateStreak now u1) in
  mk (username u2) (createdAt u2) (Some now) (skills u2) (streak u2) (stats u2).

Definition unlockAchievement (u : t) (achievementId : string) : bool * t :=
  if bool_decide (achievementId ∈ achievements (stats u)) then (false, u)
  else
    (true,
     mk (username u) (createdAt u) (lastActive u) (skills u) (streak u)
        (mkStats (totalRoutinesCompleted (stats u))
           (totalTasksCompleted (stats u)) (totalXPEarned (stats u))
           (achievements (stats u) ++ [achievementId]))).

(** [Object.values(user.skills)] *)
Definition skillValues (u : t) : list Skill.t :=
  map snd (map_to_list (skills u)).

(** A persisted user; a field that is missing (or null) is [None].
    [j_skills] lists the entries of the [skills] object. For
    [j_username] a [None] is a missing field: the default of the
    constructor's parameter replaces [undefined] only, so a stored
    [null] would stay [null]; the statements on the username are for
    snapshots that hold one. *)
Record Snapshot := mkSnapshot {
  j_username : option string;
  j_createdAt : option Date;
  j_lastActive : option Date;
  j_skills : option (list (string * Skill.Snapshot));
  j_streak : option Streak;
  j_stats : option Stats
}.

(** [Object.entries(data.skills)] throws on a missing [skills]. *)
Definition fromJSON (now : Date) (data : Snapshot) : result t :=
  let user := constructor now (default "Hunter" (j_username data)) in
  match j_skills data with
  | None => Throw (TypeError "Cannot convert undefined or null to object")
  | Some entries =>
      let restored :=
        fold_left
          (fun (m : gmap string Skill.t) (entry : string * Skill.Snapshot) =>
             <[fst entry := Skill.fromJSON (snd entry)]> m)
          entries (skills user) in
      Return
        (mk (username user) (j_createdAt data) (j_lastActive data) restored
            (default emptyStreak (j_streak data))
            (default emptyStats (j_stats data)))
  end.

(** Operations a caller can run on a user. [Prestige] runs the body of
    the method on the skill of that type. *)
Inductive op :=
  | AddSkillXP (skillType : string) (xp : Z)
  | AddRoutineRewards (skillRewards : list (string * Z))
  | CompleteTask
  | CompleteRoutine
  | UpdateStreak
  | UnlockAchievement (achievementId : string)
  | Prestige (skillType : string).

Definition prestigeSkill (u : t) (skillType : string) : t :=
  match skills u !! skillType with
  | Some sk =>
      match Skill.prestige_method sk with
      | Return (_, sk') =>
          mk (username u) (createdAt u) (lastActive u)
             (<[skillType := sk']> (skills u)) (streak u) (stats u)
      | Throw _ => u
      end
  | None => u
  end.

Definition apply (now : Date) (o : op) (u : t) : t :=
  match o with
  | AddSkillXP skillType xp => snd (addSkillXP now u skillType xp)
  | AddRoutineRewards skillRewards => snd (addRoutineRewards now u skillRewards)
  | CompleteTask => completeTask now u
  | CompleteRoutine => completeRoutine now u
  | UpdateStreak => snd (updateStreak now u)
  | UnlockAchievement achievementId => snd (unlockAchievement u achievementId)
  | Prestige skillType => prestigeSkill u skillType
  end.

(** A history: operations with the time each one ran. *)
Definition run (history : list (Date * op)) (u : t) : t :=
  fold_left (fun u step => apply (fst step) (snd step) u) history u.

Definition awardsNonNegative (o : op) : Prop :=
  match o with
  | AddSkillXP _ xp => 0 <= xp
  | AddRoutineRewards skillRewards => Forall (fun entry => 0 <= snd entry) skillRewards
  | _ => True
  end.

Definition isPrestige (o : op) : bool :=
  match o with Prestige _ => true | _ => false end.

(** The loop runs from the last tier down and returns at the first one
    reached; [None] is the [null] after the loop. *)
Definition getStreakTierName (u : t) : option string :=
  option_map name
    (List.find (fun tier => days tier <=? current (streak u)) (rev STREAK_BONUSES)).

Definition getTotalLevel (u : t) : Z :=
  fold_left (fun sum sk => sum + Skill.level sk) (skillValues u) 0.

End User.

(** ** Routine (definition data) *)

Module Item.

(** [skillRewards] lists the entries of the item's rewards object and is
    [None] for an item without one. *)
Record t := mk {
  id : string;
  description : string;
  skillRewards : option (list (string * Z))
}.

End Item.

Module RoutineSection.

Record t := mk {
  id : string;
  name : string;
  items : list Item.t
}.

End RoutineSection.

Module Routine.

Record t := mk {
  id : string;
  name : string;
  sections : list RoutineSection.t
}.

(** An item as [getAllItems] and [getItem] hand it out: the item spread
    into a new object with the section it was found in. *)
Record FoundItem := mkFound {
  item : Item.t;
  sectionId : string;
  sectionName : string
}.

Definition getAllItems (r : t) : list FoundItem :=
  flat_map
    (fun sec =>
       map (fun it => mkFound it (RoutineSection.id sec) (RoutineSection.name sec))
           (RoutineSection.items sec))
    (sections r).

Definition getTotalItemCount (r : t) : nat := length (getAllItems r).

Fixpoint getItemIn (secs : list RoutineSection.t) (itemId : string)
  : option FoundItem :=
  match secs with
  | [] => None
  | sec :: rest =>
      match List.find (fun it => String.eqb (Item.id it) itemId)
                      (RoutineSection.items sec) with
      | Some it => Some (mkFound it (RoutineSection.id sec) (RoutineSection.name sec))
      | None => getItemIn rest itemId
      end
  end.

Definition getItem (r : t) (itemId : string) : option FoundItem :=
  getItemIn (sections r) itemId.

Definition hasItem (r : t) (itemId : string) : Prop :=
  exists sec it,
    In sec (sections r) /\ In it (RoutineSection.items sec) /\
    Item.id it = itemId.

(** [xpTotals[skill] = (xpTotals[skill] || 0) + xp], read on the own
    properties as in [RoutineSession.addEntry]. *)
Definition totalEntry (m : gmap string Z) (entry : string * Z) : gmap string Z :=
  <[fst entry := default 0 (m !! fst entry) + snd entry]> m.

Definition getTotalXP (r : t) : gmap string Z :=
  fold_left
    (fun (xpTotals : gmap string Z) (found : FoundItem) =>
       match Item.skillRewards (item found) with
       | Some rewards => fold_left totalEntry rewards xpTotals
       | None => xpTotals
       end)
    (getAllItems r) ∅.

Definition getSection (r : t) (sectionId : string) : option RoutineSection.t :=
  List.find (fun sec => String.eqb (RoutineSection.id sec) sectionId) (sections r).

End Routine.

(** ** RoutineSession *)

Module RoutineSession.

Inductive Status := not_started | in_progress | completed.

Record t := mk {
  routineId : string;
  date : Date;
  startedAt : option Date;
  completedAt : option Date;
  status : Status;
  completedItems : gset string;
  xpEarned : gmap string Z
}.

Definition constructor (now : Date) (routine : Routine.t) (date : option Date) : t :=
  mk (Routine.id routine) (default now date) None None not_started ∅ ∅.

Definition start (now : Date) (s : t) : t :=
  match status s with
  | not_started =>
      mk (routineId s) (date s) (Some now) (completedAt s) in_progress
         (completedItems s) (xpEarned s)
  | _ => s
  end.

(** [xpEarned[skill] = (xpEarned[skill] || 0) + xp], read on the own
    properties (for a [skill] of [objectPrototypeMembers] without an own
    entry the code adds to the inherited member and stores a string). *)
Definition addEntry (m : gmap string Z) (entry : string * Z) : gmap string Z :=
  <[fst entry := default 0 (m !! fst entry) + snd entry]> m.

Definition addRewards (skillRewards : list (string * Z)) (xp : gmap string Z)
  : gmap string Z :=
  fold_left addEntry skillRewards xp.

(** The entry is lowered by the reward and deleted when it is not
    positive any more; [(xpEarned[skill] || 0) - xp] is read on the own
    properties (for a [skill] of [objectPrototypeMembers] without an own
    entry the code stores [NaN]). *)
Definition subtractEntry (m : gmap string Z) (entry : string * Z) : gmap string Z :=
  let v := default 0 (m !! fst entry) - snd entry in
  if v <=? 0 then delete (fst entry) m else <[fst entry := v]> m.

Definition subtractRewards (skillRewards : list (string * Z)) (xp : gmap string Z)
  : gmap string Z :=
  fold_left subtractEntry skillRewards xp.

Definition completeItem (now : Date) (s : t) (itemId : string)
    (skillRewards : option (list (string * Z))) : t :=
  if bool_decide (itemId ∈ completedItems s) then s
  else
    let s1 :=
      mk (routineId s) (date s) (startedAt s) (completedAt s) (status s)
         ({[itemId]} ∪ completedItems s)
         (match skillRewards with
          | Some rewards => addRewards rewards (xpEarned s)
          | None => xpEarned s
          end) in
    match status s1 with
    | not_started => start now s1
    | _ => s1
    end.

Definition uncompleteItem (s : t) (itemId : string)
    (skillRewards : option (list (string * Z))) : t :=
  if bool_decide (itemId ∈ completedItems s) then
    mk (routineId s) (date s) (startedAt s) (completedAt s) (status s)
       (completedItems s ∖ {[itemId]})
       (match skillRewards with
        | Some rewards => subtractRewards rewards (xpEarned s)
        | None => xpEarned s
        end)
  else s.

Definition isComplete (s : t) (routine : Routine.t) : bool :=
  Nat.eqb (size (completedItems s)) (Routine.getTotalItemCount routine).

Definition complete (now : Date) (s : t) : t :=
  match status s with
  | completed => s
  | _ =>
      mk (routineId s) (date s) (startedAt s) (Some now) completed
         (completedItems s) (xpEarned s)
  end.

Definition reset (s : t) : t :=
  mk (routineId s) (date s) None None not_started ∅ ∅.

(** A persisted session; a missing field is [None]. *)
Record Snapshot := mkSnapshot {
  j_routineId : option string;
  j_date : option Date;
  j_startedAt : option Date;
  j_completedAt : option Date;
  j_status : option Status;
  j_completedItems : option (list string);
  j_xpEarned : option (gmap string Z)
}.

Definition toJSON (s : t) : Snapshot :=
  mkSnapshot (Some (routineId s)) (Some (date s)) (startedAt s) (completedAt s)
    (Some (status s)) (Some (elements (completedItems s))) (Some (xpEarned s)).

Definition fromJSON (now : Date) (data : Snapshot) (routine : Routine.t) : t :=
  let session := constructor now routine (j_date data) in
  mk (routineId session) (date session) (j_startedAt data) (j_completedAt data)
     (default not_started (j_status data))
     (list_to_set (default [] (j_completedItems data)))
     (default ∅ (j_xpEarned data)).

#[global] Instance inhabited : Inhabited t :=
  populate (mk "" (mkDate 0 0) None None not_started ∅ ∅).

Definition isItemCompleted (s : t) (itemId : string) : bool :=
  bool_decide (itemId ∈ completedItems s).

(** The calls a caller can make on a session. *)
Inductive op :=
  | Start
  | CompleteItem (itemId : string) (skillRewards : option (list (string * Z)))
  | UncompleteItem (itemId : string) (skillRewards : option (list (string * Z)))
  | Complete
  | Reset.

Definition apply (now : Date) (o : op) (s : t) : t :=
  match o with
  | Start => start now s
  | CompleteItem itemId skillRewards => completeItem now s itemId skillRewards
  | UncompleteItem itemId skillRewards => uncompleteItem s itemId skillRewards
  | Complete => complete now s
  | Reset => reset s
  end.

Definition run (history : list (Date * op)) (s : t) : t :=
  fold_left (fun s step => apply (fst step) (snd step) s) history s.

Definition isReset (o : op) : bool :=
  match o with Reset => true | _ => false end.

End RoutineSession.

(** ** Achievement *)

Module Achievement.

Record t := mk {
  id : string;
  name : string;
  description : string;
  icon : string;
  condition : User.t -> bool;
  unlockedAt : option Date
}.

Definition isUnlocked (a : t) : bool :=
  match unlockedAt a with Some _ => true | None => false end.

Definition unlock (now : Date) (a : t) : bool * t :=
  if isUnlocked a then (false, a)
  else (true, mk (id a) (name a) (description a) (icon a) (condition a) (Some now)).

(** An entry of the catalog. *)
Record Data := mkData {
  d_id : string;
  d_name : string;
  d_description : string;
  d_icon : string;
  d_condition : User.t -> bool
}.

Definition someSkill (p : Skill.t -> bool) (user : User.t) : bool :=
  existsb p (User.skillValues user).

Definition everySkill (p : Skill.t -> bool) (user : User.t) : bool :=
  forallb p (User.skillValues user).

Definition ACHIEVEMENTS : list Data :=
  [ mkData "first-routine" "First Steps" "Complete your first routine" "🎯"
      (fun user => 1 <=? User.totalRoutinesCompleted (User.stats user));
    mkData "first-task" "Getting Started" "Complete your first task" "✅"
      (fun user => 1 <=? User.totalTasksCompleted (User.stats user));
    mkData "streak-5" "Consistent" "Maintain a 5-day streak" "🔥"
      (fun user => 5 <=? User.current (User.streak user));
    mkData "streak-7" "Week Warrior" "Maintain a 7-day streak" "🔥"
      (fun user => 7 <=? User.current (User.streak user));
    mkData "streak-15" "Two Weeks Strong" "Maintain a 15-day streak" "🔥🔥"
      (fun user => 15 <=? User.current (User.streak user));
    mkData "streak-25" "Dedicated" "Maintain a 25-day streak" "🔥🔥"
      (fun user => 25 <=? User.current (User.streak user));
    mkData "streak-100" "Unstoppable" "Maintain a 100-day streak" "🔥🔥🔥"
      (fun user => 100 <=? User.current (User.streak user));
    mkData "streak-1000" "Legend" "Maintain a 1000-day streak" "🔥🔥🔥🔥🔥"
      (fun user => 1000 <=? User.current (User.streak user));
    mkData "routine-10" "Building Habits" "Complete 10 routines" "📈"
      (fun user => 10 <=? User.totalRoutinesCompleted (User.stats user));
    mkData "routine-25" "Habit Master" "Complete 25 routines" "📈"
      (fun user => 25 <=? User.totalRoutinesCompleted (User.stats user));
    mkData "routine-50" "Routine Expert" "Complete 50 routines" "🏆"
      (fun user => 50 <=? User.totalRoutinesCompleted (User.stats user));
    mkData "routine-100" "Century" "Complete 100 routines" "🏆"
      (fun user => 100 <=? User.totalRoutinesCompleted (User.stats user));
    mkData "skill-level-10" "Novice" "Reach level 10 in any skill" "⭐"
      (someSkill (fun s => 10 <=? Skill.level s));
    mkData "skill-level-25" "Skilled" "Reach level 25 in any skill" "⭐⭐"
      (someSkill (fun s => 25 <=? Skill.level s));
    mkData "skill-level-50" "Advanced" "Reach level 50 in any skill" "⭐⭐⭐"
      (someSkill (fun s => 50 <=? Skill.level s));
    mkData "skill-level-75" "Expert" "Reach level 75 in any skill" "🌟"
      (someSkill (fun s => 75 <=? Skill.level s));
    mkData "skill-level-100" "Mastery" "Reach level 100 in any skill" "💎"
      (someSkill (fun s => 100 <=? Skill.level s));
    mkData "all-skills-10" "Well Rounded" "Reach level 10 in all skills" "🎯"
      (everySkill (fun s => 10 <=? Skill.level s));
    mkData "all-skills-25" "Balanced" "Reach level 25 in all skills" "⚖️"
      (everySkill (fun s => 25 <=? Skill.level s));
    mkData "all-skills-50" "Renaissance" "Reach level 50 in all skills" "👑"
      (everySkill (fun s => 50 <=? Skill.level s));
    mkData "first-prestige" "New Game+" "Prestige a skill for the first time" "🌠"
      (someSkill (fun s => 1 <=? Skill.prestige s));
    mkData "prestige-5" "Eternal Student" "Reach prestige 5 in any skill" "♾️"
      (someSkill (fun s => 5 <=? Skill.prestige s));
    mkData "xp-1000" "XP Collector" "Earn 1,000 total XP" "💫"
      (fun user => 1000 <=? User.totalXPEarned (User.stats user));
    mkData "xp-10000" "XP Hoarder" "Earn 10,000 total XP" "✨"
      (fun user => 10000 <=? User.totalXPEarned (User.stats user));
    mkData "xp-50000" "XP Master" "Earn 50,000 total XP" "🌟"
      (fun user => 50000 <=? User.totalXPEarned (User.stats user));
    mkData "tasks-100" "Task Warrior" "Complete 100 tasks" "⚔️"
      (fun user => 100 <=? User.totalTasksCompleted (User.stats user));
    mkData "tasks-500" "Task Champion" "Complete 500 tasks" "🏅"
      (fun user => 500 <=? User.totalTasksCompleted (User.stats user));
    mkData "tasks-1000" "Task Legend" "Complete 1,000 tasks" "👑"
      (fun user => 1000 <=? User.totalTasksCompleted (User.stats user)) ].

(** The families of thresholds, told apart by the id as
    [getAchievementsByCategory] does. *)
Definition isStreakThreshold (d : Data) : bool :=
  String.prefix "streak-" (d_id d).

Definition isSkillLevelThreshold (d : Data) : bool :=
  String.prefix "skill-level-" (d_id d) || String.prefix "all-skills-" (d_id d).

Definition isXPThreshold (d : Data) : bool :=
  String.prefix "xp-" (d_id d).

End Achievement.

(** ** AchievementManager *)

Module AchievementManager.

(** The [Map] from id to achievement, as its entries in insertion
    order. *)
Record t := mk { achievements : list (string * Achievement.t) }.

(** [Map.set]: an existing key keeps its place, a new one goes last. *)
Fixpoint mapSet (key : string) (a : Achievement.t)
    (entries : list (string * Achievement.t)) : list (string * Achievement.t) :=
  match entries with
  | [] => [(key, a)]
  | (k, v) :: rest =>
      if String.eqb k key then (k, a) :: rest else (k, v) :: mapSet key a rest
  end.

Definition mapGet (key : string) (entries : list (string * Achievement.t))
  : option Achievement.t :=
  option_map snd (List.find (fun e => String.eqb (fst e) key) entries).

Definition initializeAchievements : list (string * Achievement.t) :=
  fold_left
    (fun entries data =>
       mapSet (Achievement.d_id data)
         (Achievement.mk (Achievement.d_id data) (Achievement.d_name data)
            (Achievement.d_description data) (Achievement.d_icon data)
            (Achievement.d_condition data) None)
         entries)
    Achievement.ACHIEVEMENTS [].

Definition constructor : t := mk initializeAchievements.

(** The loop of [checkAchievements] over the values of the map: the
    achievements unlocked on the way, the entries after the loop and the
    user after the loop. *)
Fixpoint checkLoop (now : Date) (entries : list (string * Achievement.t))
    (user : User.t)
  : list Achievement.t * list (string * Achievement.t) * User.t :=
  match entries with
  | [] => ([], [], user)
  | (k, a) :: rest =>
      if Achievement.isUnlocked a then
        let '(newly, rest', user') := checkLoop now rest user in
        (newly, (k, a) :: rest', user')
      else if Achievement.condition a user then
        let a' := snd (Achievement.unlock now a) in
        let user1 := snd (User.unlockAchievement user (Achievement.id a')) in
        let '(newly, rest', user') := checkLoop now rest user1 in
        (a' :: newly, (k, a') :: rest', user')
      else
        let '(newly, rest', user') := checkLoop now rest user in
        (newly, (k, a) :: rest', user')
  end.

Definition checkAchievements (now : Date) (m : t) (user : User.t)
  : list Achievement.t * t * User.t :=
  let '(newlyUnlocked, entries, user') := checkLoop now (achievements m) user in
  (newlyUnlocked, mk entries, user').

Definition restoreUnlocked (now : Date) (m : t) (unlockedIds : list string) : t :=
  mk (fold_left
        (fun entries id =>
           match mapGet id entries with
           | Some a =>
               if Achievement.isUnlocked a then entries
               else mapSet id (snd (Achievement.unlock now a)) entries
           | None => entries
           end)
        unlockedIds (achievements m)).

(** What callers do with a manager after it is built. *)
Inductive op :=
  | CheckAchievements (now : Date) (user : User.t)
  | RestoreUnlocked (now : Date) (unlockedIds : list string).

Definition apply (o : op) (m : t) : t :=
  match o with
  | CheckAchievements now user => snd (fst (checkAchievements now m user))
  | RestoreUnlocked now unlockedIds => restoreUnlocked now m unlockedIds
  end.

Definition run (history : list op) (m : t) : t :=
  fold_left (fun m o => apply o m) history m.

Definition newlyUnlockedIds (now : Date) (m : t) (user : User.t) : list string :=
  map Achievement.id (fst (fst (checkAchievements now m user))).

Definition getAchievement (m : t) (achievementId : string) : option Achievement.t :=
  mapGet achievementId (achievements m).

(** [Array.from(this.achievements.values())] *)
Definition getAllAchievements (m : t) : list Achievement.t :=
  map snd (achievements m).

Definition getUnlockedAchievements (m : t) : list Achievement.t :=
  List.filter Achievement.isUnlocked (getAllAchievements m).

Definition getLockedAchievements (m : t) : list Achievement.t :=
  List.filter (fun a => negb (Achievement.isUnlocked a)) (getAllAchievements m).

(** [String.prototype.includes] *)
Definition includes (s sub : string) : bool :=
  match String.index 0 sub s with
  | Some _ => true
  | None => false
  end.

Record Categories := mkCategories {
  streak : list Achievement.t;
  routine : list Achievement.t;
  skill : list Achievement.t;
  xp : list Achievement.t;
  task : list Achievement.t;
  prestige : list Achievement.t;
  other : list Achievement.t
}.

(** One turn of the loop of [getAchievementsByCategory]; [push] appends. *)
Definition categorize (categories : Categories) (achievement : Achievement.t)
  : Categories :=
  let '(mkCategories streak routine skill xp task prestige other) := categories in
  if String.prefix "streak-" (Achievement.id achievement) then
    mkCategories (streak ++ [achievement]) routine skill xp task prestige other
  else if String.prefix "routine-" (Achievement.id achievement) then
    mkCategories streak (routine ++ [achievement]) skill xp task prestige other
  else if includes (Achievement.id achievement) "skill"
          || includes (Achievement.id achievement) "prestige" then
    mkCategories streak routine (skill ++ [achievement]) xp task prestige other
  else if String.prefix "xp-" (Achievement.id achievement) then
    mkCategories streak routine skill (xp ++ [achievement]) task prestige other
  else if String.prefix "tasks-" (Achievement.id achievement) then
    mkCategories streak routine skill xp (task ++ [achievement]) prestige other
  else
    mkCategories streak routine skill xp task prestige (other ++ [achievement]).

Definition getAchievementsByCategory (m : t) : Categories :=
  fold_left categorize (getAllAchievements m) (mkCategories [] [] [] [] [] [] []).

End AchievementManager.

(** ** StorageManager (the session store in localStorage) *)

Module StorageManager.

(** The stored sessions by key; the key [routineId_dateString] is the
    pair of its two parts. *)
Record t := mk { sessions : gmap (string * Z) RoutineSession.Snapshot }.

Definition saveSessionLocal (now : Date) (st : t) (routineId : string)
    (session : RoutineSession.t) : t :=
  mk (<[(routineId, toDateString now) := RoutineSession.toJSON session]> (sessions st)).

Definition loadSessionLocal (now : Date) (st : t) (routineId : string)
    (date : option Date) : option RoutineSession.Snapshot :=
  sessions st !! (routineId, toDateString (default now date)).

End StorageManager.

(** ** RoutineManager *)

Module RoutineManager.

(** [sessions] maps a key to a reference into [heap], the session
    objects created so far; the objects are mutated in place. *)
Record t := mk {
  storageManager : StorageManager.t;
  routines : gmap string Routine.t;
  sessions : gmap (string * Z) nat;
  heap : list RoutineSession.t
}.

Definition constructor (storageManager : StorageManager.t) : t :=
  mk storageManager ∅ ∅ [].

(** Every cached reference points at a session object. *)
Definition wf (m : t) : Prop :=
  forall key ref, sessions m !! key = Some ref -> (ref < length (heap m))%nat.

Definition getRoutine (m : t) (routineId : string) : option Routine.t :=
  routines m !! routineId.

Definition getSession (now : Date) (m : t) (routineId : string)
    (date : option Date) : result (nat * t) :=
  match getRoutine m routineId with
  | None => Throw (Error ("Routine " +:+ routineId +:+ " not found"))
  | Some routine =>
      let dateStr := toDateString (default now date) in
      let sessionKey := (routineId, dateStr) in
      match sessions m !! sessionKey with
      | Some ref => Return (ref, m)
      | None =>
          let session :=
            match StorageManager.loadSessionLocal now (storageManager m)
                    routineId date with
            | Some savedSession => RoutineSession.fromJSON now savedSession routine
            | None => RoutineSession.constructor now routine date
            end in
          let ref := length (heap m) in
          Return (ref,
                  mk (storageManager m) (routines m)
                     (<[sessionKey := ref]> (sessions m))
                     (heap m ++ [session]))
      end
  end.

Definition saveSession (now : Date) (m : t) (routineId : string) (ref : nat) : t :=
  let session := heap m !!! ref in
  let dateStr := toDateString (RoutineSession.date session) in
  let sessionKey := (routineId, dateStr) in
  mk (StorageManager.saveSessionLocal now (storageManager m) routineId session)
     (routines m) (<[sessionKey := ref]> (sessions m)) (heap m).

Record CompleteResult := mkComplete {
  item : Routine.FoundItem;
  xpResults : list User.XPResult;
  session : nat;
  isRoutineComplete : bool
}.

Definition setSession (m : t) (ref : nat) (s : RoutineSession.t) : t :=
  mk (storageManager m) (routines m) (sessions m) (<[ref := s]> (heap m)).

(** [None] in the result is the [null] of an item that is not found. *)
Definition completeItem (now : Date) (m : t) (routineId itemId : string)
    (user : User.t) : result (option CompleteResult * t * User.t) :=
  let routine := getRoutine m routineId in
  match getSession now m routineId None with
  | Throw e => Throw e
  | Return (ref, m1) =>
      match routine with
      | None => Throw (TypeError "Cannot read properties of undefined (reading 'getItem')")
      | Some routine =>
          match Routine.getItem routine itemId with
          | None => Return (None, m1, user)
          | Some item =>
              let rewards := Item.skillRewards (Routine.item item) in
              let s1 := RoutineSession.completeItem now (heap m1 !!! ref) itemId rewards in
              let '(xpResults, user1) :=
                User.addRoutineRewards now user (default [] rewards) in
              let user2 := User.completeTask now user1 in
              let '(s2, user3) :=
                if RoutineSession.isComplete s1 routine
                then (RoutineSession.complete now s1, User.completeRoutine now user2)
                else (s1, user2) in
              let m2 := saveSession now (setSession m1 ref s2) routineId ref in
              Return (Some (mkComplete item xpResults ref
                              (RoutineSession.isComplete s2 routine)),
                      m2, user3)
          end
      end
  end.

Record UncompleteResult := mkUncomplete {
  u_item : Routine.FoundItem;
  u_session : nat
}.

Definition uncompleteItem (now : Date) (m : t) (routineId itemId : string)
  : result (option UncompleteResult * t) :=
  let routine := getRoutine m routineId in
  match getSession now m routineId None with
  | Throw e => Throw e
  | Return (ref, m1) =>
      match routine with
      | None => Throw (TypeError "Cannot read properties of undefined (reading 'getItem')")
      | Some routine =>
          match Routine.getItem routine itemId with
          | None => Return (None, m1)
          | Some item =>
              let rewards := Item.skillRewards (Routine.item item) in
              let s1 := RoutineSession.uncompleteItem (heap m1 !!! ref) itemId rewards in
              let m2 := saveSession now (setSession m1 ref s1) routineId ref in
              Return (Some (mkUncomplete item ref), m2)
          end
      end
  end.

(** The session a key of the cache stands for. *)
Definition sessionAt (m : t) (key : string * Z) : option RoutineSession.t :=
  match sessions m !! key with
  | Some ref => heap m !! ref
  | None => None
  end.

Definition resetSession (now : Date) (m : t) (routineId : string)
    (date : option Date) : result (nat * t) :=
  match getSession now m routineId date with
  | Throw e => Throw e
  | Return (ref, m1) =>
      let s1 := RoutineSession.reset (heap m1 !!! ref) in
      Return (ref, saveSession now (setSession m1 ref s1) routineId ref)
  end.

(** The calls a caller can make on a manager whose routines are loaded;
    [apply] gives the manager after the call (a call for a routine that
    is not loaded throws before it has changed anything). *)
Inductive op :=
  | GetSession (routineId : string) (date : option Date)
  | CompleteItem (routineId itemId : string) (user : User.t)
  | UncompleteItem (routineId itemId : string)
  | ResetSession (routineId : string) (date : option Date).

Definition apply (now : Date) (o : op) (m : t) : t :=
  match o with
  | GetSession routineId date =>
      match getSession now m routineId date with
      | Return (_, m') => m'
      | Throw _ => m
      end
  | CompleteItem routineId itemId user =>
      match completeItem now m routineId itemId user with
      | Return (_, m', _) => m'
      | Throw _ => m
      end
  | UncompleteItem routineId itemId =>
      match uncompleteItem now m routineId itemId with
      | Return (_, m') => m'
      | Throw _ => m
      end
  | ResetSession routineId date =>
      match resetSession now m routineId date with
      | Return (_, m') => m'
      | Throw _ => m
      end
  end.

Definition run (history : list (Date * op)) (m : t) : t :=
  fold_left (fun m step => apply (fst step) (snd step) m) history m.

End RoutineManager.

(** ** The streak bonus in the specification's words *)

(** Among the tiers of [table] whose day count is at most [current], the
    one with the highest day count, whatever the order of the table. *)
Definition highestTierReached (table : list User.StreakTier) (current : Z)
  : option User.StreakTier :=
  fold_left
    (fun best tier =>
       if User.days tier <=? current then
         match best with
         | Some b => if User.days b <? User.days tier then Some tier else best
         | None => Some tier
         end
       else best)
    table None.

Definition spec_streakBonusFraction (current : Z) : Q :=
  match highestTierReached User.STREAK_BONUSES current with
  | Some tier => User.bonus tier
  | None => 0%Q
  end.

(** ** Notions used in the statements *)

(** The XP granted by a list of results. *)
Definition sumXPGained (results : list User.XPResult) : Z :=
  fold_right (fun r acc => User.xpGained r + acc) 0 results.

(** The skills of [m'] are those of [m], key by key, with a prestige
    count that is not lower and, when [levels] is set, a level that is not
    lower. *)
Definition skillsGrow (levels : bool) (m m' : gmap string Skill.t) : Prop :=
  forall k,
    match m !! k, m' !! k with
    | Some s, Some s' =>
        Skill.prestige s <= Skill.prestige s' /\
        (levels = true -> Skill.level s <= Skill.level s')
    | None, None => True
    | _, _ => False
    end.

(** The counters of [u'] are not lower than those of [u]; the total XP
    is compared when [xp] is set and the levels when [levels] is. *)
Definition userGrows (levels xp : bool) (u u' : User.t) : Prop :=
  User.totalRoutinesCompleted (User.stats u)
    <= User.totalRoutinesCompleted (User.stats u') /\
  User.totalTasksCompleted (User.stats u)
    <= User.totalTasksCompleted (User.stats u') /\
  (xp = true ->
   User.totalXPEarned (User.stats u) <= User.totalXPEarned (User.stats u')) /\
  skillsGrow levels (User.skills u) (User.skills u').

Definition prestigeNonNegative (u : User.t) : Prop :=
  forall k s, User.skills u !! k = Some s -> 0 <= Skill.prestige s.

(** The keys of the map are distinct and each achievement sits under
    its own id. *)
Definition keyedById (entries : list (string * Achievement.t)) : Prop :=
  NoDup entries.*1 /\
  Forall (fun e => Achievement.id (snd e) = fst e) entries.

(** Entry by entry, the same key and id, and what was unlocked still
    is. *)
Definition entriesAdvance (es es' : list (string * Achievement.t)) : Prop :=
  Forall2
    (fun e e' =>
       fst e = fst e' /\
       Achievement.id (snd e) = Achievement.id (snd e') /\
       (Achievement.isUnlocked (snd e) = true ->
        Achievement.isUnlocked (snd e') = true))
    es es'.

Definition unlockedAtKey (entries : list (string * Achievement.t)) (k : string) : Prop :=
  exists a, (k, a) ∈ entries /\ Achievement.isUnlocked a = true.

Definition lockedAtKey (entries : list (string * Achievement.t)) (k : string) : Prop :=
  exists a, (k, a) ∈ entries /\ Achievement.isUnlocked a = false.

(** What an item's rewards and the task count do to a user. The results
    are those of [addRoutineRewards]; each rewarded skill the user has is
    the skill after [Skill.addXP], a result reports its gain, and its
    [totalXP] has grown by that gain; the gain is at least the reward
    when neither the reward nor the prestige count is negative, and it is
    the reward itself for a skill without prestige below a streak of five
    days. The total XP grows by the XP of the results and the task count
    by one. *)
Definition rewardedOnceMore (now : Date) (rewards : list (string * Z))
    (xpResults : list User.XPResult) (user user' : User.t) : Prop :=
  xpResults = fst (User.addRoutineRewards now user rewards) /\
  User.skills user' = User.skills (snd (User.addRoutineRewards now user rewards)) /\
  (forall k x sk,
     NoDup rewards.*1 -> (k, x) ∈ rewards -> User.skills user !! k = Some sk ->
     User.skills user' !! k = Some (snd (Skill.addXP sk x (User.getStreakBonus user))) /\
     exists r gained,
       r ∈ xpResults /\ User.skill r = k /\ User.xpGained r = gained /\
       Skill.totalXP (snd (Skill.addXP sk x (User.getStreakBonus user)))
         = Skill.totalXP sk + gained /\
       (0 <= x -> 0 <= Skill.prestige sk -> x <= gained) /\
       (Skill.prestige sk = 0 -> User.current (User.streak user) < 5 ->
        gained = x)) /\
  User.totalXPEarned (User.stats user')
    = User.totalXPEarned (User.stats user) + sumXPGained xpResults /\
  User.totalTasksCompleted (User.stats user')
    = User.totalTasksCompleted (User.stats user) + 1.

(** The requirement of a level, read off [getXPForNextLevel] (0 where
    that is NaN), and the requirements of [n] levels in a row. *)
Definition requirementAt (lvl : Z) : Z :=
  default 0 (Skill.getXPForNextLevel (Skill.mk None None None lvl 0 0 0)).

Fixpoint requirementsFrom (lvl : Z) (n : nat) : Z :=
  match n with
  | O => 0
  | S n' => requirementAt lvl + requirementsFrom (lvl + 1) n'
  end.

(** A streak as the operations keep it: [current] between 0 and
    [longest], and at least 1 once a completion is recorded. *)
Definition streakSound (s : User.Streak) : Prop :=
  0 <= User.current s <= User.longest s /\
  (User.lastCompleted s <> None -> 1 <= User.current s).

(** The dates fall on the days [day], [day + 1], ... in this order. *)
Fixpoint onConsecutiveDays (day : Z) (dates : list Date) : Prop :=
  match dates with
  | [] => True
  | d :: rest => toDateString d = day /\ onConsecutiveDays (day + 1) rest
  end.

(** A routine completed at each of the dates. *)
Definition routinesAt (dates : list Date) : list (Date * User.op) :=
  map (fun d => (d, User.CompleteRoutine)) dates.

(** Whether the user has a skill of that type. *)
Definition hasSkill (u : User.t) (k : string) : bool :=
  match User.skills u !! k with Some _ => true | None => false end.

(** The levels of a list of skills, added up. *)
Definition sumLevels (l : list Skill.t) : Z :=
  fold_right (fun sk acc => Skill.level sk + acc) 0 l.

(** The ledger after the rewards of an item went in. *)
Definition ledgerAfter (rewards : option (list (string * Z))) (m : gmap string Z)
  : gmap string Z :=
  match rewards with
  | Some r => RoutineSession.addRewards r m
  | None => m
  end.

(** How far a session has come. *)
Definition statusRank (st : RoutineSession.Status) : Z :=
  match st with
  | RoutineSession.not_started => 0
  | RoutineSession.in_progress => 1
  | RoutineSession.completed => 2
  end.

(** The status and the two time stamps of a session agree. *)
Definition stampsAgree (s : RoutineSession.t) : Prop :=
  (RoutineSession.status s = RoutineSession.completed
   <-> RoutineSession.completedAt s <> None) /\
  (RoutineSession.status s = RoutineSession.in_progress
   -> RoutineSession.startedAt s <> None) /\
  (RoutineSession.status s = RoutineSession.not_started
   -> RoutineSession.startedAt s = None).

(** The XP the entries of [rewards] hold for the category [k]. *)
Definition rewardFor (k : string) (rewards : list (string * Z)) : Z :=
  fold_right (fun entry acc => if String.eqb (fst entry) k then snd entry + acc else acc)
             0 rewards.

(** One [completeItem] per item of the list, in order. *)
Definition completeItems (now : Date) (s : RoutineSession.t)
    (items : list Routine.FoundItem) : RoutineSession.t :=
  fold_left
    (fun s found =>
       RoutineSession.completeItem now s (Item.id (Routine.item found))
         (Item.skillRewards (Routine.item found)))
    items s.

Definition itemIds (r : Routine.t) : list string :=
  map (fun found => Item.id (Routine.item found)) (Routine.getAllItems r).

(** The user with another list of unlocked achievement ids, and a
    condition that does not look at that list. *)
Definition withAchievements (u : User.t) (ids : list string) : User.t :=
  User.mk (User.username u) (User.createdAt u) (User.lastActive u) (User.skills u)
    (User.streak u)
    (User.mkStats (User.totalRoutinesCompleted (User.stats u))
       (User.totalTasksCompleted (User.stats u)) (User.totalXPEarned (User.stats u))
       ids).

Definition ignoresUnlocked (a : Achievement.t) : Prop :=
  forall (u : User.t) (ids : list string),
    Achievement.condition a (withAchievements u ids) = Achievement.condition a u.

(** A locked achievement whose condition the user meets. *)
Definition dueFor (user : User.t) (a : Achievement.t) : bool :=
  negb (Achievement.isUnlocked a) && Achievement.condition a user.

(** The same achievement but for the time of unlocking. *)
Definition sameButUnlockedAt (a a' : Achievement.t) : Prop :=
  Achievement.id a' = Achievement.id a /\
  Achievement.name a' = Achievement.name a /\
  Achievement.description a' = Achievement.description a /\
  Achievement.icon a' = Achievement.icon a /\
  Achievement.condition a' = Achievement.condition a.

(** Entry by entry, the same key and the same achievement but for the
    time of unlocking, and an unlocked achievement is left as it is. *)
Definition entriesKept (es es' : list (string * Achievement.t)) : Prop :=
  Forall2
    (fun e e' =>
       fst e' = fst e /\
       sameButUnlockedAt (snd e) (snd e') /\
       (Achievement.isUnlocked (snd e) = true -> snd e' = snd e))
    es es'.

(** The ids filed under each category, in the order of the fields. *)
Definition categoryIds (c : AchievementManager.Categories) : list (list string) :=
  map (map Achievement.id)
    [ AchievementManager.streak c; AchievementManager.routine c;
      AchievementManager.skill c; AchievementManager.xp c;
      AchievementManager.task c; AchievementManager.prestige c;
      AchievementManager.other c ].

(** Every cached session belongs to the routine of its key. *)
Definition sessionsOwned (m : RoutineManager.t) : Prop :=
  forall (key : string * Z) (ref : nat) (s : RoutineSession.t) (routine : Routine.t),
    RoutineManager.sessions m !! key = Some ref ->
    RoutineManager.heap m !! ref = Some s ->
    RoutineManager.routines m !! fst key = Some routine ->
    RoutineSession.routineId s = Routine.id routine.

(** A manager built anew on a storage, with the routines loaded. *)
Definition reloaded (storage : StorageManager.t) (routines : gmap string Routine.t)
  : RoutineManager.t :=
  RoutineManager.mk storage routines ∅ [].

(** What the manager holds for the routine today is what a manager
    built anew on its storage loads on that day. *)
Definition reloadsToday (now : Date) (routineId : string) (m : RoutineManager.t)
  : Prop :=
  exists s : RoutineSession.t,
    RoutineManager.sessionAt m (routineId, toDateString now) = Some s /\
    forall now' : Date,
      toDateString now' = toDateString now ->
      exists ref' m',
        RoutineManager.getSession now'
          (reloaded (RoutineManager.storageManager m) (RoutineManager.routines m))
          routineId None = Return (ref', m') /\
        RoutineManager.heap m' !! ref' = Some s.

(** ** Sample data *)

Definition noon (day : Z) : Date := mkDate day 43200000.

Definition freshLogic : Skill.t :=
  Skill.constructor (Some "Logic") (Some "🧩") (Some "logic").

Definition seasonedLogic : Skill.t :=
  Skill.mk (Some "Logic") (Some "🧩") (Some "logic") 3 40 700 2.

Definition masterLogic : Skill.t :=
  Skill.mk (Some "Logic") (Some "🧩") (Some "logic") 100 0 250000 0.

Definition hunter : User.t := User.constructor (noon 1) "Hunter".

Definition withStreak (u : User.t) (s : User.Streak) : User.t :=
  User.mk (User.username u) (User.createdAt u) (User.lastActive u)
          (User.skills u) s (User.stats u).

(** A snapshot that has everything but [skills]. *)
Definition snapshotWithoutSkills : User.Snapshot :=
  User.mkSnapshot (Some "Hunter") (Some (noon 1)) (Some (noon 2)) None
    (Some (User.mkStreak 3 6 (Some (noon 2))))
    (Some (User.mkStats 4 17 2300 ["first-task"; "first-routine"])).

(** A snapshot that has nothing but an (empty) [skills]. *)
Definition snapshotOnlySkills : User.Snapshot :=
  User.mkSnapshot None None None (Some []) None None.

Definition stretchRewards : option (list (string * Z)) :=
  Some [("physical", 10)].

(** A session in which the item "stretch" is completed already. *)
Definition stretchedSession : RoutineSession.t :=
  RoutineSession.mk "morning" (noon 1) (Some (noon 1)) None
    RoutineSession.in_progress {["stretch"]} {["physical" := 10]}.

Definition emptySession : RoutineSession.t :=
  RoutineSession.mk "morning" (noon 1) None None RoutineSession.not_started ∅ ∅.

(** A morning routine of three items in two sections. *)
Definition morningRoutine : Routine.t :=
  Routine.mk "morning" "Morning Routine"
    [ RoutineSection.mk "wake" "Wake up"
        [ Item.mk "stretch" "Stretch for five minutes" stretchRewards;
          Item.mk "water" "Drink a glass of water" None ];
      RoutineSection.mk "focus" "Focus"
        [ Item.mk "puzzle" "Solve a puzzle" (Some [("logic", 150); ("mental", 20)]) ] ].

(** A routine of one item. *)
Definition shortRoutine : Routine.t :=
  Routine.mk "short" "Short Routine"
    [ RoutineSection.mk "only" "Only" [ Item.mk "stretch" "Stretch" stretchRewards ] ].

Definition sampleManager : RoutineManager.t :=
  RoutineManager.mk (StorageManager.mk ∅)
    (<["morning" := morningRoutine]> (<["short" := shortRoutine]> ∅)) ∅ [].

(** The manager of a result, [dflt] for a call that threw. *)
Definition managerAfter {A : Type} (dflt : RoutineManager.t)
    (r : result (A * RoutineManager.t)) : RoutineManager.t :=
  match r with
  | Return (_, m) => m
  | Throw _ => dflt
  end.

(** The manager after "stretch" of the morning routine was completed. *)
Definition stretchedManager : RoutineManager.t :=
  match RoutineManager.completeItem (noon 1) sampleManager "morning" "stretch" hunter with
  | Return (_, m, _) => m
  | Throw _ => sampleManager
  end.

(** The manager after the only item of the short routine was completed:
    its session is complete. *)
Definition shortDoneManager : RoutineManager.t :=
  match RoutineManager.completeItem (noon 1) sampleManager "short" "stretch" hunter with
  | Return (_, m, _) => m
  | Throw _ => sampleManager
  end.

(** Entries of the catalog by position: "streak-5", "skill-level-10" and
    "xp-1000". *)
Definition noAchievement : Achievement.Data :=
  Achievement.mkData "" "" "" "" (fun _ => false).

Definition skillLevel10 : Achievement.Data :=
  nth 12 Achievement.ACHIEVEMENTS noAchievement.

Definition xp1000 : Achievement.Data := nth 22 Achievement.ACHIEVEMENTS noAchievement.

Definition streak5 : Achievement.Data := nth 2 Achievement.ACHIEVEMENTS noAchievement.

(** A user on a streak of five days, last completed on day 10. *)
Definition streakUser : User.t :=
  withStreak hunter (User.mkStreak 5 5 (Some (noon 10))).

(** A user with one task done. *)
Definition taskedUser : User.t := User.completeTask (noon 1) hunter.

(** A user awarded 1000 XP in logic. *)
Definition xpUser : User.t := snd (User.addSkillXP (noon 1) hunter "logic" 1000).

(** A user whose logic skill is at level 100. *)
Definition masterUser : User.t :=
  User.mk (User.username hunter) (User.createdAt hunter) (User.lastActive hunter)
    (<["logic" := masterLogic]> (User.skills hunter)) (User.streak hunter)
    (User.stats hunter).

Definition busyDays : list (Date * User.op) :=
  [ (noon 2, User.AddRoutineRewards [("logic", 150); ("mental", 20)]);
    (noon 2, User.CompleteTask);
    (noon 3, User.CompleteRoutine);
    (noon 3, User.Prestige "logic");
    (noon 4, User.UnlockAchievement "first-task") ].

(** The user and the result of that call. *)
Definition shortDoneUser : User.t :=
  match RoutineManager.completeItem (noon 1) sampleManager "short" "stretch" hunter with
  | Return (_, _, u) => u
  | Throw _ => hunter
  end.

Definition shortDoneResult : RoutineManager.CompleteResult :=
  RoutineManager.mkComplete
    (Routine.mkFound (Item.mk "stretch" "Stretch" stretchRewards) "only" "Only")
    [User.mkXPResult "physical" false 1 10 0%Q] 0%nat true.

(** A routine in which the two sections both hold an item "stretch". *)
Definition repeatedRoutine : Routine.t :=
  Routine.mk "repeated" "Repeated Routine"
    [ RoutineSection.mk "wake" "Wake up" [ Item.mk "stretch" "Stretch" stretchRewards ];
      RoutineSection.mk "evening" "Evening" [ Item.mk "stretch" "Stretch again" None ] ].

(** A manager restored from the ids saved with a user, one of which no
    achievement has; what is done with it later; and the manager and the
    user after a first check. *)
Definition restoredManager : AchievementManager.t :=
  AchievementManager.restoreUnlocked (noon 1) AchievementManager.constructor
    ["first-task"; "no-such-achievement"].

Definition laterChecks : list AchievementManager.op :=
  [ AchievementManager.CheckAchievements (noon 3) taskedUser;
    AchievementManager.RestoreUnlocked (noon 4) ["first-task"; "streak-5"] ].

Definition checkedManager : AchievementManager.t :=
  snd (fst (AchievementManager.checkAchievements (noon 2)
              AchievementManager.constructor taskedUser)).

Definition checkedUser : User.t :=
  snd (AchievementManager.checkAchievements (noon 2)
         AchievementManager.constructor taskedUser).

(** A day of work with the manager: an item completed, the session
    looked up again, another item completed and taken back. *)
Definition managerDay : list (Date * RoutineManager.op) :=
  [ (noon 1, RoutineManager.CompleteItem "morning" "stretch" hunter);
    (noon 1, RoutineManager.GetSession "morning" None);
    (noon 1, RoutineManager.CompleteItem "morning" "puzzle" hunter);
    (noon 1, RoutineManager.UncompleteItem "morning" "puzzle") ].

Definition managerAfterDay : RoutineManager.t :=
  RoutineManager.run managerDay
    (reloaded (StorageManager.mk ∅) (RoutineManager.routines sampleManager)).

(** A session of the short routine as a storage can hold it: its only
    item is completed and its status is still [in_progress]. The manager
    is built anew on that storage. *)
Definition staleSession : RoutineSession.t :=
  RoutineSession.mk "short" (noon 1) (Some (noon 1)) None
    RoutineSession.in_progress {["stretch"]} {["physical" := 10]}.

Definition staleManager : RoutineManager.t :=
  reloaded
    (StorageManager.mk
       {[("short", toDateString (noon 1)) := RoutineSession.toJSON staleSession]})
    (RoutineManager.routines sampleManager).

Definition staleLoaded : RoutineManager.t :=
  managerAfter staleManager
    (RoutineManager.getSession (noon 1) staleManager "short" None).

Definition staleAfter : RoutineManager.t :=
  match RoutineManager.completeItem (noon 1) staleManager "short" "stretch" hunter with
  | Return (_, m, _) => m
  | Throw _ => staleManager
  end.

(** * Properties *)

(** *** The level-up loop *)

Lemma levelUpBody_level (s : Skill.t) :
  Skill.levelUpTest s = true ->
  Skill.level (Skill.levelUpBody s) = Skill.level s + 1.
Proof.
  unfold Skill.levelUpTest, Skill.levelUpBody.
  destruct (Skill.getXPForNextLevel s); [reflexivity | discriminate].
Qed.

Lemma levelUpTest_below_100 (s : Skill.t) :
  Skill.levelUpTest s = true -> Skill.level s < 100.
Proof.
  unfold Skill.levelUpTest.
  destruct (Skill.getXPForNextLevel s); [|discriminate].
  intros H. apply andb_true_iff in H as [_ H]. lia.
Qed.

(** With [100 - level] turns of fuel the loop stops because its test
    fails, never because the fuel ran out. *)
Lemma levelUpLoop_exit (fuel : nat) :
  forall (s : Skill.t) (b : bool) (n : Z),
    100 - Skill.level s <= Z.of_nat fuel ->
    Skill.levelUpTest (fst (fst (Skill.levelUpLoop fuel s b n))) = false.
Proof.
  induction fuel as [|fuel IH]; intros s b n Hfuel; simpl.
  - destruct (Skill.levelUpTest s) eqn:Ht; [|reflexivity].
    apply levelUpTest_below_100 in Ht. lia.
  - destruct (Skill.levelUpTest s) eqn:Ht; [|exact Ht].
    apply IH. rewrite levelUpBody_level by exact Ht. lia.
Qed.

Lemma levelUpLoop_level_mono (fuel : nat) :
  forall (s : Skill.t) (b : bool) (n : Z),
    Skill.level s <= Skill.level (fst (fst (Skill.levelUpLoop fuel s b n))).
Proof.
  induction fuel as [|fuel IH]; intros s b n; simpl; [lia|].
  destruct (Skill.levelUpTest s) eqn:Ht; simpl; [|lia].
  specialize (IH (Skill.levelUpBody s) true (Skill.level (Skill.levelUpBody s))).
  pose proof (levelUpBody_level s Ht). lia.
Qed.

Lemma levelUpLoop_prestige (fuel : nat) :
  forall (s : Skill.t) (b : bool) (n : Z),
    Skill.prestige (fst (fst (Skill.levelUpLoop fuel s b n))) = Skill.prestige s.
Proof.
  induction fuel as [|fuel IH]; intros s b n; simpl; [reflexivity|].
  destruct (Skill.levelUpTest s); [|reflexivity].
  rewrite IH. unfold Skill.levelUpBody.
  destruct (Skill.getXPForNextLevel s); reflexivity.
Qed.

Lemma addXP_loop (s : Skill.t) (xp : Z) (bonus : Q) :
  exists s1 : Skill.t,
    Skill.level s1 = Skill.level s /\
    Skill.prestige s1 = Skill.prestige s /\
    snd (Skill.addXP s xp bonus) =
      fst (fst (Skill.levelUpLoop (Z.to_nat (100 - Skill.level s1)) s1 false
                                  (Skill.level s1))).
Proof.
  unfold Skill.addXP.
  set (adj := Qfloor _).
  set (s1 := Skill.mk _ _ _ _ _ _ _).
  exists s1. split; [reflexivity|]. split; [reflexivity|].
  destruct (Skill.levelUpLoop _ s1 false _) as [[s2 b] n]. reflexivity.
Qed.

Lemma addXP_level_mono (s : Skill.t) (xp : Z) (bonus : Q) :
  Skill.level s <= Skill.level (snd (Skill.addXP s xp bonus)).
Proof.
  destruct (addXP_loop s xp bonus) as (s1 & Hl & _ & ->).
  rewrite <- Hl. apply levelUpLoop_level_mono.
Qed.

Lemma addXP_prestige (s : Skill.t) (xp : Z) (bonus : Q) :
  Skill.prestige (snd (Skill.addXP s xp bonus)) = Skill.prestige s.
Proof.
  destruct (addXP_loop s xp bonus) as (s1 & _ & Hp & ->).
  rewrite levelUpLoop_prestige. exact Hp.
Qed.

Lemma addXP_xpGained (s : Skill.t) (xp : Z) (bonus : Q) :
  Skill.xpGained (fst (Skill.addXP s xp bonus)) =
  Qfloor (inject_Z xp * (Skill.getPrestigeMultiplier s * (1 + bonus)))%Q.
Proof.
  unfold Skill.addXP.
  destruct (Skill.levelUpLoop _ _ false _) as [[s2 b] n]. reflexivity.
Qed.

(** The requirement of the first levels, and the worked award of the
    specification: 150 raw XP on a fresh skill give level 2 with 50 XP. *)
Example getXPForNextLevel_first_levels :
  map (fun l => Skill.getXPForNextLevel (Skill.mk None None None l 0 0 0))
      [1; 2; 3; 4; 99; 100]
  = [Some 100; Some 282; Some 519; Some 800; Some 98503; Some 0].
Proof. reflexivity. Qed.

Example addXP_150_on_fresh_skill :
  Skill.addXP freshLogic 150 0
  = (Skill.mkAddXP true 2 150,
     Skill.mk (Some "Logic") (Some "🧩") (Some "logic") 2 50 150 0).
Proof. reflexivity. Qed.

(** *** Prestige *)

(** Run on its own, the body of [prestige()] refuses a skill below level
    100 and resets a skill at level 100, keeping [totalXP]. *)
Lemma prestige_method_spec (s : Skill.t) :
  (Skill.level s < 100 ->
   Skill.prestige_method s = Throw (Error "Must be level 100 to prestige")) /\
  (Skill.level s = 100 ->
   exists r s',
     Skill.prestige_method s = Return (r, s') /\
     Skill.level s' = 1 /\ Skill.currentXP s' = 0 /\
     Skill.prestige s' = Skill.prestige s + 1 /\
     Skill.totalXP s' = Skill.totalXP s /\
     Skill.prestigeLevel r = Skill.prestige s + 1 /\
     Skill.multiplier r = (1 + inject_Z (Skill.prestige s + 1) * 0.05)%Q).
Proof.
  unfold Skill.prestige_method. split; intros H.
  - destruct (Z.ltb_spec (Skill.level s) 100); [reflexivity | lia].
  - destruct (Z.ltb_spec (Skill.level s) 100); [lia|].
    eexists _, _. split; [reflexivity|]. simpl. repeat split.
Qed.

(** C1 (the code departs from the claim). The call [skill.prestige()]
    never reaches the method: the constructor gives every instance an own
    property [prestige] holding the prestige count, which hides the method
    of the same name on the prototype. For every skill, at level 100 as
    below it, the call raises a TypeError, the skill is left as it was and
    no record is returned. *)
Theorem C1_prestige_call_hits_own_property :
  forall s : Skill.t,
    Skill.getMember "prestige" = Some Skill.OwnData /\
    Skill.call_prestige s = Throw (TypeError "skill.prestige is not a function") /\
    Skill.call_prestige masterLogic
      = Throw (TypeError "skill.prestige is not a function").
Proof.
  intros s. repeat split.
Qed.

(** *** Awarding XP *)

Lemma addXP_invariant (s : Skill.t) (xp : Z) (bonus : Q) :
  0 <= Skill.level s ->
  Skill.level (snd (Skill.addXP s xp bonus)) < 100 ->
  exists req,
    Skill.getXPForNextLevel (snd (Skill.addXP s xp bonus)) = Some req /\
    Skill.currentXP (snd (Skill.addXP s xp bonus)) < req.
Proof.
  intros Hlvl Hlt.
  pose proof (addXP_level_mono s xp bonus) as Hmono.
  destruct (addXP_loop s xp bonus) as (s1 & Hl & _ & Heq).
  assert (Hexit : Skill.levelUpTest (snd (Skill.addXP s xp bonus)) = false).
  { rewrite Heq. apply levelUpLoop_exit. lia. }
  revert Hexit Hlt Hmono. generalize (snd (Skill.addXP s xp bonus)) as s'.
  intros s'. unfold Skill.levelUpTest, Skill.getXPForNextLevel.
  destruct (Z.leb_spec 100 (Skill.level s')); [lia|].
  destruct (Z.ltb_spec (Skill.level s') 0); [lia|].
  intros Hexit _ _. eexists. split; [reflexivity|].
  apply andb_false_iff in Hexit as [Hexit | Hexit]; lia.
Qed.

(** C2 (amended). For every skill whose level is not negative, every raw
    XP award and every bonus fraction, after [addXP] the current XP is
    below the requirement of the level reached whenever that level is
    below 100. One award can cross several thresholds: a fresh level-1
    skill awarded 1000 raw XP with no bonus crosses three (100, 282 and
    519) and ends at level 4 with 99 XP. *)
Theorem C2_addXP_invariant_and_cascade :
  (forall (s : Skill.t) (xp : Z) (bonus : Q),
     0 <= Skill.level s ->
     Skill.level (snd (Skill.addXP s xp bonus)) < 100 ->
     exists req,
       Skill.getXPForNextLevel (snd (Skill.addXP s xp bonus)) = Some req /\
       Skill.currentXP (snd (Skill.addXP s xp bonus)) < req) /\
  (forall name icon type : option string,
     Skill.addXP (Skill.constructor name icon type) 1000 0 =
     (Skill.mkAddXP true 4 1000, Skill.mk name icon type 4 99 1000 0)).
Proof.
  split.
  - apply addXP_invariant.
  - intros name icon type. reflexivity.
Qed.

Lemma C2_addXP_invariant_and_cascade_witness :
  exists req,
    Skill.getXPForNextLevel (snd (Skill.addXP seasonedLogic 5000 0.10)) = Some req /\
    Skill.currentXP (snd (Skill.addXP seasonedLogic 5000 0.10)) < req.
Proof.
  apply (proj1 C2_addXP_invariant_and_cascade seasonedLogic 5000 0.10%Q).
  - simpl. lia.
  - vm_compute. reflexivity.
Defined.

(** C2, as stated, fails: the fresh level-1 skill awarded 1000 raw XP at
    multiplier 1 stops at level 4, short of level 5. *)
Lemma C2_level_5_not_reached :
  Skill.level freshLogic = 1 /\ Skill.currentXP freshLogic = 0 /\
  Skill.prestige freshLogic = 0 /\
  Skill.level (snd (Skill.addXP freshLogic 1000 0)) = 4 /\
  ~ (5 <= Skill.level (snd (Skill.addXP freshLogic 1000 0))).
Proof.
  vm_compute. repeat split; congruence.
Qed.

(** *** Streak *)

(** C6. [updateStreak] sets [current] to 1 when there was no completion
    before, leaves it alone when the last completion was today, adds one
    when it was yesterday and resets it to 1 after a gap of two days or
    more; [longest] becomes the larger of [longest] and the new [current],
    so it never decreases. The new [current] is what the call returns. *)
Theorem C6_updateStreak_rules (now : Date) (u : User.t) :
  (User.lastCompleted (User.streak u) = None ->
   User.current (User.streak (snd (User.updateStreak now u))) = 1) /\
  (forall last : Date,
     User.lastCompleted (User.streak u) = Some last ->
     (toDateString last = toDateString now ->
      User.current (User.streak (snd (User.updateStreak now u)))
        = User.current (User.streak u)) /\
     (toDateString last = toDateString (previousDay now) ->
      User.current (User.streak (snd (User.updateStreak now u)))
        = User.current (User.streak u) + 1) /\
     (toDateString last + 2 <= toDateString now ->
      User.current (User.streak (snd (User.updateStreak now u))) = 1)) /\
  User.longest (User.streak (snd (User.updateStreak now u)))
    = Z.max (User.longest (User.streak u))
            (User.current (User.streak (snd (User.updateStreak now u)))) /\
  User.longest (User.streak u)
    <= User.longest (User.streak (snd (User.updateStreak now u))) /\
  fst (User.updateStreak now u)
    = User.current (User.streak (snd (User.updateStreak now u))).
Proof.
  unfold User.updateStreak, toDateString, previousDay.
  destruct (User.lastCompleted (User.streak u)) as [d|]; simpl.
  - split; [discriminate|]. split.
    + intros last [= <-]. repeat split; intros Hday.
      * destruct (Z.eqb_spec (dayNumber d) (dayNumber now)); [reflexivity | lia].
      * destruct (Z.eqb_spec (dayNumber d) (dayNumber now)); [lia|].
        destruct (Z.eqb_spec (dayNumber d) (dayNumber now - 1)); [reflexivity | lia].
      * destruct (Z.eqb_spec (dayNumber d) (dayNumber now)); [lia|].
        destruct (Z.eqb_spec (dayNumber d) (dayNumber now - 1)); [lia | reflexivity].
    + repeat split;
        match goal with
        | |- context [Z.ltb ?a ?b] => destruct (Z.ltb_spec a b); lia
        end.
  - split; [reflexivity|]. split; [discriminate|].
    repeat split; destruct (Z.ltb_spec (User.longest (User.streak u)) 1); lia.
Qed.

Lemma C6_updateStreak_rules_witness :
  User.current (User.streak (snd (User.updateStreak (noon 8) hunter))) = 1 /\
  User.current (User.streak (snd (User.updateStreak (noon 8)
     (withStreak hunter (User.mkStreak 3 6 (Some (mkDate 8 100))))))) = 3 /\
  User.current (User.streak (snd (User.updateStreak (noon 8)
     (withStreak hunter (User.mkStreak 3 6 (Some (noon 7))))))) = 3 + 1 /\
  User.current (User.streak (snd (User.updateStreak (noon 8)
     (withStreak hunter (User.mkStreak 3 6 (Some (noon 6))))))) = 1.
Proof.
  split; [|split; [|split]].
  - apply (proj1 (C6_updateStreak_rules (noon 8) hunter)). reflexivity.
  - apply (proj1 (proj2 (C6_updateStreak_rules (noon 8)
             (withStreak hunter (User.mkStreak 3 6 (Some (mkDate 8 100))))))
             (mkDate 8 100)); reflexivity.
  - apply (proj1 (proj2 (C6_updateStreak_rules (noon 8)
             (withStreak hunter (User.mkStreak 3 6 (Some (noon 7))))))
             (noon 7)); reflexivity.
  - apply (proj1 (proj2 (C6_updateStreak_rules (noon 8)
             (withStreak hunter (User.mkStreak 3 6 (Some (noon 6))))))
             (noon 6)); [reflexivity | vm_compute; discriminate].
Defined.

(** The loop of [getStreakBonus] and the choice of the highest tier
    reached agree on the table of the code. *)
Lemma getStreakBonus_spec (u : User.t) :
  User.getStreakBonus u = spec_streakBonusFraction (User.current (User.streak u)).
Proof.
  unfold User.getStreakBonus, spec_streakBonusFraction, highestTierReached.
  generalize (User.current (User.streak u)) as c. intros c. simpl.
  repeat (match goal with
          | |- context [Z.leb ?a c] => destruct (Z.leb_spec a c)
          end; simpl); try reflexivity; lia.
Qed.

Lemma getStreakBonus_cases (u : User.t) :
  let c := User.current (User.streak u) in
  User.getStreakBonus u =
    if 100 <=? c then 0.50%Q
    else if 50 <=? c then 0.30%Q
    else if 25 <=? c then 0.20%Q
    else if 15 <=? c then 0.15%Q
    else if 7 <=? c then 0.10%Q
    else if 5 <=? c then 0.05%Q
    else 0%Q.
Proof.
  unfold User.getStreakBonus.
  generalize (User.current (User.streak u)) as c. intros c. simpl.
  repeat (match goal with
          | |- context [Z.leb ?a c] => destruct (Z.leb_spec a c)
          end; simpl); try reflexivity; lia.
Qed.

Lemma getStreakBonus_nonneg (u : User.t) : (0 <= User.getStreakBonus u)%Q.
Proof.
  rewrite getStreakBonus_cases. simpl.
  repeat (match goal with
          | |- context [Z.leb ?a ?c] => destruct (Z.leb a c)
          end); unfold Qle; simpl; lia.
Qed.

(** C7. [getStreakBonus] returns the bonus of the tier with the highest
    day count among those of the table (5: 5%, 7: 10%, 15: 15%, 25: 20%,
    50: 30%, 100: 50%) whose day count is at most [streak.current], and
    0 when there is none; at [streak.current = 7] it is 0.10 and not
    0.05. *)
Theorem C7_getStreakBonus_highest_tier :
  (forall u : User.t,
     User.getStreakBonus u = spec_streakBonusFraction (User.current (User.streak u))) /\
  (forall u : User.t,
     User.getStreakBonus u =
       if 100 <=? User.current (User.streak u) then 0.50%Q
       else if 50 <=? User.current (User.streak u) then 0.30%Q
       else if 25 <=? User.current (User.streak u) then 0.20%Q
       else if 15 <=? User.current (User.streak u) then 0.15%Q
       else if 7 <=? User.current (User.streak u) then 0.10%Q
       else if 5 <=? User.current (User.streak u) then 0.05%Q
       else 0%Q) /\
  (forall (u : User.t) (longest : Z) (last : option Date),
     User.getStreakBonus (withStreak u (User.mkStreak 7 longest last)) = 0.10%Q /\
     ~ (User.getStreakBonus (withStreak u (User.mkStreak 7 longest last)) == 0.05)%Q).
Proof.
  split; [exact getStreakBonus_spec|]. split; [exact getStreakBonus_cases|].
  intros u longest last. split; [reflexivity|].
  vm_compute. discriminate.
Qed.

(** *** Restoring a user *)

(** With [skills] present, [fromJSON] returns, and a missing [streak] or
    [stats] is replaced by the empty record. *)
Lemma fromJSON_defaults (now : Date) (data : User.Snapshot)
    (entries : list (string * Skill.Snapshot)) :
  User.j_skills data = Some entries ->
  exists u,
    User.fromJSON now data = Return u /\
    User.streak u = default (User.mkStreak 0 0 None) (User.j_streak data) /\
    User.stats u = default (User.mkStats 0 0 0 []) (User.j_stats data).
Proof.
  intros H. unfold User.fromJSON. rewrite H. eexists. repeat split.
Qed.

Example fromJSON_only_skills :
  User.fromJSON (noon 3) snapshotOnlySkills
  = Return (User.mk "Hunter" None None (User.skills (User.constructor (noon 3) "Hunter"))
              (User.mkStreak 0 0 None) (User.mkStats 0 0 0 [])).
Proof. reflexivity. Qed.

(** C4 (the code departs from the claim). A snapshot without [skills]
    is not tolerated: whatever the other fields hold, [fromJSON] throws a
    TypeError from [Object.entries(data.skills)], before the defaults for
    [streak] and [stats] are reached. *)
Theorem C4_fromJSON_throws_without_skills :
  forall (now : Date) (username : option string) (createdAt lastActive : option Date)
         (streak : option User.Streak) (stats : option User.Stats),
    User.fromJSON now
      (User.mkSnapshot username createdAt lastActive None streak stats)
    = Throw (TypeError "Cannot convert undefined or null to object") /\
    isThrow (User.fromJSON now snapshotWithoutSkills) = true.
Proof.
  intros. split; reflexivity.
Qed.

(** *** The XP ledger of a session *)

Lemma addRewards_lookup_other (rewards : list (string * Z)) :
  forall (m : gmap string Z) (k : string),
    k ∉ rewards.*1 -> RoutineSession.addRewards rewards m !! k = m !! k.
Proof.
  induction rewards as [|[k0 x0] rest IH]; intros m k Hk; [reflexivity|].
  rewrite fmap_cons, not_elem_of_cons in Hk. destruct Hk as [Hne Hk].
  change (RoutineSession.addRewards rest (RoutineSession.addEntry m (k0, x0)) !! k = m !! k).
  rewrite IH by exact Hk. unfold RoutineSession.addEntry. simpl in *.
  apply lookup_insert_ne. congruence.
Qed.

Lemma addRewards_lookup (rewards : list (string * Z)) :
  forall (m : gmap string Z) (k : string) (x : Z),
    NoDup rewards.*1 -> (k, x) ∈ rewards ->
    RoutineSession.addRewards rewards m !! k = Some (default 0 (m !! k) + x).
Proof.
  induction rewards as [|[k0 x0] rest IH]; intros m k x Hnd Hin.
  - inversion Hin.
  - rewrite fmap_cons, NoDup_cons in Hnd. destruct Hnd as [Hk0 Hnd].
    simpl in Hk0. apply elem_of_cons in Hin as [[= -> ->] | Hin].
    + change (RoutineSession.addRewards rest
                (RoutineSession.addEntry m (k0, x0)) !! k0 = Some (default 0 (m !! k0) + x0)).
      rewrite addRewards_lookup_other by exact Hk0. apply lookup_insert_eq.
    + assert (k <> k0) as Hne.
      { intros ->. apply Hk0. apply list_elem_of_fmap. exists (k0, x). auto. }
      change (RoutineSession.addRewards rest
                (RoutineSession.addEntry m (k0, x0)) !! k = Some (default 0 (m !! k) + x)).
      rewrite (IH _ k x Hnd Hin). unfold RoutineSession.addEntry. simpl.
      rewrite lookup_insert_ne by congruence. reflexivity.
Qed.

Lemma subtractEntry_lookup_ne (m : gmap string Z) (k0 k : string) (x0 : Z) :
  k <> k0 -> RoutineSession.subtractEntry m (k0, x0) !! k = m !! k.
Proof.
  intros Hne. unfold RoutineSession.subtractEntry. simpl.
  destruct (_ <=? 0); [apply lookup_delete_ne | apply lookup_insert_ne]; congruence.
Qed.

Lemma subtractEntry_lookup_eq (m : gmap string Z) (k : string) (x : Z) :
  RoutineSession.subtractEntry m (k, x) !! k =
    if default 0 (m !! k) - x <=? 0 then None else Some (default 0 (m !! k) - x).
Proof.
  unfold RoutineSession.subtractEntry. simpl.
  destruct (_ <=? 0); [apply lookup_delete_eq | apply lookup_insert_eq].
Qed.

Lemma subtractRewards_cons (entry : string * Z) (rest : list (string * Z))
    (m : gmap string Z) :
  RoutineSession.subtractRewards (entry :: rest) m =
  RoutineSession.subtractRewards rest (RoutineSession.subtractEntry m entry).
Proof. reflexivity. Qed.

Lemma subtractRewards_lookup_other (rewards : list (string * Z)) :
  forall (m : gmap string Z) (k : string),
    k ∉ rewards.*1 -> RoutineSession.subtractRewards rewards m !! k = m !! k.
Proof.
  induction rewards as [|[k0 x0] rest IH]; intros m k Hk; [reflexivity|].
  rewrite fmap_cons, not_elem_of_cons in Hk. destruct Hk as [Hne Hk].
  rewrite subtractRewards_cons, IH by exact Hk.
  apply subtractEntry_lookup_ne. exact Hne.
Qed.

(** What [uncompleteItem] leaves under a category it subtracts from: the
    lowered value when that is positive, no entry otherwise. *)
Lemma subtractRewards_lookup (rewards : list (string * Z)) :
  forall (m : gmap string Z) (k : string) (x : Z),
    NoDup rewards.*1 -> (k, x) ∈ rewards ->
    RoutineSession.subtractRewards rewards m !! k =
      if default 0 (m !! k) - x <=? 0 then None else Some (default 0 (m !! k) - x).
Proof.
  induction rewards as [|[k0 x0] rest IH]; intros m k x Hnd Hin.
  - inversion Hin.
  - rewrite fmap_cons, NoDup_cons in Hnd. destruct Hnd as [Hk0 Hnd].
    simpl in Hk0. rewrite subtractRewards_cons.
    apply elem_of_cons in Hin as [[= -> ->] | Hin].
    + rewrite subtractRewards_lookup_other by exact Hk0.
      apply subtractEntry_lookup_eq.
    + assert (k <> k0) as Hne.
      { intros ->. apply Hk0. apply list_elem_of_fmap. exists (k0, x). auto. }
      rewrite (IH _ k x Hnd Hin), subtractEntry_lookup_ne by exact Hne. reflexivity.
Qed.

(** Subtracting keeps a ledger of positive entries positive. *)
Lemma subtractRewards_positive (rewards : list (string * Z)) :
  forall m : gmap string Z,
    (forall k v, m !! k = Some v -> 0 < v) ->
    forall k v, RoutineSession.subtractRewards rewards m !! k = Some v -> 0 < v.
Proof.
  induction rewards as [|[k0 x0] rest IH]; intros m Hm; [exact Hm|].
  rewrite subtractRewards_cons. apply IH. intros k v.
  destruct (decide (k = k0)) as [->|Hne].
  - rewrite subtractEntry_lookup_eq.
    destruct (Z.leb_spec (default 0 (m !! k0) - x0) 0); [discriminate|].
    intros [= <-]. lia.
  - rewrite subtractEntry_lookup_ne by exact Hne. apply Hm.
Qed.

Lemma subtract_after_add (rewards : list (string * Z)) (m : gmap string Z) :
  NoDup rewards.*1 ->
  (forall k v, k ∈ rewards.*1 -> m !! k = Some v -> 0 < v) ->
  RoutineSession.subtractRewards rewards (RoutineSession.addRewards rewards m) = m.
Proof.
  intros Hnd Hpos. apply map_eq. intros k.
  destruct (decide (k ∈ rewards.*1)) as [Hin|Hout].
  - pose proof Hin as Hkey.
    apply list_elem_of_fmap in Hin as ([k' x] & -> & Hin). simpl in *.
    rewrite (subtractRewards_lookup _ _ k' x Hnd Hin).
    rewrite (addRewards_lookup _ _ k' x Hnd Hin). simpl.
    replace (default 0 (m !! k') + x - x) with (default 0 (m !! k')) by lia.
    destruct (m !! k') as [v|] eqn:Hv; simpl.
    + specialize (Hpos _ _ Hkey Hv). destruct (Z.leb_spec v 0); [lia | reflexivity].
    + reflexivity.
  - rewrite subtractRewards_lookup_other, addRewards_lookup_other by exact Hout.
    reflexivity.
Qed.

Lemma remove_added (itemId : string) (items : gset string) :
  itemId ∉ items -> ({[itemId]} ∪ items) ∖ {[itemId]} = items.
Proof.
  intros Hfresh. apply set_eq. intros x.
  rewrite elem_of_difference, elem_of_union, elem_of_singleton.
  split.
  - intros [[->|Hx] Hne]; [contradiction | exact Hx].
  - intros Hx. split; [right; exact Hx | intros ->; contradiction].
Qed.

(** C8 (amended). The rewards are an object whose categories are
    distinct and none of them a name inherited from [Object.prototype].
    For a session in which the item is not completed yet and whose
    ledger holds no zero or negative entry under a rewarded category,
    [uncompleteItem] with the same rewards right after [completeItem]
    gives back the ledger [xpEarned] (and the set [completedItems]) from
    before. When [uncompleteItem] removes an item, a category it
    subtracts from keeps its lowered value if that is positive and loses
    its entry otherwise, so a ledger of positive entries stays one. *)
Theorem C8_uncomplete_after_complete :
  (forall (now : Date) (s : RoutineSession.t) (itemId : string)
          (skillRewards : option (list (string * Z))),
     itemId ∉ RoutineSession.completedItems s ->
     NoDup (default [] skillRewards).*1 ->
     plainKeys (default [] skillRewards) ->
     (forall k v, k ∈ (default [] skillRewards).*1 ->
                  RoutineSession.xpEarned s !! k = Some v -> 0 < v) ->
     RoutineSession.xpEarned
       (RoutineSession.uncompleteItem
          (RoutineSession.completeItem now s itemId skillRewards) itemId skillRewards)
       = RoutineSession.xpEarned s /\
     RoutineSession.completedItems
       (RoutineSession.uncompleteItem
          (RoutineSession.completeItem now s itemId skillRewards) itemId skillRewards)
       = RoutineSession.completedItems s) /\
  (forall (s : RoutineSession.t) (itemId : string) (rewards : list (string * Z))
          (k : string) (x : Z),
     itemId ∈ RoutineSession.completedItems s ->
     NoDup rewards.*1 -> plainKeys rewards -> (k, x) ∈ rewards ->
     RoutineSession.xpEarned (RoutineSession.uncompleteItem s itemId (Some rewards)) !! k
       = if default 0 (RoutineSession.xpEarned s !! k) - x <=? 0 then None
         else Some (default 0 (RoutineSession.xpEarned s !! k) - x)) /\
  (forall (s : RoutineSession.t) (itemId : string)
          (skillRewards : option (list (string * Z))),
     plainKeys (default [] skillRewards) ->
     (forall k v, RoutineSession.xpEarned s !! k = Some v -> 0 < v) ->
     forall k v,
       RoutineSession.xpEarned (RoutineSession.uncompleteItem s itemId skillRewards) !! k
         = Some v -> 0 < v).
Proof.
  split; [|split].
  - intros now s itemId skillRewards Hfresh Hnd _ Hpos.
    assert (Hdone : itemId ∈ RoutineSession.completedItems
                      (RoutineSession.completeItem now s itemId skillRewards)).
    { unfold RoutineSession.completeItem. rewrite bool_decide_eq_false_2 by exact Hfresh.
      unfold RoutineSession.start.
      destruct (RoutineSession.status s); simpl;
        apply elem_of_union_l, elem_of_singleton; reflexivity. }
    unfold RoutineSession.uncompleteItem. rewrite bool_decide_eq_true_2 by exact Hdone.
    unfold RoutineSession.completeItem. rewrite bool_decide_eq_false_2 by exact Hfresh.
    unfold RoutineSession.start.
    destruct (RoutineSession.status s), skillRewards as [rewards|]; simpl;
      (split; [try reflexivity; apply subtract_after_add; assumption
              | apply remove_added; exact Hfresh]).
  - intros s itemId rewards k x Hdone Hnd _ Hin.
    unfold RoutineSession.uncompleteItem. rewrite bool_decide_eq_true_2 by exact Hdone.
    simpl. apply subtractRewards_lookup; assumption.
  - intros s itemId skillRewards _ Hpos k v.
    unfold RoutineSession.uncompleteItem.
    destruct (bool_decide _); [|apply Hpos].
    destruct skillRewards as [rewards|]; simpl; [|apply Hpos].
    apply subtractRewards_positive. exact Hpos.
Qed.

Lemma C8_uncomplete_after_complete_witness :
  RoutineSession.xpEarned
    (RoutineSession.uncompleteItem
       (RoutineSession.completeItem (noon 1) stretchedSession "plank" stretchRewards)
       "plank" stretchRewards)
    = RoutineSession.xpEarned stretchedSession.
Proof.
  apply (proj1 C8_uncomplete_after_complete (noon 1) stretchedSession "plank"
           stretchRewards).
  - simpl. rewrite elem_of_singleton. discriminate.
  - simpl. apply NoDup_singleton.
  - apply (bool_decide_unpack _). vm_compute. exact I.
  - simpl. intros k v _ H. apply lookup_singleton_Some in H as [_ <-]. lia.
Defined.

(** C8, as stated, fails for an item that is completed already:
    [completeItem] does nothing, [uncompleteItem] then takes the rewards
    off, and the ledger is not the one from before. A reward of zero for
    a category without an entry makes [completeItem] store a zero. *)
Lemma C8_completed_item_not_restored :
  RoutineSession.xpEarned stretchedSession !! "physical" = Some 10 /\
  RoutineSession.xpEarned
    (RoutineSession.uncompleteItem
       (RoutineSession.completeItem (noon 1) stretchedSession "stretch" stretchRewards)
       "stretch" stretchRewards) !! "physical" = None /\
  RoutineSession.xpEarned
    (RoutineSession.uncompleteItem
       (RoutineSession.completeItem (noon 1) stretchedSession "stretch" stretchRewards)
       "stretch" stretchRewards)
    <> RoutineSession.xpEarned stretchedSession /\
  RoutineSession.xpEarned
    (RoutineSession.completeItem (noon 1) emptySession "rest" (Some [("mental", 0)]))
    !! "mental" = Some 0.
Proof.
  assert (H1 : RoutineSession.xpEarned stretchedSession !! "physical" = Some 10)
    by (vm_compute; reflexivity).
  assert (H2 : RoutineSession.xpEarned
    (RoutineSession.uncompleteItem
       (RoutineSession.completeItem (noon 1) stretchedSession "stretch" stretchRewards)
       "stretch" stretchRewards) !! "physical" = None)
    by (vm_compute; reflexivity).
  split; [exact H1|]. split; [exact H2|]. split.
  - intros Heq. rewrite Heq, H1 in H2. discriminate.
  - vm_compute. reflexivity.
Qed.

(** *** What [uncompleteItem] leaves alone *)


(** [getSession] hands out a reference to an existing object, keeps the
    objects that exist and keeps the cache well formed. *)
Lemma getSession_spec (now : Date) (m : RoutineManager.t) (routineId : string)
    (date : option Date) (ref : nat) (m1 : RoutineManager.t) :
  RoutineManager.getSession now m routineId date = Return (ref, m1) ->
  RoutineManager.storageManager m1 = RoutineManager.storageManager m /\
  RoutineManager.routines m1 = RoutineManager.routines m /\
  RoutineManager.sessions m1 !! (routineId, toDateString (default now date)) = Some ref /\
  (exists fresh, RoutineManager.heap m1 = RoutineManager.heap m ++ fresh) /\
  (forall key r, RoutineManager.sessions m !! key = Some r ->
                 RoutineManager.sessions m1 !! key = Some r) /\
  (RoutineManager.wf m -> RoutineManager.wf m1).
Proof.
  unfold RoutineManager.getSession.
  destruct (RoutineManager.getRoutine m routineId) as [routine|]; [|discriminate].
  destruct (RoutineManager.sessions m !! _) as [r|] eqn:Hcache.
  - intros [= <- <-]. repeat split; try assumption; try tauto.
    exists []. symmetry. apply app_nil_r.
  - intros [= <- <-]. simpl. repeat split.
    + apply lookup_insert_eq.
    + eexists. reflexivity.
    + intros key r Hr. rewrite lookup_insert_ne; [exact Hr | congruence].
    + intros Hwf key r. unfold RoutineManager.wf in *. simpl.
      rewrite length_app. simpl.
      destruct (decide ((routineId, toDateString (default now date)) = key)) as [<-|Hne].
      * rewrite lookup_insert_eq. intros [= <-]. lia.
      * rewrite lookup_insert_ne by exact Hne. intros Hr.
        specialize (Hwf _ _ Hr). lia.
Qed.

Lemma getSession_ref_valid (now : Date) (m : RoutineManager.t) (routineId : string)
    (date : option Date) (ref : nat) (m1 : RoutineManager.t) :
  RoutineManager.wf m ->
  RoutineManager.getSession now m routineId date = Return (ref, m1) ->
  (ref < length (RoutineManager.heap m1))%nat.
Proof.
  intros Hwf Hget.
  destruct (getSession_spec _ _ _ _ _ _ Hget) as (_ & _ & Hkey & _ & _ & Hwf1).
  exact (Hwf1 Hwf _ _ Hkey).
Qed.

Lemma getSession_returns (now : Date) (m : RoutineManager.t) (routineId : string)
    (date : option Date) (routine : Routine.t) :
  RoutineManager.getRoutine m routineId = Some routine ->
  exists ref m1, RoutineManager.getSession now m routineId date = Return (ref, m1).
Proof.
  intros Hr. unfold RoutineManager.getSession. rewrite Hr.
  destruct (RoutineManager.sessions m !! _); eexists _, _; reflexivity.
Qed.

Lemma saveSession_heap (now : Date) (m : RoutineManager.t) (routineId : string)
    (ref : nat) :
  RoutineManager.heap (RoutineManager.saveSession now m routineId ref)
    = RoutineManager.heap m.
Proof. reflexivity. Qed.


Lemma wf_empty_cache (m : RoutineManager.t) :
  RoutineManager.sessions m = ∅ -> RoutineManager.wf m.
Proof.
  intros He key ref. rewrite He, lookup_empty. discriminate.
Qed.

Lemma saveSession_wf (now : Date) (m : RoutineManager.t) (routineId : string)
    (ref : nat) :
  RoutineManager.wf m -> (ref < length (RoutineManager.heap m))%nat ->
  RoutineManager.wf (RoutineManager.saveSession now m routineId ref).
Proof.
  intros Hwf Href key r. unfold RoutineManager.saveSession. simpl.
  match goal with
  | |- <[?k := _]> _ !! _ = _ -> _ => destruct (decide (k = key)) as [<-|Hne]
  end.
  - rewrite lookup_insert_eq. intros [= <-]. exact Href.
  - rewrite lookup_insert_ne by exact Hne. apply Hwf.
Qed.

Lemma setSession_wf (m : RoutineManager.t) (ref : nat) (s : RoutineSession.t) :
  RoutineManager.wf m -> RoutineManager.wf (RoutineManager.setSession m ref s).
Proof.
  intros Hwf key r. unfold RoutineManager.setSession. simpl.
  rewrite length_insert. apply Hwf.
Qed.

Lemma completeItem_wf (now : Date) (m m' : RoutineManager.t)
    (routineId itemId : string) (user user' : User.t)
    (out : option RoutineManager.CompleteResult) :
  RoutineManager.wf m ->
  RoutineManager.completeItem now m routineId itemId user = Return (out, m', user') ->
  RoutineManager.wf m'.
Proof.
  intros Hwf. unfold RoutineManager.completeItem.
  destruct (RoutineManager.getSession now m routineId None) as [[ref m1]|] eqn:Hget;
    [|discriminate].
  pose proof (getSession_ref_valid _ _ _ _ _ _ Hwf Hget) as Hvalid.
  destruct (getSession_spec _ _ _ _ _ _ Hget) as (_ & _ & _ & _ & _ & Hwf1).
  destruct (RoutineManager.getRoutine m routineId) as [routine|]; [|discriminate].
  destruct (Routine.getItem routine itemId) as [item|].
  - destruct (User.addRoutineRewards _ _ _) as [xpResults user1].
    destruct (RoutineSession.isComplete _ _); intros [= <- <- <-];
      (apply saveSession_wf;
       [apply setSession_wf; auto
       | unfold RoutineManager.setSession; simpl; rewrite length_insert; exact Hvalid]).
  - intros [= <- <- <-]. auto.
Qed.



(** *** An item the routine does not have *)

Lemma getItemIn_None (secs : list RoutineSection.t) (itemId : string) :
  (forall sec it, In sec secs -> In it (RoutineSection.items sec) ->
                  Item.id it <> itemId) ->
  Routine.getItemIn secs itemId = None.
Proof.
  induction secs as [|sec rest IH]; intros Hno; [reflexivity|]. simpl.
  destruct (find _ (RoutineSection.items sec)) as [it|] eqn:Hfind.
  - apply find_some in Hfind as [Hin Heq]. apply String.eqb_eq in Heq.
    exfalso. exact (Hno sec it (or_introl eq_refl) Hin Heq).
  - apply IH. intros sec' it Hsec. apply Hno. right. exact Hsec.
Qed.

Lemma getItem_None (r : Routine.t) (itemId : string) :
  ~ Routine.hasItem r itemId -> Routine.getItem r itemId = None.
Proof.
  intros Hno. apply getItemIn_None. intros sec it Hsec Hit Hid.
  apply Hno. exists sec, it. auto.
Qed.

Lemma getItem_Some (r : Routine.t) (itemId : string) (found : Routine.FoundItem) :
  Routine.getItem r itemId = Some found ->
  Item.id (Routine.item found) = itemId /\ Routine.hasItem r itemId.
Proof.
  unfold Routine.getItem, Routine.hasItem.
  induction (Routine.sections r) as [|sec rest IH]; [discriminate|]. simpl.
  destruct (find _ (RoutineSection.items sec)) as [it|] eqn:Hfind.
  - intros [= <-]. apply find_some in Hfind as [Hin Heq].
    apply String.eqb_eq in Heq. simpl. split; [exact Heq|].
    exists sec, it. auto.
  - intros H. destruct (IH H) as (Hid & sec' & it & Hsec & Hit & Heq).
    split; [exact Hid|]. exists sec', it. auto.
Qed.

(** C5. For a routine the manager knows and an item id the routine does
    not have, [completeItem] returns the null result. The user comes back
    as it was (skills, stats and all), the store of saved sessions and
    the routines as they were, every session of the cache as it was; the
    manager is the one left by the lookup of today's session alone, and
    that session is as the lookup found or made it. *)
Theorem C5_completeItem_unknown_item (now : Date) (m : RoutineManager.t)
    (routineId itemId : string) (user : User.t) (routine : Routine.t) :
  RoutineManager.getRoutine m routineId = Some routine ->
  ~ Routine.hasItem routine itemId ->
  exists ref m1,
    RoutineManager.getSession now m routineId None = Return (ref, m1) /\
    RoutineManager.completeItem now m routineId itemId user = Return (None, m1, user) /\
    RoutineManager.storageManager m1 = RoutineManager.storageManager m /\
    RoutineManager.routines m1 = RoutineManager.routines m /\
    (forall key s, RoutineManager.sessionAt m key = Some s ->
                   RoutineManager.sessionAt m1 key = Some s) /\
    (forall s, RoutineManager.sessionAt m (routineId, toDateString now) = Some s ->
               m1 = m).
Proof.
  intros Hroutine Hno.
  destruct (getSession_returns now m routineId None routine Hroutine) as (ref & m1 & Hget).
  exists ref, m1. split; [exact Hget|].
  destruct (getSession_spec _ _ _ _ _ _ Hget) as (Hst & Hrt & _ & [fresh Hheap] & Hkeep & _).
  split.
  { unfold RoutineManager.completeItem. rewrite Hget, Hroutine.
    rewrite (getItem_None _ _ Hno). reflexivity. }
  split; [exact Hst|]. split; [exact Hrt|]. split.
  - intros key s. unfold RoutineManager.sessionAt.
    destruct (RoutineManager.sessions m !! key) as [r|] eqn:Hr; [|discriminate].
    rewrite (Hkeep _ _ Hr), Hheap. intros Hs.
    rewrite lookup_app_l; [exact Hs|]. eapply lookup_lt_Some. exact Hs.
  - intros s. unfold RoutineManager.sessionAt.
    destruct (RoutineManager.sessions m !! (routineId, toDateString now)) as [r|] eqn:Hr;
      [|discriminate].
    intros _. revert Hget. unfold RoutineManager.getSession.
    rewrite Hroutine. simpl. rewrite Hr. congruence.
Qed.

Lemma C5_completeItem_unknown_item_witness :
  exists ref m1,
    RoutineManager.getSession (noon 1) stretchedManager "morning" None = Return (ref, m1) /\
    RoutineManager.completeItem (noon 1) stretchedManager "morning" "push-ups" hunter
      = Return (None, m1, hunter) /\
    RoutineManager.storageManager m1 = RoutineManager.storageManager stretchedManager /\
    RoutineManager.routines m1 = RoutineManager.routines stretchedManager /\
    (forall key s, RoutineManager.sessionAt stretchedManager key = Some s ->
                   RoutineManager.sessionAt m1 key = Some s) /\
    (forall s, RoutineManager.sessionAt stretchedManager ("morning", toDateString (noon 1))
                 = Some s ->
               m1 = stretchedManager).
Proof.
  apply (C5_completeItem_unknown_item (noon 1) stretchedManager "morning" "push-ups"
           hunter morningRoutine).
  - vm_compute. reflexivity.
  - intros (sec & it & Hsec & Hit & Hid). simpl in Hsec.
    destruct Hsec as [<-|[<-|[]]]; simpl in Hit.
    + destruct Hit as [<-|[<-|[]]]; discriminate.
    + destruct Hit as [<-|[]]; discriminate.
Defined.

(** *** The operations on a user, field by field *)

Lemma addSkillXP_fields (now : Date) (u : User.t) (k : string) (xp : Z) :
  User.streak (snd (User.addSkillXP now u k xp)) = User.streak u /\
  User.totalRoutinesCompleted (User.stats (snd (User.addSkillXP now u k xp)))
    = User.totalRoutinesCompleted (User.stats u) /\
  User.totalTasksCompleted (User.stats (snd (User.addSkillXP now u k xp)))
    = User.totalTasksCompleted (User.stats u) /\
  User.totalXPEarned (User.stats (snd (User.addSkillXP now u k xp)))
    = User.totalXPEarned (User.stats u)
      + match fst (User.addSkillXP now u k xp) with
        | Some r => User.xpGained r
        | None => 0
        end /\
  User.skills (snd (User.addSkillXP now u k xp))
    = match User.skills u !! k with
      | Some sk => <[k := snd (Skill.addXP sk xp (User.getStreakBonus u))]> (User.skills u)
      | None => User.skills u
      end /\
  match fst (User.addSkillXP now u k xp), User.skills u !! k with
  | Some r, Some sk =>
      User.xpGained r = Skill.xpGained (fst (Skill.addXP sk xp (User.getStreakBonus u)))
  | None, None => True
  | _, _ => False
  end.
Proof.
  unfold User.addSkillXP.
  destruct (User.skills u !! k) as [sk|]; simpl.
  - destruct (Skill.addXP sk xp (User.getStreakBonus u)) as [r sk']. simpl.
    repeat split.
  - repeat split; lia.
Qed.

Lemma getStreakBonus_streak (u u' : User.t) :
  User.streak u' = User.streak u -> User.getStreakBonus u' = User.getStreakBonus u.
Proof. unfold User.getStreakBonus. intros ->. reflexivity. Qed.

Lemma rewardLoop_acc (now : Date) (rewards : list (string * Z)) :
  forall (acc : list User.XPResult) (u : User.t),
    fold_left (User.rewardStep now) rewards (acc, u)
    = (acc ++ fst (User.addRoutineRewards now u rewards),
       snd (User.addRoutineRewards now u rewards)).
Proof.
  unfold User.addRoutineRewards.
  induction rewards as [|entry rest IH]; intros acc u; simpl.
  - rewrite app_nil_r. reflexivity.
  - unfold User.rewardStep at 2 4 6. simpl.
    destruct (fst (User.addSkillXP now u (fst entry) (snd entry))) as [r|].
    + rewrite (IH (acc ++ [r])), (IH ([] ++ [r])). simpl.
      rewrite <- app_assoc. reflexivity.
    + rewrite (IH acc), (IH []). reflexivity.
Qed.

Lemma addRoutineRewards_cons (now : Date) (u : User.t) (entry : string * Z)
    (rest : list (string * Z)) :
  User.addRoutineRewards now u (entry :: rest)
  = (match fst (User.addSkillXP now u (fst entry) (snd entry)) with
     | Some r => [r]
     | None => []
     end
     ++ fst (User.addRoutineRewards now
               (snd (User.addSkillXP now u (fst entry) (snd entry))) rest),
     snd (User.addRoutineRewards now
            (snd (User.addSkillXP now u (fst entry) (snd entry))) rest)).
Proof.
  unfold User.addRoutineRewards at 1. simpl. unfold User.rewardStep at 2. simpl.
  destruct (fst (User.addSkillXP now u (fst entry) (snd entry)));
    rewrite rewardLoop_acc; reflexivity.
Qed.

Lemma sumXPGained_app (l1 l2 : list User.XPResult) :
  sumXPGained (l1 ++ l2) = sumXPGained l1 + sumXPGained l2.
Proof.
  unfold sumXPGained. induction l1 as [|r l1 IH]; simpl; [reflexivity | lia].
Qed.

Lemma addRoutineRewards_fields (now : Date) (rewards : list (string * Z)) :
  forall u : User.t,
    User.streak (snd (User.addRoutineRewards now u rewards)) = User.streak u /\
    User.totalRoutinesCompleted (User.stats (snd (User.addRoutineRewards now u rewards)))
      = User.totalRoutinesCompleted (User.stats u) /\
    User.totalTasksCompleted (User.stats (snd (User.addRoutineRewards now u rewards)))
      = User.totalTasksCompleted (User.stats u) /\
    User.totalXPEarned (User.stats (snd (User.addRoutineRewards now u rewards)))
      = User.totalXPEarned (User.stats u)
        + sumXPGained (fst (User.addRoutineRewards now u rewards)).
Proof.
  induction rewards as [|entry rest IH]; intros u.
  - unfold User.addRoutineRewards, sumXPGained. simpl. repeat split; lia.
  - rewrite addRoutineRewards_cons. simpl.
    destruct (addSkillXP_fields now u (fst entry) (snd entry))
      as (Hs & Hr & Ht & Hx & _ & _).
    destruct (IH (snd (User.addSkillXP now u (fst entry) (snd entry))))
      as (Hs' & Hr' & Ht' & Hx').
    rewrite Hs', Hr', Ht', Hx', Hs, Hr, Ht, Hx, sumXPGained_app.
    repeat split.
    destruct (fst (User.addSkillXP now u (fst entry) (snd entry)));
      unfold sumXPGained; simpl; lia.
Qed.

Lemma addRoutineRewards_skill_other (now : Date) (rewards : list (string * Z)) :
  forall (u : User.t) (k : string),
    k ∉ rewards.*1 ->
    User.skills (snd (User.addRoutineRewards now u rewards)) !! k = User.skills u !! k.
Proof.
  induction rewards as [|[k0 x0] rest IH]; intros u k Hk; [reflexivity|].
  rewrite fmap_cons, not_elem_of_cons in Hk. destruct Hk as [Hne Hk]. simpl in Hne.
  rewrite addRoutineRewards_cons. simpl. rewrite IH by exact Hk.
  destruct (addSkillXP_fields now u k0 x0) as (_ & _ & _ & _ & -> & _).
  destruct (User.skills u !! k0); [|reflexivity].
  apply lookup_insert_ne. congruence.
Qed.

(** Each rewarded skill the user has is the skill after [Skill.addXP]
    with the reward and the user's streak bonus. *)
Lemma addRoutineRewards_skill (now : Date) (rewards : list (string * Z)) :
  forall (u : User.t) (k : string) (x : Z) (sk : Skill.t),
    NoDup rewards.*1 -> (k, x) ∈ rewards ->
    User.skills u !! k = Some sk ->
    User.skills (snd (User.addRoutineRewards now u rewards)) !! k
      = Some (snd (Skill.addXP sk x (User.getStreakBonus u))).
Proof.
  induction rewards as [|[k0 x0] rest IH]; intros u k x sk Hnd Hin Hsk.
  - inversion Hin.
  - rewrite fmap_cons, NoDup_cons in Hnd. destruct Hnd as [Hk0 Hnd]. simpl in Hk0.
    rewrite addRoutineRewards_cons. simpl.
    destruct (addSkillXP_fields now u k0 x0) as (Hstreak & _ & _ & _ & Hskills & _).
    apply elem_of_cons in Hin as [[= -> ->] | Hin].
    + rewrite addRoutineRewards_skill_other by exact Hk0.
      rewrite Hskills, Hsk. apply lookup_insert_eq.
    + assert (k <> k0) as Hne.
      { intros ->. apply Hk0. apply list_elem_of_fmap. exists (k0, x). auto. }
      rewrite (IH _ k x sk Hnd Hin).
      * rewrite (getStreakBonus_streak _ _ Hstreak). reflexivity.
      * rewrite Hskills. destruct (User.skills u !! k0); [|exact Hsk].
        rewrite lookup_insert_ne by congruence. exact Hsk.
Qed.

Lemma completeTask_fields (now : Date) (u : User.t) :
  User.skills (User.completeTask now u) = User.skills u /\
  User.streak (User.completeTask now u) = User.streak u /\
  User.totalRoutinesCompleted (User.stats (User.completeTask now u))
    = User.totalRoutinesCompleted (User.stats u) /\
  User.totalTasksCompleted (User.stats (User.completeTask now u))
    = User.totalTasksCompleted (User.stats u) + 1 /\
  User.totalXPEarned (User.stats (User.completeTask now u))
    = User.totalXPEarned (User.stats u).
Proof. repeat split. Qed.

Lemma updateStreak_fields (now : Date) (u : User.t) :
  User.skills (snd (User.updateStreak now u)) = User.skills u /\
  User.stats (snd (User.updateStreak now u)) = User.stats u.
Proof. repeat split. Qed.

Lemma completeRoutine_fields (now : Date) (u : User.t) :
  User.skills (User.completeRoutine now u) = User.skills u /\
  User.streak (User.completeRoutine now u)
    = User.streak (snd (User.updateStreak now u)) /\
  User.totalRoutinesCompleted (User.stats (User.completeRoutine now u))
    = User.totalRoutinesCompleted (User.stats u) + 1 /\
  User.totalTasksCompleted (User.stats (User.completeRoutine now u))
    = User.totalTasksCompleted (User.stats u) /\
  User.totalXPEarned (User.stats (User.completeRoutine now u))
    = User.totalXPEarned (User.stats u).
Proof. repeat split. Qed.

(** *** Completing an item twice *)

Lemma session_completeItem_again (now : Date) (s : RoutineSession.t)
    (itemId : string) (skillRewards : option (list (string * Z))) :
  itemId ∈ RoutineSession.completedItems s ->
  RoutineSession.completeItem now s itemId skillRewards = s.
Proof.
  intros Hin. unfold RoutineSession.completeItem.
  rewrite bool_decide_eq_true_2 by exact Hin. reflexivity.
Qed.

Lemma complete_fields (now : Date) (s : RoutineSession.t) :
  RoutineSession.completedItems (RoutineSession.complete now s)
    = RoutineSession.completedItems s /\
  RoutineSession.xpEarned (RoutineSession.complete now s) = RoutineSession.xpEarned s /\
  RoutineSession.startedAt (RoutineSession.complete now s) = RoutineSession.startedAt s /\
  (RoutineSession.status s = RoutineSession.completed ->
   RoutineSession.complete now s = s).
Proof.
  unfold RoutineSession.complete.
  destruct (RoutineSession.status s); repeat split; discriminate.
Qed.

Lemma complete_isComplete (now : Date) (s : RoutineSession.t) (r : Routine.t) :
  RoutineSession.isComplete (RoutineSession.complete now s) r
    = RoutineSession.isComplete s r.
Proof.
  unfold RoutineSession.isComplete.
  destruct (complete_fields now s) as (-> & _). reflexivity.
Qed.

Lemma levelUpLoop_totalXP (fuel : nat) :
  forall (s : Skill.t) (b : bool) (n : Z),
    Skill.totalXP (fst (fst (Skill.levelUpLoop fuel s b n))) = Skill.totalXP s.
Proof.
  induction fuel as [|fuel IH]; intros s b n; simpl; [reflexivity|].
  destruct (Skill.levelUpTest s); simpl; [|reflexivity].
  rewrite IH. unfold Skill.levelUpBody.
  destruct (Skill.getXPForNextLevel s); reflexivity.
Qed.

Lemma addXP_totalXP (s : Skill.t) (xp : Z) (bonus : Q) :
  Skill.totalXP (snd (Skill.addXP s xp bonus))
  = Skill.totalXP s + Skill.xpGained (fst (Skill.addXP s xp bonus)).
Proof.
  unfold Skill.addXP.
  match goal with
  | |- context [Skill.levelUpLoop ?f ?s1 false ?n] =>
      pose proof (levelUpLoop_totalXP f s1 false n) as H;
      destruct (Skill.levelUpLoop f s1 false n) as [[s2 b] n']
  end.
  simpl in *. exact H.
Qed.

Lemma gain_at_least_reward (s : Skill.t) (xp : Z) (bonus : Q) :
  0 <= Skill.prestige s -> (0 <= bonus)%Q -> 0 <= xp ->
  xp <= Skill.xpGained (fst (Skill.addXP s xp bonus)).
Proof.
  intros Hp Hb Hxp. rewrite addXP_xpGained.
  assert (Hm : (1 <= Skill.getPrestigeMultiplier s * (1 + bonus))%Q).
  { assert (H1 : (1 <= Skill.getPrestigeMultiplier s)%Q).
    { unfold Skill.getPrestigeMultiplier.
      apply (Qle_trans _ (1 + 0)); [discriminate|].
      apply Qplus_le_r. apply Qmult_le_0_compat; [|discriminate].
      unfold Qle. simpl. lia. }
    assert (H2 : (1 <= 1 + bonus)%Q).
    { apply (Qle_trans _ (1 + 0)); [discriminate|]. apply Qplus_le_r. exact Hb. }
    apply (Qle_trans _ (1 * (1 + bonus))).
    - rewrite Qmult_1_l. exact H2.
    - apply Qmult_le_compat_r; [exact H1|].
      apply (Qle_trans _ 1); [discriminate | exact H2]. }
  rewrite <- (Qfloor_Z xp) at 1. apply Qfloor_resp_le.
  apply (Qle_trans _ (inject_Z xp * 1)).
  - rewrite Qmult_1_r. apply Qle_refl.
  - rewrite (Qmult_comm (inject_Z xp) 1),
      (Qmult_comm (inject_Z xp) (Skill.getPrestigeMultiplier s * (1 + bonus))).
    apply Qmult_le_compat_r; [exact Hm|]. unfold Qle. simpl. lia.
Qed.

(** Without prestige and without a bonus the multiplier is 1 and the
    gain is the award. *)
Lemma gain_is_reward (s : Skill.t) (xp : Z) :
  Skill.prestige s = 0 ->
  Skill.xpGained (fst (Skill.addXP s xp 0)) = xp.
Proof.
  intros Hp. rewrite addXP_xpGained. unfold Skill.getPrestigeMultiplier. rewrite Hp.
  rewrite <- (Qfloor_Z xp) at 2. apply Qfloor_comp. ring.
Qed.

Lemma getStreakBonus_below_5 (u : User.t) :
  User.current (User.streak u) < 5 -> User.getStreakBonus u = 0%Q.
Proof.
  intros H. rewrite getStreakBonus_cases. cbv zeta.
  repeat match goal with
         | |- context [Z.leb ?a ?c] => destruct (Z.leb_spec a c); [lia|]
         end.
  reflexivity.
Qed.

(** The result that [addRoutineRewards] reports for a rewarded skill the
    user has. *)
Lemma addRoutineRewards_result (now : Date) (rewards : list (string * Z)) :
  forall (u : User.t) (k : string) (x : Z) (sk : Skill.t),
    NoDup rewards.*1 -> (k, x) ∈ rewards ->
    User.skills u !! k = Some sk ->
    exists r,
      r ∈ fst (User.addRoutineRewards now u rewards) /\
      User.skill r = k /\
      User.xpGained r = Skill.xpGained (fst (Skill.addXP sk x (User.getStreakBonus u))).
Proof.
  induction rewards as [|[k0 x0] rest IH]; intros u k x sk Hnd Hin Hsk.
  - inversion Hin.
  - rewrite fmap_cons, NoDup_cons in Hnd. destruct Hnd as [Hk0 Hnd]. simpl in Hk0.
    rewrite addRoutineRewards_cons. cbn [fst snd].
    apply elem_of_cons in Hin as [[= -> ->] | Hin].
    + unfold User.addSkillXP at 1. rewrite Hsk.
      destruct (Skill.addXP sk x0 (User.getStreakBonus u)) as [res sk'] eqn:E.
      cbn [fst snd]. eexists. split; [apply elem_of_app; left; apply list_elem_of_here|].
      split; reflexivity.
    + assert (k <> k0) as Hne.
      { intros ->. apply Hk0. apply list_elem_of_fmap. exists (k0, x). auto. }
      destruct (addSkillXP_fields now u k0 x0) as (Hstreak & _ & _ & _ & Hskills & _).
      destruct (IH (snd (User.addSkillXP now u k0 x0)) k x sk Hnd Hin) as (r & Hr & Hk & Hg).
      * rewrite Hskills. destruct (User.skills u !! k0); [|exact Hsk].
        rewrite lookup_insert_ne by congruence. exact Hsk.
      * exists r. split; [apply elem_of_app; right; exact Hr|].
        split; [exact Hk|]. rewrite Hg, (getStreakBonus_streak _ _ Hstreak). reflexivity.
Qed.

(** [RoutineManager.completeItem] on an item that today's session holds
    as completed already. *)
Lemma completeItem_on_completed_item (now : Date) (m m1 : RoutineManager.t)
    (routineId itemId : string) (user : User.t) (routine : Routine.t)
    (found : Routine.FoundItem) (ref : nat) :
  RoutineManager.wf m ->
  RoutineManager.getRoutine m routineId = Some routine ->
  Routine.getItem routine itemId = Some found ->
  RoutineManager.getSession now m routineId None = Return (ref, m1) ->
  itemId ∈ RoutineSession.completedItems (RoutineManager.heap m1 !!! ref) ->
  exists out m' user',
    RoutineManager.completeItem now m routineId itemId user
      = Return (Some out, m', user') /\
    RoutineSession.completeItem now (RoutineManager.heap m1 !!! ref) itemId
        (Item.skillRewards (Routine.item found))
      = RoutineManager.heap m1 !!! ref /\
    RoutineSession.completedItems (RoutineManager.heap m' !!! ref)
      = RoutineSession.completedItems (RoutineManager.heap m1 !!! ref) /\
    RoutineSession.xpEarned (RoutineManager.heap m' !!! ref)
      = RoutineSession.xpEarned (RoutineManager.heap m1 !!! ref) /\
    RoutineSession.startedAt (RoutineManager.heap m' !!! ref)
      = RoutineSession.startedAt (RoutineManager.heap m1 !!! ref) /\
    RoutineManager.xpResults out
      = fst (User.addRoutineRewards now user
               (default [] (Item.skillRewards (Routine.item found)))) /\
    User.skills user'
      = User.skills (snd (User.addRoutineRewards now user
                            (default [] (Item.skillRewards (Routine.item found))))) /\
    (forall k x sk,
       NoDup (default [] (Item.skillRewards (Routine.item found))).*1 ->
       (k, x) ∈ default [] (Item.skillRewards (Routine.item found)) ->
       User.skills user !! k = Some sk ->
       User.skills user' !! k
         = Some (snd (Skill.addXP sk x (User.getStreakBonus user)))) /\
    User.totalXPEarned (User.stats user')
      = User.totalXPEarned (User.stats user)
        + sumXPGained (RoutineManager.xpResults out) /\
    User.totalTasksCompleted (User.stats user')
      = User.totalTasksCompleted (User.stats user) + 1 /\
    (RoutineSession.isComplete (RoutineManager.heap m1 !!! ref) routine = false ->
     RoutineManager.heap m' !!! ref = RoutineManager.heap m1 !!! ref /\
     RoutineManager.isRoutineComplete out = false /\
     User.totalRoutinesCompleted (User.stats user')
       = User.totalRoutinesCompleted (User.stats user)) /\
    (RoutineSession.isComplete (RoutineManager.heap m1 !!! ref) routine = true ->
     user' = User.completeRoutine now
               (User.completeTask now
                  (snd (User.addRoutineRewards now user
                          (default [] (Item.skillRewards (Routine.item found)))))) /\
     RoutineManager.isRoutineComplete out = true /\
     User.totalRoutinesCompleted (User.stats user')
       = User.totalRoutinesCompleted (User.stats user) + 1 /\
     RoutineManager.heap m' !!! ref
       = RoutineSession.complete now (RoutineManager.heap m1 !!! ref) /\
     (RoutineSession.status (RoutineManager.heap m1 !!! ref) = RoutineSession.completed ->
      RoutineManager.heap m' !!! ref = RoutineManager.heap m1 !!! ref)).
Proof.
  intros Hwf Hroutine Hitem Hget Hdone.
  pose proof (getSession_ref_valid _ _ _ _ _ _ Hwf Hget) as Hvalid.
  pose proof (session_completeItem_again now _ _
                (Item.skillRewards (Routine.item found)) Hdone) as Hnoop.
  unfold RoutineManager.completeItem. rewrite Hget, Hroutine, Hitem, Hnoop.
  set (rewards := default [] (Item.skillRewards (Routine.item found))).
  set (before := RoutineManager.heap m1 !!! ref) in *.
  destruct (addRoutineRewards_fields now rewards user) as (_ & Hr & Ht & Hx).
  pose proof (addRoutineRewards_skill now rewards user) as Hskill.
  destruct (User.addRoutineRewards now user rewards) as [xpResults user1] eqn:Haward.
  simpl in Hr, Ht, Hx, Hskill.
  destruct (RoutineSession.isComplete before routine) eqn:Hcomplete.
  - eexists _, _, _. split; [reflexivity|]. split; [reflexivity|].
    rewrite saveSession_heap. unfold RoutineManager.setSession. simpl.
    rewrite list_lookup_total_insert_eq by exact Hvalid.
    destruct (complete_fields now before) as (Hci & Hxe & Hsa & Hsame).
    rewrite complete_isComplete, Hcomplete.
    repeat split; try assumption; try discriminate; lia.
  - eexists _, _, _. split; [reflexivity|]. split; [reflexivity|].
    rewrite saveSession_heap. unfold RoutineManager.setSession. simpl.
    rewrite list_lookup_total_insert_eq by exact Hvalid. rewrite Hcomplete.
    repeat split; try assumption; try discriminate; lia.
Qed.

Lemma session_completeItem_adds (now : Date) (s : RoutineSession.t)
    (itemId : string) (skillRewards : option (list (string * Z))) :
  itemId ∈ RoutineSession.completedItems
             (RoutineSession.completeItem now s itemId skillRewards).
Proof.
  unfold RoutineSession.completeItem.
  destruct (bool_decide (itemId ∈ RoutineSession.completedItems s)) eqn:Hin.
  - apply bool_decide_eq_true in Hin. exact Hin.
  - unfold RoutineSession.start.
    destruct (RoutineSession.status s); simpl;
      apply elem_of_union_l, elem_of_singleton; reflexivity.
Qed.

Lemma complete_status (now : Date) (s : RoutineSession.t) :
  RoutineSession.status (RoutineSession.complete now s) = RoutineSession.completed.
Proof.
  unfold RoutineSession.complete.
  destruct (RoutineSession.status s) eqn:Hs; simpl; auto.
Qed.

(** What a call of [completeItem] that found the item leaves behind:
    today's session is cached and holds the item, and its status is
    [completed] if it is complete. *)
Lemma completeItem_leaves (now now' : Date) (m m' : RoutineManager.t)
    (routineId itemId : string) (user user' : User.t) (routine : Routine.t)
    (out : RoutineManager.CompleteResult) :
  RoutineManager.wf m ->
  RoutineManager.getRoutine m routineId = Some routine ->
  toDateString now' = toDateString now ->
  RoutineManager.completeItem now m routineId itemId user
    = Return (Some out, m', user') ->
  RoutineManager.wf m' /\
  RoutineManager.getRoutine m' routineId = Some routine /\
  Routine.getItem routine itemId = Some (RoutineManager.item out) /\
  RoutineManager.getSession now' m' routineId None
    = Return (RoutineManager.session out, m') /\
  itemId ∈ RoutineSession.completedItems
             (RoutineManager.heap m' !!! RoutineManager.session out) /\
  RoutineManager.isRoutineComplete out
    = RoutineSession.isComplete
        (RoutineManager.heap m' !!! RoutineManager.session out) routine /\
  (RoutineManager.isRoutineComplete out = true ->
   RoutineSession.status (RoutineManager.heap m' !!! RoutineManager.session out)
     = RoutineSession.completed).
Proof.
  intros Hwf Hroutine Hday Hcall.
  split; [exact (completeItem_wf _ _ _ _ _ _ _ _ Hwf Hcall)|].
  revert Hcall. unfold RoutineManager.completeItem.
  destruct (RoutineManager.getSession now m routineId None) as [[ref m0]|] eqn:Hget;
    [|discriminate].
  pose proof (getSession_ref_valid _ _ _ _ _ _ Hwf Hget) as Hvalid.
  destruct (getSession_spec _ _ _ _ _ _ Hget) as (_ & Hrt & Hkey & _ & _ & _).
  rewrite Hroutine.
  destruct (Routine.getItem routine itemId) as [found|]; [|discriminate].
  destruct (User.addRoutineRewards _ _ _) as [xpResults user1].
  set (s1 := RoutineSession.completeItem now (RoutineManager.heap m0 !!! ref) itemId
               (Item.skillRewards (Routine.item found))).
  assert (Hs1 : itemId ∈ RoutineSession.completedItems s1)
    by apply session_completeItem_adds.
  assert (Hlookup : forall s2 : RoutineSession.t,
            RoutineManager.getSession now'
              (RoutineManager.saveSession now (RoutineManager.setSession m0 ref s2)
                 routineId ref) routineId None
            = Return (ref, RoutineManager.saveSession now
                             (RoutineManager.setSession m0 ref s2) routineId ref)).
  { intros s2. unfold RoutineManager.getSession, RoutineManager.getRoutine.
    simpl. unfold RoutineManager.getRoutine in Hroutine.
    rewrite Hrt, Hroutine, Hday. simpl in Hkey.
    match goal with
    | |- context [<[?k := ref]> _ !! ?k'] => destruct (decide (k = k')) as [->|Hne]
    end.
    - rewrite lookup_insert_eq. reflexivity.
    - rewrite lookup_insert_ne by exact Hne. rewrite Hkey. reflexivity. }
  destruct (RoutineSession.isComplete s1 routine) eqn:Hcomplete;
    intros [= <- <- <-]; simpl;
    rewrite list_lookup_total_insert_eq by exact Hvalid;
    (split; [unfold RoutineManager.getRoutine in *; simpl; congruence|]);
    (split; [reflexivity|]); (split; [apply Hlookup|]).
  - destruct (complete_fields now s1) as (-> & _).
    split; [exact Hs1|]. split; [reflexivity|]. intros _. apply complete_status.
  - split; [exact Hs1|]. split; [reflexivity|]. rewrite Hcomplete. discriminate.
Qed.

(** C10 (amended). The rewards of the item are an object whose
    categories are not names inherited from [Object.prototype]. When the
    item is in [completedItems] of today's session already,
    [RoutineManager.completeItem] still returns a result: the call of
    [completeItem] on the session does nothing, and [completedItems],
    [xpEarned] and [startedAt] of the session are those from before; the
    rewards of the item go to the user's skills once more (each rewarded
    skill gains at least the reward, and the reward itself without
    prestige and bonus), [totalXPEarned] grows by the XP of the results
    and [totalTasksCompleted] by one. If the session is not complete, it
    is left as it was and [totalRoutinesCompleted] stays. If it is
    complete, the user goes through [completeRoutine] again,
    [totalRoutinesCompleted] grows by one, and the session goes through
    [complete]: it is left as it was when its status is [completed]
    already, and otherwise its status becomes [completed] and
    [completedAt] the time of the call. In particular, when a call that
    found the item is made again on the same day, the session is left
    exactly as the first call left it, the rewards and the task are
    counted a second time, and so is the routine if the first call
    reported it complete. *)
Theorem C10_completeItem_again :
  (forall (now : Date) (m m1 : RoutineManager.t) (routineId itemId : string)
          (user : User.t) (routine : Routine.t) (found : Routine.FoundItem) (ref : nat),
     RoutineManager.wf m ->
     RoutineManager.getRoutine m routineId = Some routine ->
     Routine.getItem routine itemId = Some found ->
     plainKeys (default [] (Item.skillRewards (Routine.item found))) ->
     RoutineManager.getSession now m routineId None = Return (ref, m1) ->
     itemId ∈ RoutineSession.completedItems (RoutineManager.heap m1 !!! ref) ->
     exists out m' user',
       RoutineManager.completeItem now m routineId itemId user
         = Return (Some out, m', user') /\
       RoutineSession.completeItem now (RoutineManager.heap m1 !!! ref) itemId
           (Item.skillRewards (Routine.item found))
         = RoutineManager.heap m1 !!! ref /\
       RoutineSession.completedItems (RoutineManager.heap m' !!! ref)
         = RoutineSession.completedItems (RoutineManager.heap m1 !!! ref) /\
       RoutineSession.xpEarned (RoutineManager.heap m' !!! ref)
         = RoutineSession.xpEarned (RoutineManager.heap m1 !!! ref) /\
       RoutineSession.startedAt (RoutineManager.heap m' !!! ref)
         = RoutineSession.startedAt (RoutineManager.heap m1 !!! ref) /\
       rewardedOnceMore now (default [] (Item.skillRewards (Routine.item found)))
         (RoutineManager.xpResults out) user user' /\
       (RoutineSession.isComplete (RoutineManager.heap m1 !!! ref) routine = false ->
        RoutineManager.heap m' !!! ref = RoutineManager.heap m1 !!! ref /\
        User.totalRoutinesCompleted (User.stats user')
          = User.totalRoutinesCompleted (User.stats user)) /\
       (RoutineSession.isComplete (RoutineManager.heap m1 !!! ref) routine = true ->
        user' = User.completeRoutine now
                  (User.completeTask now
                     (snd (User.addRoutineRewards now user
                             (default [] (Item.skillRewards (Routine.item found)))))) /\
        User.totalRoutinesCompleted (User.stats user')
          = User.totalRoutinesCompleted (User.stats user) + 1 /\
        RoutineManager.heap m' !!! ref
          = RoutineSession.complete now (RoutineManager.heap m1 !!! ref) /\
        (RoutineSession.status (RoutineManager.heap m1 !!! ref)
           = RoutineSession.completed ->
         RoutineManager.heap m' !!! ref = RoutineManager.heap m1 !!! ref) /\
        (RoutineSession.status (RoutineManager.heap m1 !!! ref)
           <> RoutineSession.completed ->
         RoutineSession.status (RoutineManager.heap m' !!! ref)
           = RoutineSession.completed /\
         RoutineSession.completedAt (RoutineManager.heap m' !!! ref) = Some now))) /\
  (forall (now1 now2 : Date) (m m1 : RoutineManager.t) (routineId itemId : string)
          (user user1 : User.t) (routine : Routine.t)
          (out1 : RoutineManager.CompleteResult),
     RoutineManager.wf m ->
     RoutineManager.getRoutine m routineId = Some routine ->
     toDateString now2 = toDateString now1 ->
     plainKeys (default [] (Item.skillRewards
                              (Routine.item (RoutineManager.item out1)))) ->
     RoutineManager.completeItem now1 m routineId itemId user
       = Return (Some out1, m1, user1) ->
     exists out2 m2 user2,
       RoutineManager.completeItem now2 m1 routineId itemId user1
         = Return (Some out2, m2, user2) /\
       RoutineManager.heap m2 !!! RoutineManager.session out1
         = RoutineManager.heap m1 !!! RoutineManager.session out1 /\
       rewardedOnceMore now2
         (default [] (Item.skillRewards (Routine.item (RoutineManager.item out1))))
         (RoutineManager.xpResults out2) user1 user2 /\
       (RoutineManager.isRoutineComplete out1 = false ->
        User.totalRoutinesCompleted (User.stats user2)
          = User.totalRoutinesCompleted (User.stats user1)) /\
       (RoutineManager.isRoutineComplete out1 = true ->
        User.totalRoutinesCompleted (User.stats user2)
          = User.totalRoutinesCompleted (User.stats user1) + 1 /\
        user2 = User.completeRoutine now2
                  (User.completeTask now2
                     (snd (User.addRoutineRewards now2 user1
                             (default [] (Item.skillRewards
                                            (Routine.item (RoutineManager.item out1))))))))).
Proof.
  assert (Hreward : forall now rewards (out : RoutineManager.CompleteResult)
                           (user user' : User.t),
            RoutineManager.xpResults out = fst (User.addRoutineRewards now user rewards) ->
            User.skills user'
              = User.skills (snd (User.addRoutineRewards now user rewards)) ->
            (forall k x sk,
               NoDup rewards.*1 -> (k, x) ∈ rewards -> User.skills user !! k = Some sk ->
               User.skills user' !! k
                 = Some (snd (Skill.addXP sk x (User.getStreakBonus user)))) ->
            User.totalXPEarned (User.stats user')
              = User.totalXPEarned (User.stats user)
                + sumXPGained (RoutineManager.xpResults out) ->
            User.totalTasksCompleted (User.stats user')
              = User.totalTasksCompleted (User.stats user) + 1 ->
            rewardedOnceMore now rewards (RoutineManager.xpResults out) user user').
  { intros now rewards out user user' Hres Hsk Hskill Hx Ht.
    unfold rewardedOnceMore. split; [exact Hres|]. split; [exact Hsk|].
    split; [|split; assumption].
    intros k x sk Hnd Hin Hk. split; [apply (Hskill k x sk); assumption|].
    destruct (addRoutineRewards_result now rewards user k x sk Hnd Hin Hk)
      as (r & Hr & Hrk & Hrg).
    exists r, (User.xpGained r). rewrite Hres.
    split; [exact Hr|]. split; [exact Hrk|]. split; [reflexivity|].
    rewrite Hrg. split; [apply addXP_totalXP|]. split.
    - intros Hx0 Hp. apply gain_at_least_reward;
        [exact Hp | apply getStreakBonus_nonneg | exact Hx0].
    - intros Hp Hstreak. rewrite (getStreakBonus_below_5 user Hstreak).
      apply gain_is_reward. exact Hp. }
  split.
  - intros now m m1 routineId itemId user routine found ref Hwf Hroutine Hitem _
           Hget Hdone.
    destruct (completeItem_on_completed_item now m m1 routineId itemId user routine
                found ref Hwf Hroutine Hitem Hget Hdone)
      as (out & m' & user' & Hcall & Hnoop & Hci & Hxe & Hsa & Hres & Hsk & Hskill
          & Hx & Ht & Hpart & Hfull).
    exists out, m', user'.
    split; [exact Hcall|]. split; [exact Hnoop|]. split; [exact Hci|].
    split; [exact Hxe|]. split; [exact Hsa|].
    split; [apply Hreward; assumption|].
    split; [intros Hc; split; apply Hpart; exact Hc|].
    intros Hc. destruct (Hfull Hc) as (Hu & _ & Hr & Hheap & Hsame).
    split; [exact Hu|]. split; [exact Hr|]. split; [exact Hheap|].
    split; [exact Hsame|].
    intros Hst. rewrite Hheap. unfold RoutineSession.complete.
    destruct (RoutineSession.status (RoutineManager.heap m1 !!! ref));
      [split; reflexivity | split; reflexivity | contradiction].
  - intros now1 now2 m m1 routineId itemId user user1 routine out1
           Hwf Hroutine Hday _ Hfirst.
    destruct (completeItem_leaves now1 now2 m m1 routineId itemId user user1 routine
                out1 Hwf Hroutine Hday Hfirst)
      as (Hwf1 & Hroutine1 & Hitem & Hget & Hdone & Hflag & Hstatus).
    destruct (completeItem_on_completed_item now2 m1 m1 routineId itemId user1 routine
                (RoutineManager.item out1) (RoutineManager.session out1)
                Hwf1 Hroutine1 Hitem Hget Hdone)
      as (out2 & m2 & user2 & Hcall & _ & _ & _ & _ & Hres & Hsk & Hskill
          & Hx & Ht & Hpart & Hfull).
    exists out2, m2, user2. rewrite <- Hflag in Hpart, Hfull.
    split; [exact Hcall|]. split.
    { destruct (RoutineManager.isRoutineComplete out1) eqn:Hc.
      - apply Hfull; [reflexivity|]. apply Hstatus. reflexivity.
      - apply Hpart. reflexivity. }
    split; [apply Hreward; assumption|].
    split; [intros Hc; apply Hpart; exact Hc|].
    intros Hc. destruct (Hfull Hc) as (Hu & _ & Hr & _). split; assumption.
Qed.

Lemma C10_completeItem_again_witness :
  exists out2 m2 user2,
    RoutineManager.completeItem (mkDate 1 64800000) shortDoneManager "short" "stretch"
      shortDoneUser
      = Return (Some out2, m2, user2) /\
    RoutineManager.heap m2 !!! 0%nat = RoutineManager.heap shortDoneManager !!! 0%nat /\
    User.totalTasksCompleted (User.stats user2)
      = User.totalTasksCompleted (User.stats shortDoneUser) + 1 /\
    User.totalRoutinesCompleted (User.stats user2)
      = User.totalRoutinesCompleted (User.stats shortDoneUser) + 1.
Proof.
  assert (Hwf : RoutineManager.wf sampleManager)
    by (apply wf_empty_cache; reflexivity).
  assert (Hroutine : RoutineManager.getRoutine sampleManager "short" = Some shortRoutine)
    by (vm_compute; reflexivity).
  assert (Hday : toDateString (mkDate 1 64800000) = toDateString (noon 1))
    by reflexivity.
  assert (Hplain : plainKeys
                     (default [] (Item.skillRewards
                                    (Routine.item (RoutineManager.item shortDoneResult)))))
    by (apply (bool_decide_unpack _); vm_compute; exact I).
  assert (Hfirst : RoutineManager.completeItem (noon 1) sampleManager "short" "stretch"
                     hunter
                   = Return (Some shortDoneResult, shortDoneManager, shortDoneUser))
    by (vm_compute; reflexivity).
  destruct (proj2 C10_completeItem_again (noon 1) (mkDate 1 64800000)
              sampleManager shortDoneManager "short" "stretch" hunter shortDoneUser
              shortRoutine shortDoneResult Hwf Hroutine Hday Hplain Hfirst)
    as (out2 & m2 & user2 & Hcall & Hsame & (_ & _ & _ & _ & Htasks) & _ & Hfull).
  exists out2, m2, user2.
  split; [exact Hcall|]. split; [exact Hsame|]. split; [exact Htasks|].
  apply Hfull. reflexivity.
Defined.

(** C10, as stated, fails for a session that holds every item of the
    routine while its status is not [completed] yet, as a storage can
    hand it to a manager built anew: the call for the item it holds
    already takes the session through [complete], so its status and
    [completedAt] change. *)
Lemma C10_session_promoted :
  RoutineManager.getSession (noon 1) staleManager "short" None
    = Return (0%nat, staleLoaded) /\
  RoutineManager.heap staleLoaded !!! 0%nat = staleSession /\
  "stretch" ∈ RoutineSession.completedItems staleSession /\
  RoutineSession.status staleSession = RoutineSession.in_progress /\
  isThrow (RoutineManager.completeItem (noon 1) staleManager "short" "stretch" hunter)
    = false /\
  RoutineSession.status (RoutineManager.heap staleAfter !!! 0%nat)
    = RoutineSession.completed /\
  RoutineSession.completedAt (RoutineManager.heap staleAfter !!! 0%nat)
    = Some (noon 1) /\
  RoutineManager.heap staleAfter !!! 0%nat <> staleSession.
Proof.
  assert (Hst : RoutineSession.status (RoutineManager.heap staleAfter !!! 0%nat)
                = RoutineSession.completed) by (vm_compute; reflexivity).
  split; [vm_compute; reflexivity|]. split; [vm_compute; reflexivity|].
  split; [apply (bool_decide_unpack _); vm_compute; exact I|]. split; [reflexivity|].
  split; [vm_compute; reflexivity|]. split; [exact Hst|].
  split; [vm_compute; reflexivity|].
  intros Heq. rewrite Heq in Hst. discriminate Hst.
Qed.

(** *** Growth of a user under its operations *)

Lemma skillsGrow_refl (lv : bool) (m : gmap string Skill.t) : skillsGrow lv m m.
Proof.
  intros k. destruct (m !! k); [split; [lia | intros _; lia] | exact I].
Qed.

Lemma skillsGrow_trans (lv : bool) (m1 m2 m3 : gmap string Skill.t) :
  skillsGrow lv m1 m2 -> skillsGrow lv m2 m3 -> skillsGrow lv m1 m3.
Proof.
  intros H12 H23 k. specialize (H12 k). specialize (H23 k).
  destruct (m1 !! k), (m2 !! k), (m3 !! k); try tauto.
  destruct H12 as [Hp Hl], H23 as [Hp' Hl']. split; [lia|].
  intros Hlv. specialize (Hl Hlv). specialize (Hl' Hlv). lia.
Qed.

Lemma skillsGrow_insert (lv : bool) (m : gmap string Skill.t) (k : string)
    (s s' : Skill.t) :
  m !! k = Some s ->
  Skill.prestige s <= Skill.prestige s' ->
  (lv = true -> Skill.level s <= Skill.level s') ->
  skillsGrow lv m (<[k := s']> m).
Proof.
  intros Hk Hp Hl k'. destruct (decide (k = k')) as [<-|Hne].
  - rewrite lookup_insert_eq, Hk. auto.
  - rewrite lookup_insert_ne by exact Hne. apply skillsGrow_refl.
Qed.

Lemma userGrows_refl (lv xf : bool) (u : User.t) : userGrows lv xf u u.
Proof.
  unfold userGrows. repeat split; try lia. apply skillsGrow_refl.
Qed.

Lemma userGrows_trans (lv xf : bool) (u1 u2 u3 : User.t) :
  userGrows lv xf u1 u2 -> userGrows lv xf u2 u3 -> userGrows lv xf u1 u3.
Proof.
  intros (Hr & Ht & Hx & Hs) (Hr' & Ht' & Hx' & Hs').
  unfold userGrows. repeat split; try lia.
  - intros E. specialize (Hx E). specialize (Hx' E). lia.
  - eapply skillsGrow_trans; eassumption.
Qed.

Lemma userGrows_prestigeNonNegative (lv xf : bool) (u u' : User.t) :
  userGrows lv xf u u' -> prestigeNonNegative u -> prestigeNonNegative u'.
Proof.
  intros (_ & _ & _ & Hs) Hnn k s' Hk. specialize (Hs k). rewrite Hk in Hs.
  destruct (User.skills u !! k) as [s|] eqn:Hs0; [|contradiction].
  specialize (Hnn _ _ Hs0). lia.
Qed.

Lemma xpGained_nonneg (sk : Skill.t) (xp : Z) (bonus : Q) :
  0 <= xp -> 0 <= Skill.prestige sk -> (0 <= bonus)%Q ->
  0 <= Skill.xpGained (fst (Skill.addXP sk xp bonus)).
Proof.
  intros Hxp Hp Hb. rewrite addXP_xpGained.
  change 0 with (Qfloor 0). apply Qfloor_resp_le.
  apply Qmult_le_0_compat.
  - unfold Qle. simpl. lia.
  - apply Qmult_le_0_compat.
    + unfold Skill.getPrestigeMultiplier.
      apply (Qle_trans _ (1 + 0)); [discriminate|].
      apply Qplus_le_r. apply Qmult_le_0_compat; [|discriminate].
      unfold Qle. simpl. lia.
    + apply (Qle_trans _ (1 + 0)); [discriminate|].
      apply Qplus_le_r. exact Hb.
Qed.

Lemma addSkillXP_grows (lv xf : bool) (now : Date) (u : User.t) (k : string) (xp : Z) :
  (xf = true -> prestigeNonNegative u /\ 0 <= xp) ->
  userGrows lv xf u (snd (User.addSkillXP now u k xp)).
Proof.
  intros Hxf.
  destruct (addSkillXP_fields now u k xp) as (_ & Hr & Ht & Hx & Hs & Hres).
  unfold userGrows. rewrite Hr, Ht, Hx, Hs.
  destruct (User.skills u !! k) as [sk|] eqn:Hsk.
  - destruct (fst (User.addSkillXP now u k xp)) as [r|]; [|contradiction].
    repeat split; try lia.
    + intros E. destruct (Hxf E) as [Hnn Hxp].
      pose proof (xpGained_nonneg sk xp (User.getStreakBonus u) Hxp (Hnn _ _ Hsk)
                    (getStreakBonus_nonneg u)).
      lia.
    + apply (skillsGrow_insert lv _ k sk); [exact Hsk | |].
      * rewrite addXP_prestige. lia.
      * intros _. apply addXP_level_mono.
  - destruct (fst (User.addSkillXP now u k xp)); [contradiction|].
    repeat split; try lia. apply skillsGrow_refl.
Qed.

Lemma addRoutineRewards_grows (lv xf : bool) (now : Date)
    (rewards : list (string * Z)) :
  forall u : User.t,
    (xf = true ->
     prestigeNonNegative u /\ Forall (fun entry => 0 <= snd entry) rewards) ->
    userGrows lv xf u (snd (User.addRoutineRewards now u rewards)).
Proof.
  induction rewards as [|entry rest IH]; intros u Hxf.
  - apply userGrows_refl.
  - rewrite addRoutineRewards_cons. simpl.
    assert (Hstep : userGrows lv xf u
                      (snd (User.addSkillXP now u (fst entry) (snd entry)))).
    { apply addSkillXP_grows. intros E. destruct (Hxf E) as [Hnn Hall].
      apply Forall_cons in Hall as [Hxp _]. auto. }
    eapply userGrows_trans; [exact Hstep|].
    apply IH. intros E. destruct (Hxf E) as [Hnn Hall].
    apply Forall_cons in Hall as [_ Hall]. split; [|exact Hall].
    eapply userGrows_prestigeNonNegative; eassumption.
Qed.

Lemma prestigeSkill_grows (xf : bool) (u : User.t) (k : string) :
  userGrows false xf u (User.prestigeSkill u k).
Proof.
  unfold User.prestigeSkill.
  destruct (User.skills u !! k) as [sk|] eqn:Hsk; [|apply userGrows_refl].
  unfold Skill.prestige_method.
  destruct (Skill.level sk <? 100); [apply userGrows_refl|].
  unfold userGrows. simpl. repeat split; try lia.
  apply (skillsGrow_insert false _ k sk); [exact Hsk | simpl; lia | discriminate].
Qed.

Lemma apply_grows (lv xf : bool) (now : Date) (o : User.op) (u : User.t) :
  (xf = true -> prestigeNonNegative u /\ User.awardsNonNegative o) ->
  (lv = true -> User.isPrestige o = false) ->
  userGrows lv xf u (User.apply now o u).
Proof.
  intros Hxf Hlv. destruct o; simpl in *.
  - apply addSkillXP_grows; assumption.
  - apply addRoutineRewards_grows; assumption.
  - unfold userGrows. simpl. repeat split; try lia. apply skillsGrow_refl.
  - unfold userGrows. simpl. repeat split; try lia. apply skillsGrow_refl.
  - unfold userGrows. simpl. repeat split; try lia. apply skillsGrow_refl.
  - unfold User.unlockAchievement. destruct (bool_decide _); simpl;
      [apply userGrows_refl|].
    unfold userGrows. simpl. repeat split; try lia. apply skillsGrow_refl.
  - destruct lv; [specialize (Hlv eq_refl); discriminate|].
    apply prestigeSkill_grows.
Qed.

Lemma run_grows (lv xf : bool) (history : list (Date * User.op)) :
  forall u : User.t,
    (xf = true ->
     prestigeNonNegative u /\
     Forall (fun step => User.awardsNonNegative (snd step)) history) ->
    (lv = true -> Forall (fun step => User.isPrestige (snd step) = false) history) ->
    userGrows lv xf u (User.run history u).
Proof.
  induction history as [|[now o] rest IH]; intros u Hxf Hlv.
  - apply userGrows_refl.
  - assert (Ho : lv = true -> User.isPrestige o = false).
    { intros E. specialize (Hlv E). apply Forall_cons in Hlv as [Hl _]. exact Hl. }
    assert (Hrest : lv = true ->
                    Forall (fun step => User.isPrestige (snd step) = false) rest).
    { intros E. specialize (Hlv E). apply Forall_cons in Hlv as [_ Hl]. exact Hl. }
    assert (Hstep : userGrows lv xf u (User.apply now o u)).
    { apply apply_grows; [|exact Ho]. intros E. destruct (Hxf E) as [Hnn Hall].
      apply Forall_cons in Hall as [Ha _]. auto. }
    change (User.run ((now, o) :: rest) u) with (User.run rest (User.apply now o u)).
    eapply userGrows_trans; [exact Hstep|].
    apply IH; [|exact Hrest]. intros E. destruct (Hxf E) as [Hnn Hall].
    apply Forall_cons in Hall as [_ Hall]. split; [|exact Hall].
    eapply userGrows_prestigeNonNegative; eassumption.
Qed.

(** *** Thresholds over a user that grows *)

Lemma skillValues_elem (u : User.t) (s : Skill.t) :
  In s (User.skillValues u) <-> exists k, User.skills u !! k = Some s.
Proof.
  unfold User.skillValues. rewrite in_map_iff. split.
  - intros ([k s'] & <- & Hin). exists k.
    apply list_elem_of_In in Hin. apply elem_of_map_to_list in Hin. exact Hin.
  - intros [k Hk]. exists (k, s). split; [reflexivity|].
    apply list_elem_of_In. apply elem_of_map_to_list. exact Hk.
Qed.

Lemma someSkill_grows (lv xf : bool) (p : Skill.t -> bool) (u u' : User.t) :
  (forall s s', Skill.prestige s <= Skill.prestige s' ->
                (lv = true -> Skill.level s <= Skill.level s') ->
                p s = true -> p s' = true) ->
  userGrows lv xf u u' ->
  Achievement.someSkill p u = true -> Achievement.someSkill p u' = true.
Proof.
  intros Hp (_ & _ & _ & Hs). unfold Achievement.someSkill.
  rewrite !existsb_exists. intros (s & Hin & Hps).
  apply skillValues_elem in Hin as [k Hk]. specialize (Hs k). rewrite Hk in Hs.
  destruct (User.skills u' !! k) as [s'|] eqn:Hk'; [|contradiction].
  exists s'. split; [apply skillValues_elem; eauto|].
  destruct Hs as [Hpr Hl]. eapply Hp; eassumption.
Qed.

Lemma everySkill_grows (lv xf : bool) (p : Skill.t -> bool) (u u' : User.t) :
  (forall s s', Skill.prestige s <= Skill.prestige s' ->
                (lv = true -> Skill.level s <= Skill.level s') ->
                p s = true -> p s' = true) ->
  userGrows lv xf u u' ->
  Achievement.everySkill p u = true -> Achievement.everySkill p u' = true.
Proof.
  intros Hp (_ & _ & _ & Hs). unfold Achievement.everySkill.
  rewrite !forallb_forall. intros Hall s' Hin.
  apply skillValues_elem in Hin as [k Hk]. specialize (Hs k). rewrite Hk in Hs.
  destruct (User.skills u !! k) as [s|] eqn:Hk0; [|contradiction].
  destruct Hs as [Hpr Hl]. apply (Hp s s' Hpr Hl).
  apply Hall. apply skillValues_elem. eauto.
Qed.

Ltac threshold_grows Hgrow :=
  simpl;
  first
    [ intros Hc; eapply someSkill_grows; [|exact Hgrow|exact Hc];
      intros s s' Hp Hl; rewrite !Z.leb_le; try specialize (Hl eq_refl); lia
    | intros Hc; eapply everySkill_grows; [|exact Hgrow|exact Hc];
      intros s s' Hp Hl; rewrite !Z.leb_le; try specialize (Hl eq_refl); lia
    | destruct Hgrow as (Hr & Ht & Hx & _); try specialize (Hx eq_refl);
      rewrite !Z.leb_le; lia ].

(** Every condition of the catalog other than a streak threshold stays
    true when the user grows; a skill-level threshold needs the levels to
    grow too, an XP threshold the total XP. *)
Lemma catalog_condition_grows (d : Achievement.Data) (u u' : User.t) :
  In d Achievement.ACHIEVEMENTS ->
  Achievement.isStreakThreshold d = false ->
  userGrows (Achievement.isSkillLevelThreshold d) (Achievement.isXPThreshold d) u u' ->
  Achievement.d_condition d u = true -> Achievement.d_condition d u' = true.
Proof.
  intros Hin. unfold Achievement.ACHIEVEMENTS in Hin. simpl in Hin.
  repeat (destruct Hin as [<- | Hin]); try contradiction;
    intros Hstreak; try (vm_compute in Hstreak; discriminate Hstreak);
    intros Hgrow;
    match type of Hgrow with
    | userGrows ?b ?c _ _ =>
        let v := eval vm_compute in b in
        let w := eval vm_compute in c in
        change b with v in Hgrow; change c with w in Hgrow
    end;
    threshold_grows Hgrow.
Qed.

(** *** Unlocking once *)

Lemma keyedById_unique (entries : list (string * Achievement.t)) (k : string)
    (a a' : Achievement.t) :
  NoDup entries.*1 -> (k, a) ∈ entries -> (k, a') ∈ entries -> a = a'.
Proof.
  induction entries as [|[k0 a0] rest IH]; intros Hnd Ha Ha'.
  - inversion Ha.
  - rewrite fmap_cons, NoDup_cons in Hnd. destruct Hnd as [Hk0 Hnd]. simpl in Hk0.
    apply elem_of_cons in Ha as [[= -> ->]|Ha];
      apply elem_of_cons in Ha' as [[= ->]|Ha'].
    + reflexivity.
    + exfalso. apply Hk0. apply list_elem_of_fmap. exists (k0, a'). auto.
    + subst. exfalso. apply Hk0. apply list_elem_of_fmap. exists (k0, a). auto.
    + apply IH; assumption.
Qed.

Lemma locked_not_unlocked (entries : list (string * Achievement.t)) (k : string) :
  NoDup entries.*1 -> unlockedAtKey entries k -> lockedAtKey entries k -> False.
Proof.
  intros Hnd (a & Ha & Hu) (a' & Ha' & Hl).
  rewrite (keyedById_unique _ _ _ _ Hnd Ha Ha') in Hu. congruence.
Qed.

Lemma entriesAdvance_refl (es : list (string * Achievement.t)) : entriesAdvance es es.
Proof.
  unfold entriesAdvance. induction es; constructor; auto.
Qed.

Lemma entriesAdvance_trans (es1 es2 es3 : list (string * Achievement.t)) :
  entriesAdvance es1 es2 -> entriesAdvance es2 es3 -> entriesAdvance es1 es3.
Proof.
  unfold entriesAdvance. intros H12. revert es3.
  induction H12 as [|e1 e2 r1 r2 (Hk & Hi & Hu) _ IH]; intros es3 H23;
    inversion H23 as [|? e3 ? r3 (Hk' & Hi' & Hu') Hrest]; subst; constructor.
  - repeat split; [congruence | congruence | auto].
  - apply IH. exact Hrest.
Qed.

Lemma entriesAdvance_keys (es es' : list (string * Achievement.t)) :
  entriesAdvance es es' -> es'.*1 = es.*1.
Proof.
  induction 1 as [|e e' r r' (Hk & _) _ IH]; [reflexivity|].
  rewrite !fmap_cons, IH, Hk. reflexivity.
Qed.

Lemma entriesAdvance_keyedById (es es' : list (string * Achievement.t)) :
  entriesAdvance es es' -> keyedById es -> keyedById es'.
Proof.
  intros Hadv [Hnd Hid]. split.
  - rewrite (entriesAdvance_keys _ _ Hadv). exact Hnd.
  - clear Hnd. induction Hadv as [|e e' r r' (Hk & Hi & _) _ IH]; [constructor|].
    apply Forall_cons in Hid as [He Hid]. constructor; [congruence | auto].
Qed.

Lemma entriesAdvance_unlocked (es es' : list (string * Achievement.t)) (k : string) :
  entriesAdvance es es' -> unlockedAtKey es k -> unlockedAtKey es' k.
Proof.
  intros Hadv (a & Ha & Hu).
  induction Hadv as [|[k0 a0] [k0' a0'] r r' (Hk & _ & Hmono) _ IH]; [inversion Ha|].
  simpl in *. apply elem_of_cons in Ha as [[= -> ->]|Ha].
  - exists a0'. split; [subst; apply list_elem_of_here | auto].
  - destruct (IH Ha) as (a' & Ha' & Hu'). exists a'.
    split; [apply list_elem_of_further; exact Ha' | exact Hu'].
Qed.

(** What the loop of [checkAchievements] does to the entries, and where
    each newly unlocked achievement comes from. *)
Lemma checkLoop_spec (now : Date) (entries : list (string * Achievement.t)) :
  forall user : User.t,
    entriesAdvance entries (snd (fst (AchievementManager.checkLoop now entries user))) /\
    (forall a,
       In a (fst (fst (AchievementManager.checkLoop now entries user))) ->
       exists k a0,
         (k, a0) ∈ entries /\ Achievement.isUnlocked a0 = false /\
         Achievement.id a = Achievement.id a0 /\
         unlockedAtKey (snd (fst (AchievementManager.checkLoop now entries user))) k).
Proof.
  induction entries as [|[k a] rest IH]; intros user; simpl.
  - split; [constructor | intros a []].
  - unfold Achievement.unlock.
    destruct (Achievement.isUnlocked a) eqn:Hu;
      [|destruct (Achievement.condition a user) eqn:Hc].
    + specialize (IH user).
      destruct (AchievementManager.checkLoop now rest user) as [[newly rest'] user'].
      simpl in *. destruct IH as [Hadv Hnew]. split.
      * constructor; [auto | exact Hadv].
      * intros b Hb. destruct (Hnew b Hb) as (kb & b0 & Hin & Hl & Hid & (b' & Hb' & Hu')).
        exists kb, b0. repeat split; auto.
        -- apply list_elem_of_further. exact Hin.
        -- exists b'. split; [apply list_elem_of_further; exact Hb' | exact Hu'].
    + simpl.
      match goal with
      | |- context [AchievementManager.checkLoop now rest ?u1] => specialize (IH u1);
          destruct (AchievementManager.checkLoop now rest u1) as [[newly rest'] user']
      end.
      simpl in *. destruct IH as [Hadv Hnew]. split.
      * constructor; [simpl; repeat split; auto | exact Hadv].
      * intros b [<-|Hb].
        -- exists k, a. repeat split; auto.
           ++ apply list_elem_of_here.
           ++ eexists. split; [apply list_elem_of_here | reflexivity].
        -- destruct (Hnew b Hb) as (kb & b0 & Hin & Hl & Hid & (b' & Hb' & Hu')).
           exists kb, b0. repeat split; auto.
           ++ apply list_elem_of_further. exact Hin.
           ++ exists b'. split; [apply list_elem_of_further; exact Hb' | exact Hu'].
    + specialize (IH user).
      destruct (AchievementManager.checkLoop now rest user) as [[newly rest'] user'].
      simpl in *. destruct IH as [Hadv Hnew]. split.
      * constructor; [auto | exact Hadv].
      * intros b Hb. destruct (Hnew b Hb) as (kb & b0 & Hin & Hl & Hid & (b' & Hb' & Hu')).
        exists kb, b0. repeat split; auto.
        -- apply list_elem_of_further. exact Hin.
        -- exists b'. split; [apply list_elem_of_further; exact Hb' | exact Hu'].
Qed.

Lemma mapGet_cons (k k0 : string) (v : Achievement.t)
    (rest : list (string * Achievement.t)) :
  AchievementManager.mapGet k ((k0, v) :: rest)
  = if String.eqb k0 k then Some v else AchievementManager.mapGet k rest.
Proof.
  unfold AchievementManager.mapGet. simpl. destruct (String.eqb k0 k); reflexivity.
Qed.

Lemma mapSet_advance (k : string) (a a' : Achievement.t)
    (entries : list (string * Achievement.t)) :
  AchievementManager.mapGet k entries = Some a ->
  Achievement.id a' = Achievement.id a ->
  Achievement.isUnlocked a' = true ->
  entriesAdvance entries (AchievementManager.mapSet k a' entries).
Proof.
  intros Hget Hid Hu.
  induction entries as [|[k0 v] rest IH]; [discriminate|].
  rewrite mapGet_cons in Hget. simpl.
  destruct (String.eqb k0 k) eqn:Heq.
  - injection Hget as ->. constructor; [simpl; auto | apply entriesAdvance_refl].
  - constructor; [simpl; auto | apply IH; exact Hget].
Qed.

Lemma restoreUnlocked_advance (now : Date) (m : AchievementManager.t)
    (unlockedIds : list string) :
  entriesAdvance (AchievementManager.achievements m)
    (AchievementManager.achievements (AchievementManager.restoreUnlocked now m unlockedIds)).
Proof.
  unfold AchievementManager.restoreUnlocked. simpl.
  generalize (AchievementManager.achievements m) as entries.
  induction unlockedIds as [|id rest IH]; intros entries; simpl.
  - apply entriesAdvance_refl.
  - eapply entriesAdvance_trans; [|apply IH].
    destruct (AchievementManager.mapGet id entries) as [a|] eqn:Hget;
      [|apply entriesAdvance_refl].
    unfold Achievement.unlock.
    destruct (Achievement.isUnlocked a) eqn:Hu; [apply entriesAdvance_refl|].
    simpl. eapply mapSet_advance; [exact Hget | reflexivity | reflexivity].
Qed.

Lemma checkAchievements_loop (now : Date) (m : AchievementManager.t) (user : User.t) :
  fst (fst (AchievementManager.checkAchievements now m user))
    = fst (fst (AchievementManager.checkLoop now (AchievementManager.achievements m) user)) /\
  AchievementManager.achievements
    (snd (fst (AchievementManager.checkAchievements now m user)))
    = snd (fst (AchievementManager.checkLoop now (AchievementManager.achievements m) user)).
Proof.
  unfold AchievementManager.checkAchievements.
  destruct (AchievementManager.checkLoop now _ user) as [[newly entries] user'].
  split; reflexivity.
Qed.

Lemma apply_advance (o : AchievementManager.op) (m : AchievementManager.t) :
  entriesAdvance (AchievementManager.achievements m)
    (AchievementManager.achievements (AchievementManager.apply o m)).
Proof.
  destruct o as [now user|now ids]; simpl.
  - rewrite (proj2 (checkAchievements_loop now m user)).
    apply checkLoop_spec.
  - apply restoreUnlocked_advance.
Qed.

Lemma run_advance (history : list AchievementManager.op) :
  forall m : AchievementManager.t,
    entriesAdvance (AchievementManager.achievements m)
      (AchievementManager.achievements (AchievementManager.run history m)).
Proof.
  induction history as [|o rest IH]; intros m.
  - apply entriesAdvance_refl.
  - change (AchievementManager.run (o :: rest) m)
      with (AchievementManager.run rest (AchievementManager.apply o m)).
    eapply entriesAdvance_trans; [apply apply_advance | apply IH].
Qed.

Lemma constructor_keyedById :
  keyedById (AchievementManager.achievements AchievementManager.constructor).
Proof.
  split.
  - apply (bool_decide_unpack _). vm_compute. exact I.
  - vm_compute. repeat constructor.
Qed.

Lemma newly_unlocked_keys (now : Date) (m : AchievementManager.t) (user : User.t)
    (id : string) :
  keyedById (AchievementManager.achievements m) ->
  id ∈ AchievementManager.newlyUnlockedIds now m user ->
  lockedAtKey (AchievementManager.achievements m) id /\
  unlockedAtKey
    (AchievementManager.achievements
       (snd (fst (AchievementManager.checkAchievements now m user)))) id.
Proof.
  intros [_ Hid] Hin. unfold AchievementManager.newlyUnlockedIds in Hin.
  apply list_elem_of_fmap in Hin as (a & -> & Ha). apply list_elem_of_In in Ha.
  destruct (checkAchievements_loop now m user) as [Hnew Hent].
  rewrite Hnew in Ha. rewrite Hent.
  destruct (proj2 (checkLoop_spec now _ user) a Ha) as (k & a0 & Hin0 & Hl & Hida & Hunl).
  assert (Hk : Achievement.id a0 = k).
  { rewrite Forall_forall in Hid. exact (Hid (k, a0) Hin0). }
  rewrite Hida, Hk. split; [exists a0; auto | exact Hunl].
Qed.

(** C3 (amended). The thresholds of the catalog on the routine count,
    the task count and the prestige count, once true, stay true after any
    further operations on the user; so do the thresholds on the total XP
    when no award is negative (and no prestige count is), and the
    thresholds on skill levels when no operation is a prestige. (The
    streak thresholds are left out: a gap resets the streak.) A manager
    built by the constructor and used in any way never reports an
    achievement id as newly unlocked in two calls of
    [checkAchievements]. *)
Theorem C3_thresholds_kept_and_unlocked_once :
  (forall (d : Achievement.Data) (u : User.t) (history : list (Date * User.op)),
     In d Achievement.ACHIEVEMENTS ->
     Achievement.isStreakThreshold d = false ->
     (Achievement.isXPThreshold d = true ->
      prestigeNonNegative u /\
      Forall (fun step => User.awardsNonNegative (snd step)) history) ->
     (Achievement.isSkillLevelThreshold d = true ->
      Forall (fun step => User.isPrestige (snd step) = false) history) ->
     Achievement.d_condition d u = true ->
     Achievement.d_condition d (User.run history u) = true) /\
  (forall (before between : list AchievementManager.op)
          (now1 now2 : Date) (user1 user2 : User.t) (id : string),
     id ∈ AchievementManager.newlyUnlockedIds now1
            (AchievementManager.run before AchievementManager.constructor) user1 ->
     id ∉ AchievementManager.newlyUnlockedIds now2
            (AchievementManager.run between
               (snd (fst (AchievementManager.checkAchievements now1
                            (AchievementManager.run before AchievementManager.constructor)
                            user1))))
            user2).
Proof.
  split.
  - intros d u history Hin Hstreak Hxp Hlv.
    apply catalog_condition_grows; [exact Hin | exact Hstreak|].
    apply run_grows; assumption.
  - intros before between now1 now2 user1 user2 id Hfirst Hsecond.
    set (m0 := AchievementManager.run before AchievementManager.constructor) in *.
    set (m1 := snd (fst (AchievementManager.checkAchievements now1 m0 user1))) in *.
    set (m2 := AchievementManager.run between m1) in *.
    assert (H0 : keyedById (AchievementManager.achievements m0)).
    { eapply entriesAdvance_keyedById; [apply run_advance | apply constructor_keyedById]. }
    assert (H1 : keyedById (AchievementManager.achievements m1)).
    { eapply entriesAdvance_keyedById; [|exact H0].
      apply (apply_advance (AchievementManager.CheckAchievements now1 user1) m0). }
    assert (H2 : keyedById (AchievementManager.achievements m2)).
    { eapply entriesAdvance_keyedById; [apply run_advance | exact H1]. }
    destruct (newly_unlocked_keys now1 m0 user1 id H0 Hfirst) as [_ Hunl].
    destruct (newly_unlocked_keys now2 m2 user2 id H2 Hsecond) as [Hlocked _].
    apply (locked_not_unlocked _ id (proj1 H2)); [|exact Hlocked].
    eapply entriesAdvance_unlocked; [apply run_advance | exact Hunl].
Qed.

Lemma constructor_prestigeNonNegative (now : Date) (username : string) :
  prestigeNonNegative (User.constructor now username).
Proof.
  intros k s Hk. unfold User.constructor in Hk. simpl in Hk.
  repeat (apply lookup_insert_Some in Hk as [[_ <-]|[_ Hk]]; [simpl; lia|]).
  rewrite lookup_empty in Hk. discriminate.
Qed.

Lemma C3_thresholds_kept_and_unlocked_once_witness :
  Achievement.d_condition xp1000 (User.run busyDays xpUser) = true /\
  "first-task" ∉ AchievementManager.newlyUnlockedIds (noon 3)
     (AchievementManager.run [AchievementManager.RestoreUnlocked (noon 2) ["streak-5"]]
        (snd (fst (AchievementManager.checkAchievements (noon 1)
                     (AchievementManager.run [] AchievementManager.constructor)
                     taskedUser))))
     taskedUser.
Proof.
  split.
  - apply (proj1 C3_thresholds_kept_and_unlocked_once xp1000 xpUser busyDays).
    + do 22 right. left. reflexivity.
    + reflexivity.
    + intros _. split.
      * apply (userGrows_prestigeNonNegative false false hunter).
        -- apply (addSkillXP_grows false false (noon 1) hunter "logic" 1000).
           discriminate.
        -- apply constructor_prestigeNonNegative.
      * repeat constructor; simpl; lia.
    + vm_compute. discriminate.
    + reflexivity.
  - apply (proj2 C3_thresholds_kept_and_unlocked_once []
             [AchievementManager.RestoreUnlocked (noon 2) ["streak-5"]]
             (noon 1) (noon 3) taskedUser taskedUser "first-task").
    apply (bool_decide_unpack _). vm_compute. exact I.
Defined.

(** C3, as stated, fails for the streak thresholds: a user on a streak of
    five days meets the condition of "streak-5"; after a routine completed
    three days later the streak is 1 and the condition is false. *)
Lemma C3_streak_threshold_lost :
  In streak5 Achievement.ACHIEVEMENTS /\
  Achievement.d_id streak5 = "streak-5" /\
  Achievement.d_condition streak5 streakUser = true /\
  User.current (User.streak (User.run [(noon 13, User.CompleteRoutine)] streakUser)) = 1 /\
  Achievement.d_condition streak5
    (User.run [(noon 13, User.CompleteRoutine)] streakUser) = false.
Proof.
  split; [right; right; left; reflexivity|].
  repeat split.
Qed.

(** Why the amended statement sets the skill levels and the total XP
    apart: a prestige takes a skill back to level 1, and a negative award
    lowers the total XP. *)
Example skill_level_threshold_lost_by_prestige :
  Achievement.d_id skillLevel10 = "skill-level-10" /\
  Achievement.d_condition skillLevel10 masterUser = true /\
  Achievement.d_condition skillLevel10
    (User.run [(noon 2, User.Prestige "logic")] masterUser) = false.
Proof. vm_compute. repeat split. Qed.

Example xp_threshold_lost_by_negative_award :
  Achievement.d_id xp1000 = "xp-1000" /\
  Achievement.d_condition xp1000 xpUser = true /\
  Achievement.d_condition xp1000
    (User.run [(noon 2, User.AddSkillXP "logic" (-500))] xpUser) = false.
Proof. vm_compute. repeat split. Qed.

(** * Further properties of the code *)

(** ** Skill *)

Lemma getXPForNextLevel_by_level (s : Skill.t) :
  Skill.getXPForNextLevel s
  = Skill.getXPForNextLevel (Skill.mk None None None (Skill.level s) 0 0 0).
Proof. reflexivity. Qed.

Lemma levelUpLoop_ledger (fuel : nat) :
  forall (s : Skill.t) (b : bool) (n : Z),
    Skill.currentXP (fst (fst (Skill.levelUpLoop fuel s b n)))
      + requirementsFrom (Skill.level s)
          (Z.to_nat (Skill.level (fst (fst (Skill.levelUpLoop fuel s b n)))
                     - Skill.level s))
      = Skill.currentXP s /\
    Skill.totalXP (fst (fst (Skill.levelUpLoop fuel s b n))) = Skill.totalXP s.
Proof.
  induction fuel as [|fuel IH]; intros s b n; simpl.
  - rewrite Z.sub_diag. simpl. split; [lia | reflexivity].
  - destruct (Skill.levelUpTest s) eqn:Ht; simpl.
    + pose proof (levelUpBody_level s Ht) as Hl.
      pose proof (levelUpLoop_level_mono fuel (Skill.levelUpBody s) true
                    (Skill.level (Skill.levelUpBody s))) as Hmono.
      destruct (IH (Skill.levelUpBody s) true (Skill.level (Skill.levelUpBody s)))
        as [Hxp Htot].
      set (r := fst (fst (Skill.levelUpLoop fuel (Skill.levelUpBody s) true
                            (Skill.level (Skill.levelUpBody s))))) in *.
      replace (Z.to_nat (Skill.level r - Skill.level s))
        with (S (Z.to_nat (Skill.level r - Skill.level (Skill.levelUpBody s))))
        by lia.
      simpl. rewrite Hl in Hxp. rewrite Hl.
      unfold Skill.levelUpTest in Ht. unfold Skill.levelUpBody in Hxp, Htot.
      unfold requirementAt. rewrite <- getXPForNextLevel_by_level.
      destruct (Skill.getXPForNextLevel s) as [req|]; [|discriminate].
      simpl in *. split; [lia | exact Htot].
    + rewrite Z.sub_diag. simpl. split; [lia | reflexivity].
Qed.

Lemma levelUpLoop_flags (fuel : nat) :
  forall (s : Skill.t) (b : bool) (n : Z),
    (Skill.level s < Skill.level (fst (fst (Skill.levelUpLoop fuel s b n))) ->
     snd (fst (Skill.levelUpLoop fuel s b n)) = true /\
     snd (Skill.levelUpLoop fuel s b n)
       = Skill.level (fst (fst (Skill.levelUpLoop fuel s b n)))) /\
    (Skill.level (fst (fst (Skill.levelUpLoop fuel s b n))) = Skill.level s ->
     snd (fst (Skill.levelUpLoop fuel s b n)) = b /\
     snd (Skill.levelUpLoop fuel s b n) = n).
Proof.
  induction fuel as [|fuel IH]; intros s b n; simpl.
  - split; [lia | auto].
  - destruct (Skill.levelUpTest s) eqn:Ht; simpl; [|split; [lia | auto]].
    pose proof (levelUpBody_level s Ht) as Hl.
    pose proof (levelUpLoop_level_mono fuel (Skill.levelUpBody s) true
                  (Skill.level (Skill.levelUpBody s))) as Hmono.
    destruct (IH (Skill.levelUpBody s) true (Skill.level (Skill.levelUpBody s)))
      as [Hup Hsame].
    split; [|lia]. intros _.
    destruct (Z.eq_dec
                (Skill.level (fst (fst (Skill.levelUpLoop fuel (Skill.levelUpBody s) true
                                          (Skill.level (Skill.levelUpBody s))))))
                (Skill.level (Skill.levelUpBody s))) as [E|E].
    + destruct (Hsame E) as [-> ->]. split; [reflexivity | congruence].
    + apply Hup. lia.
Qed.

(** X1. [addXP] keeps the books: the XP it reports as gained goes to
    [totalXP], and the current XP after the call plus the requirements of
    the levels crossed is the current XP before plus the gain. The level
    does not go down, [newLevel] is the level after the call, and
    [leveledUp] tells whether it went up. *)
Theorem addXP_ledger (s : Skill.t) (xp : Z) (bonus : Q) :
  Skill.totalXP (snd (Skill.addXP s xp bonus))
    = Skill.totalXP s + Skill.xpGained (fst (Skill.addXP s xp bonus)) /\
  Skill.currentXP (snd (Skill.addXP s xp bonus))
    + requirementsFrom (Skill.level s)
        (Z.to_nat (Skill.level (snd (Skill.addXP s xp bonus)) - Skill.level s))
    = Skill.currentXP s + Skill.xpGained (fst (Skill.addXP s xp bonus)) /\
  Skill.level s <= Skill.level (snd (Skill.addXP s xp bonus)) /\
  Skill.newLevel (fst (Skill.addXP s xp bonus))
    = Skill.level (snd (Skill.addXP s xp bonus)) /\
  (Skill.leveledUp (fst (Skill.addXP s xp bonus)) = true <->
   Skill.level s < Skill.level (snd (Skill.addXP s xp bonus))).
Proof.
  pose proof (addXP_level_mono s xp bonus) as Hmono.
  revert Hmono. unfold Skill.addXP.
  set (adj := Qfloor _).
  set (s1 := Skill.mk _ _ _ _ _ _ _).
  destruct (levelUpLoop_ledger (Z.to_nat (100 - Skill.level s1)) s1 false (Skill.level s1))
    as [Hxp Htot].
  destruct (levelUpLoop_flags (Z.to_nat (100 - Skill.level s1)) s1 false (Skill.level s1))
    as [Hup Hsame].
  destruct (Skill.levelUpLoop _ s1 false _) as [[s2 b] n]. simpl in *.
  intros Hmono. split; [lia|]. split; [lia|]. split; [exact Hmono|].
  destruct (Z.eq_dec (Skill.level s2) (Skill.level s)) as [E|E].
  - destruct (Hsame E) as [-> ->]. split; [congruence|].
    split; [discriminate | lia].
  - assert (Hlt : Skill.level s < Skill.level s2) by lia.
    destruct (Hup Hlt) as [-> ->]. split; [reflexivity|]. tauto.
Qed.

Lemma levelUpLoop_cap (fuel : nat) :
  forall (s : Skill.t) (b : bool) (n : Z),
    Skill.level (fst (fst (Skill.levelUpLoop fuel s b n))) <= Z.max (Skill.level s) 100.
Proof.
  induction fuel as [|fuel IH]; intros s b n; simpl; [lia|].
  destruct (Skill.levelUpTest s) eqn:Ht; simpl; [|lia].
  pose proof (levelUpTest_below_100 s Ht). pose proof (levelUpBody_level s Ht).
  specialize (IH (Skill.levelUpBody s) true (Skill.level (Skill.levelUpBody s))). lia.
Qed.

Lemma levelUpTest_at_cap (s : Skill.t) :
  100 <= Skill.level s -> Skill.levelUpTest s = false.
Proof.
  intros H. destruct (Skill.levelUpTest s) eqn:Ht; [|reflexivity].
  apply levelUpTest_below_100 in Ht. lia.
Qed.

(** X2. [addXP] never takes a skill past level 100, and a skill at level
    100 (or above) does not level up any more: the gain that the call
    reports as [xpGained] is added to [currentXP] and [totalXP], nothing
    else changes, [newLevel] is the level and [leveledUp] is false. *)
Theorem addXP_level_cap (s : Skill.t) (xp : Z) (bonus : Q) :
  (Skill.level s <= 100 -> Skill.level (snd (Skill.addXP s xp bonus)) <= 100) /\
  (100 <= Skill.level s ->
   Skill.addXP s xp bonus
   = (Skill.mkAddXP false (Skill.level s)
        (Skill.xpGained (fst (Skill.addXP s xp bonus))),
      Skill.mk (Skill.name s) (Skill.icon s) (Skill.type s) (Skill.level s)
        (Skill.currentXP s + Skill.xpGained (fst (Skill.addXP s xp bonus)))
        (Skill.totalXP s + Skill.xpGained (fst (Skill.addXP s xp bonus)))
        (Skill.prestige s))).
Proof.
  split.
  - intros Hle. destruct (addXP_loop s xp bonus) as (s1 & Hl & _ & ->).
    pose proof (levelUpLoop_cap (Z.to_nat (100 - Skill.level s1)) s1 false
                  (Skill.level s1)). lia.
  - intros Hcap. rewrite addXP_xpGained. unfold Skill.addXP. simpl.
    replace (Z.to_nat (100 - Skill.level s)) with O by lia. reflexivity.
Qed.

Lemma addXP_level_cap_witness :
  Skill.level (snd (Skill.addXP seasonedLogic 100000000 0.50)) <= 100 /\
  Skill.leveledUp (fst (Skill.addXP masterLogic 500 0.10)) = false.
Proof.
  split.
  - apply (proj1 (addXP_level_cap seasonedLogic 100000000 0.50%Q)). simpl. lia.
  - rewrite (proj2 (addXP_level_cap masterLogic 500 0.10%Q)); [reflexivity|].
    simpl. lia.
Defined.

Lemma multiplier_at_least_one (s : Skill.t) (bonus : Q) :
  0 <= Skill.prestige s -> (0 <= bonus)%Q ->
  (1 <= Skill.getPrestigeMultiplier s * (1 + bonus))%Q.
Proof.
  intros Hp Hb.
  assert (H1 : (1 <= Skill.getPrestigeMultiplier s)%Q).
  { unfold Skill.getPrestigeMultiplier.
    apply (Qle_trans _ (1 + 0)); [discriminate|].
    apply Qplus_le_r. apply Qmult_le_0_compat; [|discriminate].
    unfold Qle. simpl. lia. }
  assert (H2 : (1 <= 1 + bonus)%Q).
  { apply (Qle_trans _ (1 + 0)); [discriminate|]. apply Qplus_le_r. exact Hb. }
  apply (Qle_trans _ (1 * (1 + bonus))).
  - rewrite Qmult_1_l. exact H2.
  - apply Qmult_le_compat_r; [exact H1|].
    apply (Qle_trans _ 1); [discriminate | exact H2].
Qed.

(** X3. With a prestige count and a streak bonus that are not negative,
    the multipliers never take XP away: the XP gained is at least the raw
    award (for an award that is not negative), and a larger award never
    gains less. *)
Theorem addXP_gain_bounds (s : Skill.t) (xp xp' : Z) (bonus : Q) :
  0 <= Skill.prestige s -> (0 <= bonus)%Q -> 0 <= xp -> xp <= xp' ->
  xp <= Skill.xpGained (fst (Skill.addXP s xp bonus)) /\
  Skill.xpGained (fst (Skill.addXP s xp bonus))
    <= Skill.xpGained (fst (Skill.addXP s xp' bonus)).
Proof.
  intros Hp Hb Hxp Hle. rewrite !addXP_xpGained.
  pose proof (multiplier_at_least_one s bonus Hp Hb) as Hm.
  set (mult := (Skill.getPrestigeMultiplier s * (1 + bonus))%Q) in *.
  split.
  - rewrite <- (Qfloor_Z xp) at 1. apply Qfloor_resp_le.
    apply (Qle_trans _ (inject_Z xp * 1)).
    + rewrite Qmult_1_r. apply Qle_refl.
    + rewrite (Qmult_comm (inject_Z xp) 1), (Qmult_comm (inject_Z xp) mult).
      apply Qmult_le_compat_r; [exact Hm|]. unfold Qle. simpl. lia.
  - apply Qfloor_resp_le. apply Qmult_le_compat_r.
    + unfold Qle. simpl. lia.
    + apply (Qle_trans _ 1); [discriminate | exact Hm].
Qed.

Lemma addXP_gain_bounds_witness :
  40 <= Skill.xpGained (fst (Skill.addXP seasonedLogic 40 0.15)) /\
  Skill.xpGained (fst (Skill.addXP seasonedLogic 40 0.15))
    <= Skill.xpGained (fst (Skill.addXP seasonedLogic 55 0.15)).
Proof.
  apply (addXP_gain_bounds seasonedLogic 40 55 0.15%Q).
  - simpl. lia.
  - discriminate.
  - lia.
  - lia.
Defined.

Lemma find_LEVEL_TIERS (s : Skill.t) :
  1 <= Skill.level s <= 100 ->
  exists key tier,
    List.find (fun entry => Skill.inTier s (snd entry)) Skill.LEVEL_TIERS
      = Some (key, tier) /\
    Skill.inTier s tier = true.
Proof.
  intros H. unfold Skill.LEVEL_TIERS. simpl.
  repeat (match goal with
          | |- context [if Skill.inTier s ?t then _ else _] =>
              destruct (Skill.inTier s t) eqn:?
          end; [eexists _, _; split; [reflexivity | assumption]|]).
  exfalso. unfold Skill.inTier in *. simpl in *.
  repeat match goal with
         | H : (_ && _) = false |- _ => apply andb_false_iff in H
         end.
  lia.
Qed.

(** X4. The ranges of [LEVEL_TIERS] cover the levels 1 to 100 without a
    gap and without overlap: such a level lies in the range of exactly one
    tier, and [getTier] names it; the name is "Master" exactly at level
    100. For a level outside 1..100 no range matches and [getTier] falls
    back to "Beginner". *)
Theorem getTier_ranges (s : Skill.t) :
  (1 <= Skill.level s <= 100 ->
   exists key tier,
     In (key, tier) Skill.LEVEL_TIERS /\
     Skill.inTier s tier = true /\
     Skill.getTier s = Skill.tier_name tier /\
     (forall key' tier', In (key', tier') Skill.LEVEL_TIERS ->
                         Skill.inTier s tier' = true -> (key', tier') = (key, tier)) /\
     (Skill.getTier s = "Master" <-> Skill.level s = 100)) /\
  (Skill.level s < 1 \/ 100 < Skill.level s ->
   (forall key tier, In (key, tier) Skill.LEVEL_TIERS -> Skill.inTier s tier = false) /\
   Skill.getTier s = "Beginner").
Proof.
  split.
  - intros Hrange. destruct (find_LEVEL_TIERS s Hrange) as (key & tier & Hfind & Hin).
    exists key, tier. pose proof (find_some _ _ Hfind) as [Hmem _].
    split; [exact Hmem|]. split; [exact Hin|].
    split; [unfold Skill.getTier; rewrite Hfind; reflexivity|].
    split.
    + intros key' tier' Hmem' Hin'. unfold Skill.LEVEL_TIERS in Hmem, Hmem'.
      simpl in Hmem, Hmem'. unfold Skill.inTier in Hin, Hin'.
      apply andb_true_iff in Hin as [Ha Hb]. apply andb_true_iff in Hin' as [Ha' Hb'].
      repeat (destruct Hmem as [[= <- <-]|Hmem]; [|]); try contradiction;
        repeat (destruct Hmem' as [[= <- <-]|Hmem']; [|]); try contradiction;
        simpl in *; try reflexivity; lia.
    + unfold Skill.getTier. rewrite Hfind. simpl.
      unfold Skill.LEVEL_TIERS in Hmem. simpl in Hmem. unfold Skill.inTier in Hin.
      apply andb_true_iff in Hin as [Ha Hb].
      repeat (destruct Hmem as [[= <- <-]|Hmem]; [|]); try contradiction;
        simpl in *; split; intros E; try discriminate E; try reflexivity; lia.
  - intros Hout.
    assert (Hnone : forall key tier, In (key, tier) Skill.LEVEL_TIERS ->
                                     Skill.inTier s tier = false).
    { intros key tier Hmem. unfold Skill.LEVEL_TIERS in Hmem. simpl in Hmem.
      unfold Skill.inTier.
      repeat (destruct Hmem as [[= <- <-]|Hmem]; [|]); try contradiction;
        simpl; apply andb_false_iff; lia. }
    split; [exact Hnone|]. unfold Skill.getTier.
    destruct (find _ Skill.LEVEL_TIERS) as [[key tier]|] eqn:Hfind; [|reflexivity].
    apply find_some in Hfind as [Hmem Hin]. simpl in Hin.
    rewrite (Hnone _ _ Hmem) in Hin. discriminate.
Qed.

Lemma getTier_ranges_witness :
  (Skill.getTier masterLogic = "Master" <-> Skill.level masterLogic = 100) /\
  Skill.getTier (Skill.mk None None None 101 0 0 0) = "Beginner".
Proof.
  split.
  - destruct (proj1 (getTier_ranges masterLogic)) as (key & tier & _ & _ & _ & _ & H).
    + simpl. lia.
    + exact H.
  - apply (proj2 (getTier_ranges (Skill.mk None None None 101 0 0 0))).
    right. simpl. lia.
Defined.

(** ** User *)

(** X5. [getStreakTierName] and [getStreakBonus] walk the table in
    opposite directions and agree: the name is null exactly below 5 days,
    where the bonus is 0, and otherwise it is the name of the tier of the
    table whose bonus [getStreakBonus] returns, the highest one reached. *)
Theorem getStreakTierName_matches_bonus (u : User.t) :
  match User.getStreakTierName u with
  | None => User.current (User.streak u) < 5 /\ User.getStreakBonus u = 0%Q
  | Some tierName =>
      exists tier,
        In tier User.STREAK_BONUSES /\ User.name tier = tierName /\
        User.days tier <= User.current (User.streak u) /\
        User.bonus tier = User.getStreakBonus u /\
        highestTierReached User.STREAK_BONUSES (User.current (User.streak u))
          = Some tier
  end.
Proof.
  unfold User.getStreakTierName, User.getStreakBonus, highestTierReached.
  generalize (User.current (User.streak u)) as c. intros c. simpl.
  repeat (match goal with
          | |- context [Z.leb ?a c] => destruct (Z.leb_spec a c)
          end; simpl);
    try lia;
    try (split; [lia | reflexivity]);
    (eexists; split; [|split; [|split; [|split; [|reflexivity]]]];
     [simpl; tauto | reflexivity | simpl; lia | reflexivity]).
Qed.

(** X6. [unlockAchievement] adds an id once: afterwards the id is in the
    list, the call reports true exactly when the id was not there, a
    second call reports false and changes nothing, ids that were there
    stay, and a list without duplicates stays without duplicates. *)
Theorem unlockAchievement_once (u : User.t) (id : string) :
  id ∈ User.achievements (User.stats (snd (User.unlockAchievement u id))) /\
  (fst (User.unlockAchievement u id) = true <-> id ∉ User.achievements (User.stats u)) /\
  User.unlockAchievement (snd (User.unlockAchievement u id)) id
    = (false, snd (User.unlockAchievement u id)) /\
  (forall id', id' ∈ User.achievements (User.stats u) ->
               id' ∈ User.achievements (User.stats (snd (User.unlockAchievement u id)))) /\
  (NoDup (User.achievements (User.stats u)) ->
   NoDup (User.achievements (User.stats (snd (User.unlockAchievement u id))))).
Proof.
  unfold User.unlockAchievement.
  destruct (bool_decide (id ∈ User.achievements (User.stats u))) eqn:Hin.
  - apply bool_decide_eq_true in Hin. simpl. rewrite bool_decide_eq_true_2 by exact Hin.
    repeat split; auto; try discriminate; try (intros Hout; contradiction).
  - apply bool_decide_eq_false in Hin. simpl.
    assert (Hnow : id ∈ User.achievements (User.stats u) ++ [id]).
    { apply elem_of_app. right. apply list_elem_of_here. }
    rewrite bool_decide_eq_true_2 by exact Hnow.
    repeat split; auto.
    + intros id' Hid'. apply elem_of_app. left. exact Hid'.
    + intros Hnd. apply NoDup_app. repeat split.
      * exact Hnd.
      * intros x Hx Hx'. apply list_elem_of_singleton in Hx'. subst. contradiction.
      * apply NoDup_singleton.
Qed.

Lemma unlockAchievement_once_witness :
  NoDup (User.achievements
           (User.stats (snd (User.unlockAchievement
                               (snd (User.unlockAchievement hunter "first-task"))
                               "first-task")))).
Proof.
  apply (proj2 (proj2 (proj2 (proj2
           (unlockAchievement_once (snd (User.unlockAchievement hunter "first-task"))
              "first-task"))))).
  apply (proj2 (proj2 (proj2 (proj2 (unlockAchievement_once hunter "first-task"))))).
  simpl. apply NoDup_nil_2.
Defined.

Lemma updateStreak_sound (now : Date) (u : User.t) :
  streakSound (User.streak u) ->
  streakSound (User.streak (snd (User.updateStreak now u))).
Proof.
  intros [[H0 Hle] Hlast]. unfold streakSound, User.updateStreak.
  cbn [snd User.streak User.current User.longest User.lastCompleted].
  destruct (User.lastCompleted (User.streak u)) as [d|]; cbn [option_map].
  - assert (H1 : 1 <= User.current (User.streak u)) by (apply Hlast; discriminate).
    destruct (toDateString d =? toDateString now);
      [|destruct (toDateString d =? toDateString (previousDay now))];
      match goal with
      | |- context [Z.ltb ?a ?b] => destruct (Z.ltb_spec a b)
      end; repeat split; intros; lia.
  - destruct (Z.ltb_spec (User.longest (User.streak u)) 1); repeat split; intros; lia.
Qed.

Lemma apply_streak (now : Date) (o : User.op) (u : User.t) :
  User.streak (User.apply now o u) = User.streak u \/
  User.streak (User.apply now o u) = User.streak (snd (User.updateStreak now u)).
Proof.
  destruct o; simpl.
  - left. apply addSkillXP_fields.
  - left. apply addRoutineRewards_fields.
  - left. reflexivity.
  - right. reflexivity.
  - right. reflexivity.
  - left. unfold User.unlockAchievement. destruct (bool_decide _); reflexivity.
  - left. unfold User.prestigeSkill.
    destruct (User.skills u !! skillType); [|reflexivity].
    destruct (Skill.prestige_method _) as [[r sk]|]; reflexivity.
Qed.

(** X7. Every user reached from a new user by operations of the class
    has a sound streak: [0 <= current <= longest], and [current >= 1] once
    a completion date is recorded. More generally the operations keep a
    sound streak sound. *)
Theorem streak_stays_sound :
  (forall (history : list (Date * User.op)) (u : User.t),
     streakSound (User.streak u) ->
     streakSound (User.streak (User.run history u))) /\
  (forall (now : Date) (username : string) (history : list (Date * User.op)),
     streakSound (User.streak (User.run history (User.constructor now username)))).
Proof.
  assert (Hrun : forall (history : list (Date * User.op)) (u : User.t),
            streakSound (User.streak u) ->
            streakSound (User.streak (User.run history u))).
  { induction history as [|[now o] rest IH]; intros u Hs; [exact Hs|].
    change (User.run ((now, o) :: rest) u) with (User.run rest (User.apply now o u)).
    apply IH. destruct (apply_streak now o u) as [-> | ->];
      [exact Hs | apply updateStreak_sound; exact Hs]. }
  split; [exact Hrun|].
  intros now username history. apply Hrun. unfold streakSound. simpl.
  split; [lia|]. intros H. contradiction.
Qed.

Lemma streak_stays_sound_witness :
  streakSound (User.streak (User.run busyDays streakUser)).
Proof.
  apply (proj1 streak_stays_sound busyDays streakUser).
  unfold streakSound. simpl. split; [lia|]. intros _. lia.
Defined.

Lemma completeRoutine_streak (now : Date) (u : User.t) :
  User.streak (User.completeRoutine now u) = User.streak (snd (User.updateStreak now u)) /\
  User.totalRoutinesCompleted (User.stats (User.completeRoutine now u))
    = User.totalRoutinesCompleted (User.stats u) + 1.
Proof. split; reflexivity. Qed.

Lemma updateStreak_next_day (now : Date) (u : User.t) (last : Date) :
  User.lastCompleted (User.streak u) = Some last ->
  toDateString now = toDateString last + 1 ->
  User.current (User.streak (snd (User.updateStreak now u)))
    = User.current (User.streak u) + 1 /\
  User.lastCompleted (User.streak (snd (User.updateStreak now u))) = Some now /\
  User.longest (User.streak (snd (User.updateStreak now u)))
    = Z.max (User.longest (User.streak u)) (User.current (User.streak u) + 1).
Proof.
  intros Hlast Hday. unfold User.updateStreak, toDateString, previousDay in *.
  rewrite Hlast. simpl.
  destruct (Z.eqb_spec (dayNumber last) (dayNumber now)); [lia|].
  destruct (Z.eqb_spec (dayNumber last) (dayNumber now - 1)); [|lia].
  repeat split.
  destruct (Z.ltb_spec (User.longest (User.streak u)) (User.current (User.streak u) + 1));
    lia.
Qed.

Lemma updateStreak_same_day (now : Date) (u : User.t) (last : Date) :
  User.lastCompleted (User.streak u) = Some last ->
  toDateString now = toDateString last ->
  User.current (User.streak u) <= User.longest (User.streak u) ->
  User.current (User.streak (snd (User.updateStreak now u)))
    = User.current (User.streak u) /\
  User.lastCompleted (User.streak (snd (User.updateStreak now u))) = Some now /\
  User.longest (User.streak (snd (User.updateStreak now u)))
    = User.longest (User.streak u).
Proof.
  intros Hlast Hday Hle. unfold User.updateStreak, toDateString in *.
  rewrite Hlast. simpl.
  destruct (Z.eqb_spec (dayNumber last) (dayNumber now)); [|lia].
  repeat split.
  destruct (Z.ltb_spec (User.longest (User.streak u)) (User.current (User.streak u)));
    lia.
Qed.

Lemma routines_on_following_days (dates : list Date) :
  forall (u : User.t) (last : Date),
    User.lastCompleted (User.streak u) = Some last ->
    User.current (User.streak u) <= User.longest (User.streak u) ->
    onConsecutiveDays (toDateString last + 1) dates ->
    User.current (User.streak (User.run (routinesAt dates) u))
      = User.current (User.streak u) + Z.of_nat (length dates) /\
    User.totalRoutinesCompleted (User.stats (User.run (routinesAt dates) u))
      = User.totalRoutinesCompleted (User.stats u) + Z.of_nat (length dates) /\
    User.longest (User.streak (User.run (routinesAt dates) u))
      = Z.max (User.longest (User.streak u))
              (User.current (User.streak u) + Z.of_nat (length dates)).
Proof.
  induction dates as [|d rest IH]; intros u last Hlast Hsound Hdays.
  - simpl. repeat split; lia.
  - destruct Hdays as [Hd Hrest].
    change (User.run (routinesAt (d :: rest)) u)
      with (User.run (routinesAt rest) (User.completeRoutine d u)).
    destruct (updateStreak_next_day d u last Hlast Hd) as (Hnext & Hstamp & Hlong).
    destruct (completeRoutine_streak d u) as [Hs Hcount].
    destruct (IH (User.completeRoutine d u) d) as (Hc & Hr & Hl).
    { rewrite Hs. exact Hstamp. }
    { rewrite Hs, Hnext, Hlong. lia. }
    { rewrite Hd. exact Hrest. }
    rewrite Hs in Hc, Hl. rewrite Hcount in Hr. rewrite Hnext in Hc, Hl.
    rewrite Hlong in Hl. rewrite Hc, Hr. simpl length. repeat split; lia.
Qed.

Lemma updateStreak_first (now : Date) (u : User.t) :
  User.lastCompleted (User.streak u) = None ->
  User.current (User.streak (snd (User.updateStreak now u))) = 1 /\
  User.lastCompleted (User.streak (snd (User.updateStreak now u))) = Some now /\
  User.longest (User.streak (snd (User.updateStreak now u)))
    = Z.max (User.longest (User.streak u)) 1.
Proof.
  intros Hlast. unfold User.updateStreak. rewrite Hlast.
  cbn [snd User.streak User.current User.longest User.lastCompleted option_map].
  repeat split. destruct (Z.ltb_spec (User.longest (User.streak u)) 1); lia.
Qed.

(** X8. Routines completed on consecutive calendar days add one to the
    streak per day: continuing from a last completion on the day before,
    [n] days raise [current] by [n]; starting with no completion recorded,
    [n] days give a streak of [n]. Each completion is counted in
    [totalRoutinesCompleted], and [longest] ends as the larger of the old
    [longest] and the new [current]. *)
Theorem streak_counts_consecutive_days :
  (forall (u : User.t) (last : Date) (dates : list Date),
     User.lastCompleted (User.streak u) = Some last ->
     User.current (User.streak u) <= User.longest (User.streak u) ->
     onConsecutiveDays (toDateString last + 1) dates ->
     User.current (User.streak (User.run (routinesAt dates) u))
       = User.current (User.streak u) + Z.of_nat (length dates) /\
     User.totalRoutinesCompleted (User.stats (User.run (routinesAt dates) u))
       = User.totalRoutinesCompleted (User.stats u) + Z.of_nat (length dates) /\
     User.longest (User.streak (User.run (routinesAt dates) u))
       = Z.max (User.longest (User.streak u))
               (User.current (User.streak u) + Z.of_nat (length dates))) /\
  (forall (u : User.t) (first : Date) (rest : list Date),
     User.lastCompleted (User.streak u) = None ->
     onConsecutiveDays (toDateString first + 1) rest ->
     User.current (User.streak (User.run (routinesAt (first :: rest)) u))
       = Z.of_nat (length (first :: rest)) /\
     User.totalRoutinesCompleted (User.stats (User.run (routinesAt (first :: rest)) u))
       = User.totalRoutinesCompleted (User.stats u) + Z.of_nat (length (first :: rest)) /\
     User.longest (User.streak (User.run (routinesAt (first :: rest)) u))
       = Z.max (User.longest (User.streak u)) (Z.of_nat (length (first :: rest)))).
Proof.
  split.
  - intros u last dates. apply routines_on_following_days.
  - intros u first rest Hnone Hdays.
    change (User.run (routinesAt (first :: rest)) u)
      with (User.run (routinesAt rest) (User.completeRoutine first u)).
    destruct (updateStreak_first first u Hnone) as (Hone & Hstamp & Hlong).
    destruct (completeRoutine_streak first u) as [Hs Hcount].
    destruct (routines_on_following_days rest (User.completeRoutine first u) first)
      as (Hc & Hr & Hl).
    { rewrite Hs. exact Hstamp. }
    { rewrite Hs, Hone, Hlong. lia. }
    { exact Hdays. }
    rewrite Hs in Hc, Hl. rewrite Hone in Hc, Hl. rewrite Hlong in Hl.
    rewrite Hcount in Hr. rewrite Hc, Hr, Hl. simpl length. repeat split; lia.
Qed.

Lemma streak_counts_consecutive_days_witness :
  User.current
    (User.streak (User.run (routinesAt [noon 11; mkDate 12 100; mkDate 13 86399999])
                    streakUser)) = 5 + 3 /\
  User.current
    (User.streak (User.run (routinesAt [noon 4; mkDate 5 100]) hunter)) = 2.
Proof.
  split.
  - apply (proj1 streak_counts_consecutive_days streakUser (noon 10)
             [noon 11; mkDate 12 100; mkDate 13 86399999]).
    + reflexivity.
    + simpl. lia.
    + simpl. repeat split.
  - apply (proj2 streak_counts_consecutive_days hunter (noon 4) [mkDate 5 100]).
    + reflexivity.
    + simpl. repeat split.
Defined.

Lemma routines_on_same_day (dates : list Date) :
  forall (u : User.t) (last : Date),
    User.lastCompleted (User.streak u) = Some last ->
    User.current (User.streak u) <= User.longest (User.streak u) ->
    Forall (fun d => toDateString d = toDateString last) dates ->
    User.current (User.streak (User.run (routinesAt dates) u))
      = User.current (User.streak u) /\
    User.longest (User.streak (User.run (routinesAt dates) u))
      = User.longest (User.streak u) /\
    User.totalRoutinesCompleted (User.stats (User.run (routinesAt dates) u))
      = User.totalRoutinesCompleted (User.stats u) + Z.of_nat (length dates).
Proof.
  induction dates as [|d rest IH]; intros u last Hlast Hsound Hall.
  - simpl. repeat split; lia.
  - apply Forall_cons in Hall as [Hd Hrest].
    change (User.run (routinesAt (d :: rest)) u)
      with (User.run (routinesAt rest) (User.completeRoutine d u)).
    destruct (updateStreak_same_day d u last Hlast Hd Hsound) as (Hcur & Hstamp & Hlong).
    destruct (completeRoutine_streak d u) as [Hs Hcount].
    destruct (IH (User.completeRoutine d u) d) as (Hc & Hl & Hr).
    { rewrite Hs. exact Hstamp. }
    { rewrite Hs, Hcur, Hlong. exact Hsound. }
    { eapply Forall_impl; [exact Hrest|]. simpl. intros x Hx. congruence. }
    rewrite Hs in Hc, Hl. rewrite Hcur in Hc. rewrite Hlong in Hl.
    rewrite Hcount in Hr. rewrite Hc, Hl, Hr. simpl length. repeat split; lia.
Qed.

(** X9. Routines completed on the day of the last completion do not move
    the streak: however many there are, [current] and [longest] stay as
    they were, while [totalRoutinesCompleted] counts each of them. *)
Theorem streak_ignores_same_day_routines (u : User.t) (last : Date)
    (dates : list Date) :
  User.lastCompleted (User.streak u) = Some last ->
  User.current (User.streak u) <= User.longest (User.streak u) ->
  Forall (fun d => toDateString d = toDateString last) dates ->
  User.current (User.streak (User.run (routinesAt dates) u))
    = User.current (User.streak u) /\
  User.longest (User.streak (User.run (routinesAt dates) u))
    = User.longest (User.streak u) /\
  User.totalRoutinesCompleted (User.stats (User.run (routinesAt dates) u))
    = User.totalRoutinesCompleted (User.stats u) + Z.of_nat (length dates).
Proof. apply routines_on_same_day. Qed.

Lemma streak_ignores_same_day_routines_witness :
  User.current
    (User.streak (User.run (routinesAt [mkDate 10 50000000; mkDate 10 60000000])
                    streakUser)) = 5 /\
  User.longest
    (User.streak (User.run (routinesAt [mkDate 10 50000000; mkDate 10 60000000])
                    streakUser)) = 5 /\
  User.totalRoutinesCompleted
    (User.stats (User.run (routinesAt [mkDate 10 50000000; mkDate 10 60000000])
                   streakUser)) = 0 + 2.
Proof.
  apply (streak_ignores_same_day_routines streakUser (noon 10)
           [mkDate 10 50000000; mkDate 10 60000000]).
  - reflexivity.
  - simpl. lia.
  - repeat constructor.
Defined.

Lemma addSkillXP_result (now : Date) (u : User.t) (k : string) (xp : Z) :
  match User.skills u !! k with
  | Some sk =>
      exists r, fst (User.addSkillXP now u k xp) = Some r /\
                User.skill r = k /\ User.streakBonus r = User.getStreakBonus u
  | None => User.addSkillXP now u k xp = (None, u)
  end.
Proof.
  unfold User.addSkillXP. destruct (User.skills u !! k) as [sk|]; [|reflexivity].
  destruct (Skill.addXP sk xp (User.getStreakBonus u)) as [r sk'].
  eexists. simpl. repeat split.
Qed.

Lemma addSkillXP_keys (now : Date) (u : User.t) (k k' : string) (xp : Z) :
  is_Some (User.skills (snd (User.addSkillXP now u k xp)) !! k')
  <-> is_Some (User.skills u !! k').
Proof.
  destruct (addSkillXP_fields now u k xp) as (_ & _ & _ & _ & -> & _).
  destruct (User.skills u !! k) as [sk|] eqn:Hk; [|reflexivity].
  rewrite lookup_insert_is_Some. split.
  - intros [<- | [_ H]]; [rewrite Hk; eauto | exact H].
  - intros H. destruct (decide (k = k')) as [E|E]; [left | right]; auto.
Qed.

Lemma hasSkill_addSkillXP (now : Date) (u : User.t) (k k' : string) (xp : Z) :
  hasSkill (snd (User.addSkillXP now u k xp)) k' = hasSkill u k'.
Proof.
  pose proof (addSkillXP_keys now u k k' xp) as H. unfold hasSkill.
  destruct (User.skills (snd (User.addSkillXP now u k xp)) !! k') as [a|],
           (User.skills u !! k') as [b|]; try reflexivity.
  - destruct (proj1 H (mk_is_Some _ _ eq_refl)) as [x Hx]. discriminate.
  - destruct (proj2 H (mk_is_Some _ _ eq_refl)) as [x Hx]. discriminate.
Qed.

(** X10. For rewards whose categories are not names inherited from
    [Object.prototype], [addRoutineRewards] reports one result per
    rewarded category the user has, in the order of the rewards and each
    with the user's streak bonus; a category the user lacks is passed
    over. No skill is added or removed, skills that are not rewarded are
    untouched, and when the user has none of the categories nothing at
    all changes. *)
Theorem addRoutineRewards_results (now : Date) (rewards : list (string * Z)) :
  plainKeys rewards ->
  forall u : User.t,
    map User.skill (fst (User.addRoutineRewards now u rewards))
      = List.filter (hasSkill u) rewards.*1 /\
    Forall (fun r => User.streakBonus r = User.getStreakBonus u)
           (fst (User.addRoutineRewards now u rewards)) /\
    (forall k, hasSkill (snd (User.addRoutineRewards now u rewards)) k = hasSkill u k) /\
    (forall k, k ∉ rewards.*1 ->
               User.skills (snd (User.addRoutineRewards now u rewards)) !! k
                 = User.skills u !! k) /\
    (List.filter (hasSkill u) rewards.*1 = [] ->
     User.addRoutineRewards now u rewards = ([], u)).
Proof.
  intros _. induction rewards as [|[k x] rest IH]; intros u.
  - unfold User.addRoutineRewards. simpl. repeat split; auto.
  - rewrite addRoutineRewards_cons. simpl fst. simpl snd.
    destruct (IH (snd (User.addSkillXP now u k x))) as (Hmap & Hbonus & Hkeys & Hother & Hnone).
    pose proof (addSkillXP_result now u k x) as Hres.
    pose proof (addSkillXP_fields now u k x) as (Hstreak & _ & _ & _ & Hskills & _).
    assert (Hfilter : List.filter (hasSkill (snd (User.addSkillXP now u k x))) rest.*1
                      = List.filter (hasSkill u) rest.*1).
    { apply filter_ext. intros k'. apply hasSkill_addSkillXP. }
    rewrite fmap_cons. simpl List.filter.
    destruct (User.skills u !! k) as [sk|] eqn:Hk.
    + assert (Hhas : hasSkill u k = true) by (unfold hasSkill; rewrite Hk; reflexivity).
      rewrite Hhas.
      destruct Hres as (r & Hr & Hskill & Hb). rewrite Hr.
      split; [simpl; rewrite Hmap, Hfilter, Hskill; reflexivity|].
      split.
      { constructor; [exact Hb|]. eapply Forall_impl; [exact Hbonus|].
        simpl. intros r' Hr'. rewrite Hr'. apply getStreakBonus_streak. exact Hstreak. }
      split; [intros k'; rewrite Hkeys; apply hasSkill_addSkillXP|].
      split; [|discriminate].
      intros k' Hk'. apply not_elem_of_cons in Hk' as [Hne Hk'].
      simpl in Hne. rewrite (Hother k' Hk'), Hskills. apply lookup_insert_ne.
      congruence.
    + assert (Hhas : hasSkill u k = false) by (unfold hasSkill; rewrite Hk; reflexivity).
      rewrite Hhas. rewrite Hres in *. simpl in *.
      split; [rewrite Hmap; reflexivity|].
      split; [exact Hbonus|]. split; [exact Hkeys|].
      split.
      * intros k' Hk'. apply not_elem_of_cons in Hk' as [_ Hk']. exact (Hother k' Hk').
      * intros Hempty. rewrite (Hnone Hempty). reflexivity.
Qed.

Lemma addRoutineRewards_results_witness :
  User.addRoutineRewards (noon 2) hunter [("charisma", 40); ("luck", 5)] = ([], hunter) /\
  User.skills (snd (User.addRoutineRewards (noon 2) hunter [("logic", 40)])) !! "coding"
    = User.skills hunter !! "coding".
Proof.
  split.
  - apply (proj2 (proj2 (proj2 (proj2
             (addRoutineRewards_results (noon 2) [("charisma", 40); ("luck", 5)]
                ltac:(apply (bool_decide_unpack _); vm_compute; exact I) hunter))))).
    vm_compute. reflexivity.
  - apply (proj1 (proj2 (proj2 (proj2
             (addRoutineRewards_results (noon 2) [("logic", 40)]
                ltac:(apply (bool_decide_unpack _); vm_compute; exact I) hunter))))).
    simpl. rewrite list_elem_of_singleton. discriminate.
Defined.






Lemma fold_left_levels (l : list Skill.t) :
  forall a : Z, fold_left (fun sum sk => sum + Skill.level sk) l a = a + sumLevels l.
Proof.
  induction l as [|sk l IH]; intros a; simpl; [lia|]. rewrite IH. lia.
Qed.

Lemma sumLevels_perm (l l' : list Skill.t) : l ≡ₚ l' -> sumLevels l = sumLevels l'.
Proof.
  induction 1; simpl; lia.
Qed.

Lemma getTotalLevel_insert (u u' : User.t) (k : string) (sk sk' : Skill.t) :
  User.skills u !! k = Some sk ->
  User.skills u' = <[k := sk']> (User.skills u) ->
  User.getTotalLevel u' = User.getTotalLevel u + (Skill.level sk' - Skill.level sk).
Proof.
  intros Hk Hins. unfold User.getTotalLevel, User.skillValues.
  rewrite !fold_left_levels, Hins.
  rewrite <- (insert_delete_id (User.skills u) k sk Hk) at 2.
  rewrite <- (insert_delete_eq (User.skills u) k sk').
  rewrite (sumLevels_perm _ _
             (fmap_Permutation snd _ _
                (map_to_list_insert (delete k (User.skills u)) k sk'
                   (lookup_delete_eq _ _)))).
  rewrite (sumLevels_perm _ _
             (fmap_Permutation snd _ _
                (map_to_list_insert (delete k (User.skills u)) k sk
                   (lookup_delete_eq _ _)))).
  simpl. lia.
Qed.

(** X12. [getTotalLevel] follows the levels: a new user has a total of 6;
    [addSkillXP] on a skill the user has raises the total by exactly the
    levels that skill gained, and on an unknown type leaves it; the
    rewards of a routine never lower it. *)
Theorem getTotalLevel_follows_levels :
  (forall (now : Date) (username : string),
     User.getTotalLevel (User.constructor now username) = 6) /\
  (forall (now : Date) (u : User.t) (k : string) (xp : Z) (sk : Skill.t),
     User.skills u !! k = Some sk ->
     User.getTotalLevel (snd (User.addSkillXP now u k xp))
       = User.getTotalLevel u
         + (Skill.level (snd (Skill.addXP sk xp (User.getStreakBonus u)))
            - Skill.level sk)) /\
  (forall (now : Date) (u : User.t) (k : string) (xp : Z),
     User.skills u !! k = None ->
     User.getTotalLevel (snd (User.addSkillXP now u k xp)) = User.getTotalLevel u) /\
  (forall (now : Date) (rewards : list (string * Z)) (u : User.t),
     User.getTotalLevel u
       <= User.getTotalLevel (snd (User.addRoutineRewards now u rewards))).
Proof.
  assert (Hstep : forall now u k xp,
            User.getTotalLevel u <= User.getTotalLevel (snd (User.addSkillXP now u k xp))).
  { intros now u k xp.
    destruct (addSkillXP_fields now u k xp) as (_ & _ & _ & _ & Hs & _).
    destruct (User.skills u !! k) as [sk|] eqn:Hk.
    - rewrite (getTotalLevel_insert u _ k sk _ Hk Hs).
      pose proof (addXP_level_mono sk xp (User.getStreakBonus u)). lia.
    - unfold User.getTotalLevel, User.skillValues. rewrite Hs. lia. }
  split; [intros; vm_compute; reflexivity|]. split; [|split].
  - intros now u k xp sk Hk.
    destruct (addSkillXP_fields now u k xp) as (_ & _ & _ & _ & Hs & _).
    rewrite Hk in Hs. apply (getTotalLevel_insert u _ k sk _ Hk Hs).
  - intros now u k xp Hk.
    destruct (addSkillXP_fields now u k xp) as (_ & _ & _ & _ & Hs & _).
    rewrite Hk in Hs. unfold User.getTotalLevel, User.skillValues. rewrite Hs.
    reflexivity.
  - intros now rewards. induction rewards as [|[k x] rest IH]; intros u.
    + unfold User.addRoutineRewards. simpl. lia.
    + rewrite addRoutineRewards_cons. simpl snd.
      specialize (IH (snd (User.addSkillXP now u k x))).
      specialize (Hstep now u k x). lia.
Qed.

Lemma getTotalLevel_follows_levels_witness :
  User.getTotalLevel (snd (User.addSkillXP (noon 2) hunter "logic" 1000))
    = User.getTotalLevel hunter
      + (Skill.level (snd (Skill.addXP freshLogic 1000 (User.getStreakBonus hunter)))
         - Skill.level freshLogic) /\
  User.getTotalLevel (snd (User.addSkillXP (noon 2) hunter "luck" 1000))
    = User.getTotalLevel hunter.
Proof.
  split.
  - apply (proj1 (proj2 getTotalLevel_follows_levels) (noon 2) hunter "logic" 1000
             freshLogic).
    vm_compute. reflexivity.
  - apply (proj1 (proj2 (proj2 getTotalLevel_follows_levels)) (noon 2) hunter "luck" 1000).
    vm_compute. reflexivity.
Defined.

(** ** RoutineSession *)

(** X13. [completeItem] is idempotent: a second call for the same item,
    at any time and with any rewards, leaves the session exactly as the
    first call left it. After the call the item counts as completed, and
    for every other item [isItemCompleted] answers as before. *)
Theorem session_completeItem_idempotent (now1 now2 : Date) (s : RoutineSession.t)
    (itemId : string) (rewards1 rewards2 : option (list (string * Z))) :
  RoutineSession.completeItem now2
    (RoutineSession.completeItem now1 s itemId rewards1) itemId rewards2
    = RoutineSession.completeItem now1 s itemId rewards1 /\
  RoutineSession.isItemCompleted
    (RoutineSession.completeItem now1 s itemId rewards1) itemId = true /\
  (forall other, other <> itemId ->
     RoutineSession.isItemCompleted
       (RoutineSession.completeItem now1 s itemId rewards1) other
     = RoutineSession.isItemCompleted s other).
Proof.
  pose proof (session_completeItem_adds now1 s itemId rewards1) as Hin.
  split; [apply session_completeItem_again; exact Hin|].
  split; [apply bool_decide_eq_true_2; exact Hin|].
  intros other Hne. unfold RoutineSession.isItemCompleted.
  apply bool_decide_ext. unfold RoutineSession.completeItem.
  destruct (bool_decide (itemId ∈ RoutineSession.completedItems s)); [reflexivity|].
  unfold RoutineSession.start. destruct (RoutineSession.status s); simpl;
    rewrite elem_of_union, elem_of_singleton; tauto.
Qed.

Lemma rewardFor_absent (k : string) (rewards : list (string * Z)) :
  k ∉ rewards.*1 -> rewardFor k rewards = 0.
Proof.
  induction rewards as [|[k0 x0] rest IH]; intros Hk; [reflexivity|].
  rewrite fmap_cons in Hk. apply not_elem_of_cons in Hk as [Hne Hk].
  unfold rewardFor. cbn [fst snd fold_right]. fold (rewardFor k rest).
  destruct (String.eqb_spec k0 k) as [->|_]; [contradiction | auto].
Qed.

Lemma addRewards_lookup_sum (rewards : list (string * Z)) :
  forall (m : gmap string Z) (k : string),
    RoutineSession.addRewards rewards m !! k
    = if bool_decide (k ∈ rewards.*1)
      then Some (default 0 (m !! k) + rewardFor k rewards)
      else m !! k.
Proof.
  induction rewards as [|[k0 x0] rest IH]; intros m k.
  - reflexivity.
  - change (RoutineSession.addRewards ((k0, x0) :: rest) m)
      with (RoutineSession.addRewards rest (RoutineSession.addEntry m (k0, x0))).
    rewrite IH. unfold RoutineSession.addEntry. rewrite fmap_cons.
    unfold rewardFor. cbn [fst snd fold_right]. fold (rewardFor k rest).
    destruct (String.eqb_spec k0 k) as [->|Hne].
    + rewrite lookup_insert_eq. cbn [default].
      rewrite (bool_decide_eq_true_2 (k ∈ k :: rest.*1)) by apply list_elem_of_here.
      unfold id.
      destruct (bool_decide (k ∈ rest.*1)) eqn:Hin; [f_equal; lia|].
      apply bool_decide_eq_false in Hin. rewrite (rewardFor_absent _ _ Hin).
      f_equal. lia.
    + rewrite lookup_insert_ne by exact Hne.
      destruct (bool_decide (k ∈ rest.*1)) eqn:Hin.
      * apply bool_decide_eq_true in Hin.
        rewrite bool_decide_eq_true_2; [reflexivity|].
        apply list_elem_of_further. exact Hin.
      * apply bool_decide_eq_false in Hin.
        rewrite bool_decide_eq_false_2; [reflexivity|].
        intros H. apply elem_of_cons in H as [H|H]; [congruence | contradiction].
Qed.

Lemma addRewards_comm (r1 r2 : list (string * Z)) (m : gmap string Z) :
  RoutineSession.addRewards r1 (RoutineSession.addRewards r2 m)
  = RoutineSession.addRewards r2 (RoutineSession.addRewards r1 m).
Proof.
  apply map_eq. intros k. rewrite !addRewards_lookup_sum.
  destruct (bool_decide (k ∈ r1.*1)), (bool_decide (k ∈ r2.*1)); simpl;
    try reflexivity; f_equal; lia.
Qed.

Lemma session_completeItem_fields (now : Date) (s : RoutineSession.t)
    (itemId : string) (rewards : option (list (string * Z))) :
  RoutineSession.completedItems (RoutineSession.completeItem now s itemId rewards)
    = {[itemId]} ∪ RoutineSession.completedItems s /\
  RoutineSession.xpEarned (RoutineSession.completeItem now s itemId rewards)
    = (if bool_decide (itemId ∈ RoutineSession.completedItems s)
       then RoutineSession.xpEarned s
       else ledgerAfter rewards (RoutineSession.xpEarned s)) /\
  RoutineSession.status (RoutineSession.completeItem now s itemId rewards)
    = (if bool_decide (itemId ∈ RoutineSession.completedItems s)
       then RoutineSession.status s
       else match RoutineSession.status s with
            | RoutineSession.not_started => RoutineSession.in_progress
            | st => st
            end).
Proof.
  unfold RoutineSession.completeItem.
  destruct (bool_decide (itemId ∈ RoutineSession.completedItems s)) eqn:Hin.
  - apply bool_decide_eq_true in Hin. repeat split.
    apply set_eq. intros x. rewrite elem_of_union, elem_of_singleton.
    split; [auto | intros [->|H]; auto].
  - unfold RoutineSession.start, ledgerAfter.
    destruct (RoutineSession.status s); repeat split.
Qed.

Lemma ledgerAfter_comm (r1 r2 : option (list (string * Z))) (m : gmap string Z) :
  ledgerAfter r1 (ledgerAfter r2 m) = ledgerAfter r2 (ledgerAfter r1 m).
Proof.
  destruct r1, r2; simpl; try reflexivity. apply addRewards_comm.
Qed.

Lemma bool_decide_other_item (i j : string) (items : gset string) :
  i <> j -> bool_decide (j ∈ {[i]} ∪ items) = bool_decide (j ∈ items).
Proof.
  intros Hne. apply bool_decide_ext. rewrite elem_of_union, elem_of_singleton.
  split; [intros [E|H]; [congruence | exact H] | auto].
Qed.

(** X14. Two different items whose reward categories are not names
    inherited from [Object.prototype] can be completed in either order:
    the set of completed items, the XP ledger and the status come out the
    same (only the time stamp of the start can differ), and so does
    [isComplete] for every routine. *)
Theorem session_completeItem_order (now1 now2 now3 now4 : Date)
    (s : RoutineSession.t) (i j : string) (ri rj : option (list (string * Z))) :
  i <> j ->
  plainKeys (default [] ri) -> plainKeys (default [] rj) ->
  RoutineSession.completedItems
    (RoutineSession.completeItem now2 (RoutineSession.completeItem now1 s i ri) j rj)
  = RoutineSession.completedItems
      (RoutineSession.completeItem now4 (RoutineSession.completeItem now3 s j rj) i ri) /\
  RoutineSession.xpEarned
    (RoutineSession.completeItem now2 (RoutineSession.completeItem now1 s i ri) j rj)
  = RoutineSession.xpEarned
      (RoutineSession.completeItem now4 (RoutineSession.completeItem now3 s j rj) i ri) /\
  RoutineSession.status
    (RoutineSession.completeItem now2 (RoutineSession.completeItem now1 s i ri) j rj)
  = RoutineSession.status
      (RoutineSession.completeItem now4 (RoutineSession.completeItem now3 s j rj) i ri) /\
  (forall routine,
     RoutineSession.isComplete
       (RoutineSession.completeItem now2 (RoutineSession.completeItem now1 s i ri) j rj)
       routine
     = RoutineSession.isComplete
         (RoutineSession.completeItem now4 (RoutineSession.completeItem now3 s j rj) i ri)
         routine).
Proof.
  intros Hne _ _.
  destruct (session_completeItem_fields now1 s i ri) as (Ci & Xi & Si).
  destruct (session_completeItem_fields now3 s j rj) as (Cj & Xj & Sj).
  destruct (session_completeItem_fields now2 (RoutineSession.completeItem now1 s i ri) j rj)
    as (Cij & Xij & Sij).
  destruct (session_completeItem_fields now4 (RoutineSession.completeItem now3 s j rj) i ri)
    as (Cji & Xji & Sji).
  assert (Hitems :
    RoutineSession.completedItems
      (RoutineSession.completeItem now2 (RoutineSession.completeItem now1 s i ri) j rj)
    = RoutineSession.completedItems
        (RoutineSession.completeItem now4 (RoutineSession.completeItem now3 s j rj) i ri)).
  { rewrite Cij, Cji, Ci, Cj. rewrite !assoc_L by apply _.
    rewrite (comm_L (∪) {[j]} {[i]}). reflexivity. }
  split; [exact Hitems|].
  rewrite Xij, Xji, Sij, Sji, Ci, Cj, Xi, Xj, Si, Sj.
  rewrite (bool_decide_other_item i j _ Hne).
  rewrite (bool_decide_other_item j i _ (not_eq_sym Hne)).
  split; [|split].
  - destruct (bool_decide (i ∈ RoutineSession.completedItems s)),
             (bool_decide (j ∈ RoutineSession.completedItems s)); try reflexivity.
    apply ledgerAfter_comm.
  - destruct (bool_decide (i ∈ RoutineSession.completedItems s)),
             (bool_decide (j ∈ RoutineSession.completedItems s)),
             (RoutineSession.status s); reflexivity.
  - intros routine. unfold RoutineSession.isComplete. rewrite Hitems. reflexivity.
Qed.

Lemma session_completeItem_order_witness :
  RoutineSession.xpEarned
    (RoutineSession.completeItem (noon 2)
       (RoutineSession.completeItem (noon 1) emptySession "stretch" stretchRewards)
       "puzzle" (Some [("logic", 150); ("physical", 5)]))
  = RoutineSession.xpEarned
      (RoutineSession.completeItem (noon 4)
         (RoutineSession.completeItem (noon 3) emptySession "puzzle"
            (Some [("logic", 150); ("physical", 5)]))
         "stretch" stretchRewards).
Proof.
  apply (session_completeItem_order (noon 1) (noon 2) (noon 3) (noon 4) emptySession
           "stretch" "puzzle" stretchRewards (Some [("logic", 150); ("physical", 5)])).
  - discriminate.
  - apply (bool_decide_unpack _). vm_compute. exact I.
  - apply (bool_decide_unpack _). vm_compute. exact I.
Defined.

Lemma session_apply_agree (now : Date) (o : RoutineSession.op) (s : RoutineSession.t) :
  stampsAgree s -> stampsAgree (RoutineSession.apply now o s).
Proof.
  intros (Hc & Hp & Hn). unfold stampsAgree.
  destruct o; simpl.
  - unfold RoutineSession.start.
    destruct (RoutineSession.status s) eqn:Hs; simpl; rewrite ?Hs;
      repeat split; try discriminate; try tauto.
    intros H. apply Hc in H. discriminate.
  - unfold RoutineSession.completeItem.
    destruct (bool_decide _); [rewrite ?Hs; tauto|].
    unfold RoutineSession.start.
    destruct (RoutineSession.status s) eqn:Hs; simpl; rewrite ?Hs;
      repeat split; try discriminate; try tauto.
    intros H. apply Hc in H. discriminate.
  - unfold RoutineSession.uncompleteItem. destruct (bool_decide _); simpl; tauto.
  - unfold RoutineSession.complete.
    destruct (RoutineSession.status s) eqn:Hs; simpl; rewrite ?Hs;
      repeat split; try discriminate; try tauto.
  - repeat split; try discriminate; try tauto.
Qed.

Lemma session_apply_forward (now : Date) (o : RoutineSession.op)
    (s : RoutineSession.t) :
  stampsAgree s -> RoutineSession.isReset o = false ->
  statusRank (RoutineSession.status s)
    <= statusRank (RoutineSession.status (RoutineSession.apply now o s)) /\
  (forall t, RoutineSession.startedAt s = Some t ->
             RoutineSession.startedAt (RoutineSession.apply now o s) = Some t) /\
  (forall t, RoutineSession.completedAt s = Some t ->
             RoutineSession.completedAt (RoutineSession.apply now o s) = Some t).
Proof.
  intros (Hc & Hp & Hn) Hop. destruct o; try discriminate; simpl.
  - unfold RoutineSession.start.
    destruct (RoutineSession.status s) eqn:Hs; simpl; rewrite ?Hs; simpl;
      repeat split; try lia; auto.
    intros t Ht. rewrite Hn in Ht by reflexivity. discriminate.
  - unfold RoutineSession.completeItem.
    destruct (bool_decide _); [repeat split; auto; lia|].
    unfold RoutineSession.start.
    destruct (RoutineSession.status s) eqn:Hs; simpl; rewrite ?Hs; simpl;
      repeat split; try lia; auto.
    intros t Ht. rewrite Hn in Ht by reflexivity. discriminate.
  - unfold RoutineSession.uncompleteItem.
    destruct (bool_decide _); simpl; repeat split; auto; lia.
  - unfold RoutineSession.complete.
    destruct (RoutineSession.status s) eqn:Hs; simpl; rewrite ?Hs; simpl;
      repeat split; try lia; auto.
    + intros t Ht. exfalso.
      assert (E : RoutineSession.not_started = RoutineSession.completed)
        by (apply (proj2 Hc); congruence).
      discriminate E.
    + intros t Ht. exfalso.
      assert (E : RoutineSession.in_progress = RoutineSession.completed)
        by (apply (proj2 Hc); congruence).
      discriminate E.
Qed.

(** X15. A session only moves forward. For a session whose status and
    time stamps agree (as in every new session), calls of [start],
    [completeItem], [uncompleteItem] and [complete] in any number and
    order never take the status back ([not_started], [in_progress],
    [completed]) and never change a time stamp that is set: [startedAt]
    is the time of the first start, [completedAt] the time of the first
    completion. [reset] included, the status and the stamps stay in
    agreement: [completedAt] is set exactly when the status is
    [completed]. *)
Theorem session_moves_forward :
  (forall (history : list (Date * RoutineSession.op)) (s : RoutineSession.t),
     stampsAgree s ->
     Forall (fun step => RoutineSession.isReset (snd step) = false) history ->
     statusRank (RoutineSession.status s)
       <= statusRank (RoutineSession.status (RoutineSession.run history s)) /\
     (forall t, RoutineSession.startedAt s = Some t ->
                RoutineSession.startedAt (RoutineSession.run history s) = Some t) /\
     (forall t, RoutineSession.completedAt s = Some t ->
                RoutineSession.completedAt (RoutineSession.run history s) = Some t)) /\
  (forall (history : list (Date * RoutineSession.op)) (s : RoutineSession.t),
     stampsAgree s -> stampsAgree (RoutineSession.run history s)) /\
  (forall (now : Date) (routine : Routine.t) (date : option Date),
     stampsAgree (RoutineSession.constructor now routine date)).
Proof.
  assert (Hagree : forall (history : list (Date * RoutineSession.op)) (s : RoutineSession.t),
            stampsAgree s -> stampsAgree (RoutineSession.run history s)).
  { induction history as [|[now o] rest IH]; intros s Hs; [exact Hs|].
    change (RoutineSession.run ((now, o) :: rest) s)
      with (RoutineSession.run rest (RoutineSession.apply now o s)).
    apply IH. apply session_apply_agree. exact Hs. }
  split; [|split; [exact Hagree|]].
  - induction history as [|[now o] rest IH]; intros s Hs Hall.
    + simpl. repeat split; auto; lia.
    + apply Forall_cons in Hall as [Ho Hall]. simpl in Ho.
      change (RoutineSession.run ((now, o) :: rest) s)
        with (RoutineSession.run rest (RoutineSession.apply now o s)).
      destruct (session_apply_forward now o s Hs Ho) as (Hr & Hst & Hco).
      destruct (IH (RoutineSession.apply now o s) (session_apply_agree now o s Hs) Hall)
        as (Hr' & Hst' & Hco').
      repeat split; [lia | |]; intros t Ht; auto.
  - intros now routine date. unfold stampsAgree. simpl.
    repeat split; try discriminate; try tauto.
Qed.

Lemma session_moves_forward_witness :
  RoutineSession.startedAt
    (RoutineSession.run
       [ (noon 2, RoutineSession.UncompleteItem "stretch" stretchRewards);
         (noon 3, RoutineSession.Start);
         (noon 4, RoutineSession.CompleteItem "water" None);
         (noon 5, RoutineSession.Complete) ]
       stretchedSession)
  = Some (noon 1).
Proof.
  apply (proj1 session_moves_forward
           [ (noon 2, RoutineSession.UncompleteItem "stretch" stretchRewards);
             (noon 3, RoutineSession.Start);
             (noon 4, RoutineSession.CompleteItem "water" None);
             (noon 5, RoutineSession.Complete) ]
           stretchedSession).
  - unfold stampsAgree. simpl. repeat split; try discriminate; try tauto.
  - repeat constructor.
  - reflexivity.
Defined.

(** X16. A session survives [toJSON] and [fromJSON]: restored for the
    routine it belongs to, it is the session that was saved, whatever the
    time of the restore. For another routine only [routineId] differs: it
    is taken from the routine, not from the snapshot. *)
Theorem session_json_round_trip (now : Date) (s : RoutineSession.t)
    (routine : Routine.t) :
  (RoutineSession.routineId s = Routine.id routine ->
   RoutineSession.fromJSON now (RoutineSession.toJSON s) routine = s) /\
  RoutineSession.fromJSON now (RoutineSession.toJSON s) routine
  = RoutineSession.mk (Routine.id routine) (RoutineSession.date s)
      (RoutineSession.startedAt s) (RoutineSession.completedAt s)
      (RoutineSession.status s) (RoutineSession.completedItems s)
      (RoutineSession.xpEarned s).
Proof.
  assert (H : RoutineSession.fromJSON now (RoutineSession.toJSON s) routine
              = RoutineSession.mk (Routine.id routine) (RoutineSession.date s)
                  (RoutineSession.startedAt s) (RoutineSession.completedAt s)
                  (RoutineSession.status s) (RoutineSession.completedItems s)
                  (RoutineSession.xpEarned s)).
  { unfold RoutineSession.fromJSON, RoutineSession.toJSON. simpl.
    rewrite list_to_set_elements_L. reflexivity. }
  split; [|exact H]. intros Hid. rewrite H, <- Hid. destruct s; reflexivity.
Qed.

Lemma session_json_round_trip_witness :
  RoutineSession.fromJSON (noon 7) (RoutineSession.toJSON stretchedSession) morningRoutine
  = stretchedSession.
Proof.
  apply (proj1 (session_json_round_trip (noon 7) stretchedSession morningRoutine)).
  reflexivity.
Defined.

(** ** Routine *)

Lemma find_app_first {A : Type} (p : A -> bool) (l1 l2 : list A) :
  List.find p (l1 ++ l2)
  = match List.find p l1 with Some x => Some x | None => List.find p l2 end.
Proof.
  induction l1 as [|a l1 IH]; simpl; [reflexivity|]. destruct (p a); auto.
Qed.

Lemma find_map_first {A B : Type} (p : B -> bool) (f : A -> B) (l : list A) :
  List.find p (map f l) = option_map f (List.find (fun a => p (f a)) l).
Proof.
  induction l as [|a l IH]; simpl; [reflexivity|]. destruct (p (f a)); auto.
Qed.

(** X17. [getItem] finds what [getAllItems] lists: the result is the
    first item of [getAllItems] with that id (with its section), and null
    exactly when no listed item has the id. The section named in a found
    item is found by [getSection]. *)
Theorem getItem_is_first_of_getAllItems (r : Routine.t) (itemId : string) :
  Routine.getItem r itemId
  = List.find (fun found => String.eqb (Item.id (Routine.item found)) itemId)
              (Routine.getAllItems r) /\
  (Routine.getItem r itemId = None <-> itemId ∉ itemIds r) /\
  (forall found, Routine.getItem r itemId = Some found ->
     In found (Routine.getAllItems r) /\
     Item.id (Routine.item found) = itemId /\
     exists sec, Routine.getSection r (Routine.sectionId found) = Some sec /\
                 RoutineSection.id sec = Routine.sectionId found).
Proof.
  assert (Hfind : Routine.getItem r itemId
                  = List.find (fun found => String.eqb (Item.id (Routine.item found)) itemId)
                              (Routine.getAllItems r)).
  { unfold Routine.getItem, Routine.getAllItems.
    induction (Routine.sections r) as [|sec rest IH]; [reflexivity|].
    simpl. rewrite find_app_first, find_map_first. simpl.
    destruct (find _ (RoutineSection.items sec)); simpl; [reflexivity | exact IH]. }
  split; [exact Hfind|]. split.
  - rewrite Hfind. unfold itemIds. split.
    + intros Hnone Hin. apply list_elem_of_fmap in Hin as (found & -> & Hin).
      apply list_elem_of_In in Hin.
      pose proof (find_none _ _ Hnone found Hin) as H. simpl in H.
      rewrite String.eqb_refl in H. discriminate.
    + intros Hout.
      destruct (find _ (Routine.getAllItems r)) as [found|] eqn:Hf; [|reflexivity].
      apply find_some in Hf as [Hin Heq]. apply String.eqb_eq in Heq.
      exfalso. apply Hout. apply list_elem_of_fmap. exists found.
      split; [auto | apply list_elem_of_In; exact Hin].
  - intros found Hget. pose proof Hget as Hget'. rewrite Hfind in Hget'.
    apply find_some in Hget' as [Hin Heq]. apply String.eqb_eq in Heq.
    split; [exact Hin|]. split; [exact Heq|].
    revert Hget. unfold Routine.getItem, Routine.getSection.
    induction (Routine.sections r) as [|sec rest IH]; [discriminate|]. simpl.
    destruct (find _ (RoutineSection.items sec)) as [it|].
    + intros [= <-]. simpl. rewrite String.eqb_refl. eauto.
    + intros Hrest. destruct (String.eqb_spec (RoutineSection.id sec)
                                (Routine.sectionId found)) as [E|E].
      * eauto.
      * apply IH. exact Hrest.
Qed.

Lemma getItem_is_first_of_getAllItems_witness :
  In (Routine.mkFound (Item.mk "puzzle" "Solve a puzzle"
                         (Some [("logic", 150); ("mental", 20)])) "focus" "Focus")
     (Routine.getAllItems morningRoutine).
Proof.
  apply (proj2 (proj2 (getItem_is_first_of_getAllItems morningRoutine "puzzle"))).
  reflexivity.
Defined.

Lemma completeItems_fresh (now : Date) (items : list Routine.FoundItem) :
  forall s : RoutineSession.t,
    NoDup (map (fun found => Item.id (Routine.item found)) items) ->
    (forall found, In found items ->
       Item.id (Routine.item found) ∉ RoutineSession.completedItems s) ->
    RoutineSession.completedItems (completeItems now s items)
      = list_to_set (map (fun found => Item.id (Routine.item found)) items)
        ∪ RoutineSession.completedItems s /\
    RoutineSession.xpEarned (completeItems now s items)
      = fold_left
          (fun (xpTotals : gmap string Z) (found : Routine.FoundItem) =>
             match Item.skillRewards (Routine.item found) with
             | Some rewards => fold_left Routine.totalEntry rewards xpTotals
             | None => xpTotals
             end)
          items (RoutineSession.xpEarned s).
Proof.
  induction items as [|f rest IH]; intros s Hnd Hfresh.
  - simpl. split; [|reflexivity]. symmetry. apply (left_id_L ∅ (∪)).
  - simpl in Hnd. apply NoDup_cons in Hnd as [Hf Hnd].
    change (completeItems now s (f :: rest))
      with (completeItems now
              (RoutineSession.completeItem now s (Item.id (Routine.item f))
                 (Item.skillRewards (Routine.item f))) rest).
    destruct (session_completeItem_fields now s (Item.id (Routine.item f))
                (Item.skillRewards (Routine.item f))) as (Hc & Hx & _).
    rewrite bool_decide_eq_false_2 in Hx by (apply Hfresh; left; reflexivity).
    destruct (IH (RoutineSession.completeItem now s (Item.id (Routine.item f))
                    (Item.skillRewards (Routine.item f))) Hnd) as [Hitems Hledger].
    { intros g Hg. rewrite Hc, elem_of_union, elem_of_singleton.
      intros [E|Hin].
      - apply Hf. rewrite <- E. apply list_elem_of_In.
        apply (in_map (fun found => Item.id (Routine.item found))). exact Hg.
      - apply (Hfresh g); [right; exact Hg | exact Hin]. }
    rewrite Hitems, Hledger, Hc, Hx. split.
    + simpl. rewrite (comm_L (∪) {[_]} (list_to_set _)).
      rewrite !assoc_L by apply _. reflexivity.
    + simpl. destruct (Item.skillRewards (Routine.item f)); reflexivity.
Qed.

(** X18. In a routine whose item ids are distinct, completing every
    item once on a new session earns exactly [getTotalXP]: the ledger
    [xpEarned] is the routine's total, the completed items are the item
    ids, and [isComplete] holds. *)
Theorem completing_all_items_earns_total (now : Date) (r : Routine.t)
    (s : RoutineSession.t) :
  NoDup (itemIds r) ->
  RoutineSession.completedItems s = ∅ ->
  RoutineSession.xpEarned s = ∅ ->
  RoutineSession.xpEarned (completeItems now s (Routine.getAllItems r))
    = Routine.getTotalXP r /\
  RoutineSession.completedItems (completeItems now s (Routine.getAllItems r))
    = list_to_set (itemIds r) /\
  RoutineSession.isComplete (completeItems now s (Routine.getAllItems r)) r = true.
Proof.
  intros Hnd Hitems Hledger.
  destruct (completeItems_fresh now (Routine.getAllItems r) s Hnd) as [Hc Hx].
  { intros found _. rewrite Hitems. apply not_elem_of_empty. }
  rewrite Hitems in Hc. rewrite Hledger in Hx.
  rewrite (right_id_L ∅ (∪)) in Hc.
  split; [exact Hx|]. split; [exact Hc|].
  unfold RoutineSession.isComplete. rewrite Hc.
  rewrite size_list_to_set by exact Hnd.
  unfold itemIds, Routine.getTotalItemCount. rewrite length_map.
  apply Nat.eqb_refl.
Qed.

Lemma completing_all_items_earns_total_witness :
  RoutineSession.xpEarned
    (completeItems (noon 1) emptySession (Routine.getAllItems morningRoutine))
  = Routine.getTotalXP morningRoutine.
Proof.
  apply (completing_all_items_earns_total (noon 1) morningRoutine emptySession).
  - apply (bool_decide_unpack _). vm_compute. exact I.
  - reflexivity.
  - reflexivity.
Defined.

Lemma size_list_to_set_le (l : list string) :
  (size (list_to_set l : gset string) <= length l)%nat /\
  (~ NoDup l -> (size (list_to_set l : gset string) < length l)%nat).
Proof.
  induction l as [|x l [IHle IHlt]].
  - rewrite list_to_set_nil, size_empty. split; [reflexivity|].
    intros H. exfalso. apply H. constructor.
  - rewrite list_to_set_cons. cbn [length].
    destruct (decide (x ∈ l)) as [Hin|Hout].
    + assert (E : ({[x]} ∪ list_to_set l : gset string) = list_to_set l).
      { apply set_eq. intros y. rewrite elem_of_union, elem_of_singleton.
        split; [intros [->|H]; [apply elem_of_list_to_set; exact Hin | exact H] | auto]. }
      rewrite E. split; intros; lia.
    + rewrite size_union.
      * rewrite size_singleton. split; [lia|]. intros Hdup.
        assert (~ NoDup l) as Hl by (intros H; apply Hdup; constructor; assumption).
        specialize (IHlt Hl). lia.
      * intros y Hy Hy'. apply elem_of_singleton in Hy. subst.
        apply elem_of_list_to_set in Hy'. contradiction.
Qed.

(** X19. A routine in which two items share an id cannot be completed:
    a session that holds item ids of the routine only is never
    [isComplete], since the set of completed items stays smaller than the
    item count; this is so even after [completeItem] was called for
    every item. *)
Theorem duplicate_item_ids_never_complete (r : Routine.t) :
  ~ NoDup (itemIds r) ->
  (forall s : RoutineSession.t,
     RoutineSession.completedItems s ⊆ list_to_set (itemIds r) ->
     RoutineSession.isComplete s r = false) /\
  (forall (now : Date) (s : RoutineSession.t),
     RoutineSession.completedItems s = ∅ ->
     RoutineSession.isComplete (completeItems now s (Routine.getAllItems r)) r = false).
Proof.
  intros Hdup.
  assert (Hgen : forall s : RoutineSession.t,
            RoutineSession.completedItems s ⊆ list_to_set (itemIds r) ->
            RoutineSession.isComplete s r = false).
  { intros s Hsub. unfold RoutineSession.isComplete. apply Nat.eqb_neq.
    pose proof (subseteq_size _ _ Hsub) as Hsize.
    pose proof (proj2 (size_list_to_set_le (itemIds r)) Hdup) as Hlt.
    unfold Routine.getTotalItemCount. unfold itemIds in Hlt at 2.
    rewrite length_map in Hlt. lia. }
  split; [exact Hgen|].
  intros now s Hempty. apply Hgen.
  assert (Hall : forall (items : list Routine.FoundItem) (s0 : RoutineSession.t),
            RoutineSession.completedItems (completeItems now s0 items)
            ⊆ list_to_set (map (fun found => Item.id (Routine.item found)) items)
              ∪ RoutineSession.completedItems s0).
  { induction items as [|f rest IH]; intros s0.
    - simpl. apply union_subseteq_r.
    - change (completeItems now s0 (f :: rest))
        with (completeItems now
                (RoutineSession.completeItem now s0 (Item.id (Routine.item f))
                   (Item.skillRewards (Routine.item f))) rest).
      etransitivity; [apply IH|].
      destruct (session_completeItem_fields now s0 (Item.id (Routine.item f))
                  (Item.skillRewards (Routine.item f))) as (-> & _ & _).
      simpl. intros y. rewrite !elem_of_union, elem_of_singleton. tauto. }
  etransitivity; [apply Hall|]. rewrite Hempty.
  intros y. rewrite elem_of_union. intros [H|H]; [exact H|].
  exfalso. revert H. apply not_elem_of_empty.
Qed.

Lemma duplicate_item_ids_never_complete_witness :
  RoutineSession.isComplete
    (completeItems (noon 1) emptySession (Routine.getAllItems repeatedRoutine))
    repeatedRoutine = false.
Proof.
  apply (proj2 (duplicate_item_ids_never_complete repeatedRoutine
                  ltac:(apply (bool_decide_unpack _); vm_compute; exact I))).
  reflexivity.
Defined.

(** *** The achievements of a manager *)

Lemma entriesKept_refl (es : list (string * Achievement.t)) : entriesKept es es.
Proof.
  unfold entriesKept, sameButUnlockedAt. induction es; constructor; auto 10.
Qed.

Lemma entriesKept_trans (es1 es2 es3 : list (string * Achievement.t)) :
  entriesKept es1 es2 -> entriesKept es2 es3 -> entriesKept es1 es3.
Proof.
  unfold entriesKept. intros H12. revert es3.
  induction H12 as [|e1 e2 r1 r2 (Hk & Hs & Hu) _ IH]; intros es3 H23;
    inversion H23 as [|? e3 ? r3 (Hk' & Hs' & Hu') Hrest]; subst; constructor.
  - unfold sameButUnlockedAt in *.
    destruct Hs as (S1 & S2 & S3 & S4 & S5), Hs' as (T1 & T2 & T3 & T4 & T5).
    repeat split; try congruence.
    intros Hunl. specialize (Hu Hunl). rewrite <- Hu. apply Hu'.
    rewrite Hu. exact Hunl.
  - apply IH. exact Hrest.
Qed.

Lemma unlock_same (now : Date) (a : Achievement.t) :
  sameButUnlockedAt a (snd (Achievement.unlock now a)) /\
  Achievement.isUnlocked (snd (Achievement.unlock now a)) = true /\
  (Achievement.isUnlocked a = true -> snd (Achievement.unlock now a) = a) /\
  (Achievement.isUnlocked a = false ->
   Achievement.unlockedAt (snd (Achievement.unlock now a)) = Some now).
Proof.
  unfold Achievement.unlock, sameButUnlockedAt.
  destruct (Achievement.isUnlocked a) eqn:Hu; simpl;
    repeat split; auto; discriminate.
Qed.

Lemma checkLoop_kept (now : Date) (entries : list (string * Achievement.t)) :
  forall user : User.t,
    entriesKept entries (snd (fst (AchievementManager.checkLoop now entries user))).
Proof.
  induction entries as [|[k a] rest IH]; intros user; simpl.
  - constructor.
  - destruct (Achievement.isUnlocked a) eqn:Hu;
      [|destruct (Achievement.condition a user) eqn:Hc].
    + specialize (IH user).
      destruct (AchievementManager.checkLoop now rest user) as [[newly rest'] user'].
      simpl in *. constructor; [|exact IH].
      unfold sameButUnlockedAt. simpl. auto 10.
    + match goal with
      | |- context [AchievementManager.checkLoop now rest ?u1] => specialize (IH u1);
          destruct (AchievementManager.checkLoop now rest u1) as [[newly rest'] user']
      end.
      simpl in *. constructor; [|exact IH]. simpl.
      split; [reflexivity|]. split; [apply unlock_same|]. congruence.
    + specialize (IH user).
      destruct (AchievementManager.checkLoop now rest user) as [[newly rest'] user'].
      simpl in *. constructor; [|exact IH].
      unfold sameButUnlockedAt. simpl. auto 10.
Qed.

Lemma mapSet_kept (now : Date) (k : string) (a : Achievement.t)
    (entries : list (string * Achievement.t)) :
  AchievementManager.mapGet k entries = Some a ->
  entriesKept entries
    (AchievementManager.mapSet k (snd (Achievement.unlock now a)) entries).
Proof.
  intros Hget.
  induction entries as [|[k0 v] rest IH]; [discriminate|].
  rewrite mapGet_cons in Hget. simpl.
  destruct (String.eqb k0 k) eqn:Heq.
  - injection Hget as ->. constructor; [|apply entriesKept_refl]. simpl.
    split; [reflexivity|]. split; apply unlock_same.
  - constructor; [|apply IH; exact Hget].
    unfold sameButUnlockedAt. simpl. auto 10.
Qed.

Lemma restoreUnlocked_kept (now : Date) (m : AchievementManager.t)
    (unlockedIds : list string) :
  entriesKept (AchievementManager.achievements m)
    (AchievementManager.achievements (AchievementManager.restoreUnlocked now m unlockedIds)).
Proof.
  unfold AchievementManager.restoreUnlocked. simpl.
  generalize (AchievementManager.achievements m) as entries.
  induction unlockedIds as [|id rest IH]; intros entries; simpl.
  - apply entriesKept_refl.
  - eapply entriesKept_trans; [|apply IH].
    destruct (AchievementManager.mapGet id entries) as [a|] eqn:Hget;
      [|apply entriesKept_refl].
    destruct (Achievement.isUnlocked a) eqn:Hu; [apply entriesKept_refl|].
    apply mapSet_kept. exact Hget.
Qed.

Lemma run_kept (history : list AchievementManager.op) :
  forall m : AchievementManager.t,
    entriesKept (AchievementManager.achievements m)
      (AchievementManager.achievements (AchievementManager.run history m)).
Proof.
  induction history as [|o rest IH]; intros m.
  - apply entriesKept_refl.
  - change (AchievementManager.run (o :: rest) m)
      with (AchievementManager.run rest (AchievementManager.apply o m)).
    eapply entriesKept_trans; [|apply IH].
    destruct o as [now user|now ids]; simpl.
    + rewrite (proj2 (checkAchievements_loop now m user)). apply checkLoop_kept.
    + apply restoreUnlocked_kept.
Qed.

Lemma entriesKept_get (es es' : list (string * Achievement.t)) (k : string) :
  entriesKept es es' ->
  match AchievementManager.mapGet k es with
  | None => AchievementManager.mapGet k es' = None
  | Some a =>
      exists a', AchievementManager.mapGet k es' = Some a' /\
                 sameButUnlockedAt a a' /\
                 (Achievement.isUnlocked a = true -> a' = a)
  end.
Proof.
  induction 1 as [|[k0 a0] [k0' a0'] r r' (Hk & Hs & Hu) _ IH].
  - reflexivity.
  - simpl in Hk, Hs, Hu. subst k0'. rewrite !mapGet_cons.
    destruct (String.eqb k0 k); [|exact IH].
    exists a0'. auto.
Qed.

Lemma entriesKept_ids (es es' : list (string * Achievement.t)) :
  entriesKept es es' ->
  map Achievement.id (map snd es') = map Achievement.id (map snd es).
Proof.
  induction 1 as [|e e' r r' (_ & (Hid & _) & _) _ IH]; [reflexivity|].
  simpl. rewrite Hid, IH. reflexivity.
Qed.

(** X20. Whatever is done with a manager ([checkAchievements] and
    [restoreUnlocked] in any number and order), its achievements stay the
    same and in the same order but for the time of unlocking, and an
    achievement that is unlocked is never touched again: [unlockedAt] is
    the time of the first unlocking. An id that [getAchievement] does not
    know stays unknown. *)
Theorem unlocked_achievement_is_kept (history : list AchievementManager.op)
    (m : AchievementManager.t) :
  map Achievement.id
    (AchievementManager.getAllAchievements (AchievementManager.run history m))
  = map Achievement.id (AchievementManager.getAllAchievements m) /\
  (forall achievementId : string,
     match AchievementManager.getAchievement m achievementId with
     | None =>
         AchievementManager.getAchievement (AchievementManager.run history m)
           achievementId = None
     | Some a =>
         exists a',
           AchievementManager.getAchievement (AchievementManager.run history m)
             achievementId = Some a' /\
           sameButUnlockedAt a a' /\
           (Achievement.isUnlocked a = true -> a' = a)
     end).
Proof.
  split.
  - apply entriesKept_ids, run_kept.
  - intros achievementId. apply entriesKept_get, run_kept.
Qed.

Lemma unlocked_achievement_is_kept_witness :
  exists a,
    AchievementManager.getAchievement
      (AchievementManager.run laterChecks restoredManager) "first-task" = Some a /\
    Achievement.unlockedAt a = Some (noon 1).
Proof.
  pose proof (proj2 (unlocked_achievement_is_kept laterChecks restoredManager)
                "first-task") as H.
  destruct (AchievementManager.getAchievement restoredManager "first-task")
    as [a|] eqn:E; [|vm_compute in E; discriminate E].
  destruct H as (a' & Hget & _ & Hkeep).
  exists a'. split; [exact Hget|].
  vm_compute in E. injection E as <-. rewrite (Hkeep eq_refl). reflexivity.
Defined.

Lemma withAchievements_own (u : User.t) :
  withAchievements u (User.achievements (User.stats u)) = u.
Proof. destruct u as [? ? ? ? ? []]. reflexivity. Qed.

Lemma unlockAchievement_with (u : User.t) (ids : list string) (id : string) :
  snd (User.unlockAchievement (withAchievements u ids) id)
  = withAchievements u
      (if bool_decide (id ∈ ids) then ids else ids ++ [id]).
Proof.
  unfold User.unlockAchievement. simpl.
  destruct (bool_decide (id ∈ ids)); reflexivity.
Qed.

Lemma checkLoop_due (now : Date) (entries : list (string * Achievement.t))
    (user0 : User.t) :
  Forall ignoresUnlocked (map snd entries) ->
  forall ids : list string,
    fst (AchievementManager.checkLoop now entries (withAchievements user0 ids))
    = (map (fun a => snd (Achievement.unlock now a))
         (List.filter (dueFor user0) (map snd entries)),
       map (fun e => (fst e, if dueFor user0 (snd e)
                             then snd (Achievement.unlock now (snd e))
                             else snd e)) entries) /\
    exists ids',
      snd (AchievementManager.checkLoop now entries (withAchievements user0 ids))
        = withAchievements user0 ids' /\
      (forall id, id ∈ ids' <->
         id ∈ ids \/
         id ∈ map Achievement.id (List.filter (dueFor user0) (map snd entries))).
Proof.
  induction entries as [|[k a] rest IH]; intros Hign ids.
  - simpl. split; [reflexivity|]. exists ids. split; [reflexivity|].
    intros id. split; [auto | intros [H|H]; [exact H | inversion H]].
  - simpl in Hign. apply Forall_cons in Hign as [Ha Hrest].
    specialize (IH Hrest).
    assert (Hdue : dueFor user0 a
                   = negb (Achievement.isUnlocked a) && Achievement.condition a user0)
      by reflexivity.
    cbn [AchievementManager.checkLoop map List.filter fst snd].
    rewrite (Ha user0 ids).
    destruct (Achievement.isUnlocked a) eqn:Hu;
      [|destruct (Achievement.condition a user0) eqn:Hc];
      cbn [negb andb] in Hdue; rewrite Hdue.
    + destruct (IH ids) as [E (ids' & Eu & Hids)].
      destruct (AchievementManager.checkLoop now rest (withAchievements user0 ids))
        as [[newly rest'] user'].
      simpl in E, Eu. injection E as -> ->. split; [reflexivity|].
      exists ids'. split; [exact Eu | exact Hids].
    + assert (Eid : Achievement.id (snd (Achievement.unlock now a)) = Achievement.id a)
        by apply unlock_same.
      rewrite Eid, unlockAchievement_with.
      destruct (IH (if bool_decide (Achievement.id a ∈ ids)
                    then ids else ids ++ [Achievement.id a]))
        as [E (ids' & Eu & Hids)].
      destruct (AchievementManager.checkLoop now rest _) as [[newly rest'] user'].
      simpl in E, Eu. injection E as -> ->. split; [reflexivity|].
      exists ids'. split; [exact Eu|].
      intros id. rewrite Hids. cbn [map]. rewrite elem_of_cons.
      destruct (bool_decide (Achievement.id a ∈ ids)) eqn:Hb.
      * apply bool_decide_eq_true in Hb. split; [tauto|].
        intros [H|[->|H]]; auto.
      * rewrite elem_of_app, list_elem_of_singleton. tauto.
    + destruct (IH ids) as [E (ids' & Eu & Hids)].
      destruct (AchievementManager.checkLoop now rest (withAchievements user0 ids))
        as [[newly rest'] user'].
      simpl in E, Eu. injection E as -> ->. split; [reflexivity|].
      exists ids'. split; [exact Eu | exact Hids].
Qed.

Lemma catalog_ignoresUnlocked :
  Forall ignoresUnlocked
    (AchievementManager.getAllAchievements AchievementManager.constructor).
Proof.
  assert (E : AchievementManager.getAllAchievements AchievementManager.constructor
              = map (fun d => Achievement.mk (Achievement.d_id d) (Achievement.d_name d)
                                (Achievement.d_description d) (Achievement.d_icon d)
                                (Achievement.d_condition d) None)
                  Achievement.ACHIEVEMENTS) by (vm_compute; reflexivity).
  rewrite E. apply Forall_map. unfold Achievement.ACHIEVEMENTS.
  repeat (apply List.Forall_cons; [intros u ids; reflexivity|]).
  apply List.Forall_nil.
Qed.

Lemma entriesKept_ignoresUnlocked (es es' : list (string * Achievement.t)) :
  entriesKept es es' ->
  Forall ignoresUnlocked (map snd es) -> Forall ignoresUnlocked (map snd es').
Proof.
  induction 1 as [|e e' r r' (_ & (_ & _ & _ & _ & Hc) & _) _ IH]; intros Hign.
  - constructor.
  - simpl in Hign. apply Forall_cons in Hign as [He Hr]. simpl. constructor.
    + intros u ids. rewrite Hc. apply He.
    + apply IH. exact Hr.
Qed.

Lemma filter_unlocked_length (due : Achievement.t -> bool) (now : Date)
    (l : list Achievement.t) :
  (forall a, due a = true -> Achievement.isUnlocked a = false) ->
  length (List.filter Achievement.isUnlocked
            (map (fun a => if due a then snd (Achievement.unlock now a) else a) l))
  = (length (List.filter Achievement.isUnlocked l) + length (List.filter due l))%nat.
Proof.
  intros Hdue. induction l as [|a l IH]; [reflexivity|].
  cbn [map List.filter]. destruct (due a) eqn:Hd.
  - rewrite (proj1 (proj2 (unlock_same now a))), (Hdue a Hd).
    cbn [length]. rewrite IH. lia.
  - destruct (Achievement.isUnlocked a); cbn [length]; rewrite IH; lia.
Qed.

Lemma filter_locked_due (user : User.t) (l : list Achievement.t) :
  List.filter (fun a => Achievement.condition a user)
    (List.filter (fun a => negb (Achievement.isUnlocked a)) l)
  = List.filter (dueFor user) l.
Proof.
  induction l as [|a l IH]; [reflexivity|].
  cbn [List.filter]. unfold dueFor at 1.
  destruct (Achievement.isUnlocked a); cbn [negb andb List.filter]; [exact IH|].
  destruct (Achievement.condition a user); rewrite IH; reflexivity.
Qed.

(** X21. The conditions of the catalog do not look at the list of
    unlocked ids, and no use of a manager changes that. For such a
    manager [checkAchievements] reports exactly the locked achievements
    whose condition the user meets, in the order of the map and stamped
    with the time of the call; it unlocks these and leaves the others as
    they are; of the user it changes the list of unlocked ids only, which
    gains the reported ids and loses none. *)
Theorem checkAchievements_unlocks_what_is_due :
  (forall history : list AchievementManager.op,
     Forall ignoresUnlocked
       (AchievementManager.getAllAchievements
          (AchievementManager.run history AchievementManager.constructor))) /\
  (forall (now : Date) (m : AchievementManager.t) (user : User.t),
     Forall ignoresUnlocked (AchievementManager.getAllAchievements m) ->
     exists newlyUnlocked m' user',
       AchievementManager.checkAchievements now m user = (newlyUnlocked, m', user') /\
       newlyUnlocked
         = map (fun a => snd (Achievement.unlock now a))
             (List.filter (fun a => Achievement.condition a user)
                (AchievementManager.getLockedAchievements m)) /\
       AchievementManager.getAllAchievements m'
         = map (fun a => if dueFor user a then snd (Achievement.unlock now a) else a)
             (AchievementManager.getAllAchievements m) /\
       length (AchievementManager.getUnlockedAchievements m')
         = (length (AchievementManager.getUnlockedAchievements m)
            + length newlyUnlocked)%nat /\
       user' = withAchievements user (User.achievements (User.stats user')) /\
       (forall id, id ∈ User.achievements (User.stats user') <->
                   id ∈ User.achievements (User.stats user) \/
                   id ∈ map Achievement.id newlyUnlocked)).
Proof.
  split.
  - intros history. unfold AchievementManager.getAllAchievements.
    eapply entriesKept_ignoresUnlocked; [apply run_kept|].
    apply catalog_ignoresUnlocked.
  - intros now m user Hign.
    unfold AchievementManager.getAllAchievements in Hign.
    destruct (checkLoop_due now (AchievementManager.achievements m) user Hign
                (User.achievements (User.stats user))) as [E (ids' & Eu & Hids)].
    rewrite withAchievements_own in E, Eu.
    unfold AchievementManager.checkAchievements.
    destruct (AchievementManager.checkLoop now (AchievementManager.achievements m) user)
      as [[newly entries] user'].
    simpl in E, Eu. injection E as -> ->. subst user'.
    eexists _, _, _. split; [reflexivity|].
    unfold AchievementManager.getLockedAchievements,
      AchievementManager.getUnlockedAchievements,
      AchievementManager.getAllAchievements. cbn [AchievementManager.achievements].
    rewrite filter_locked_due. split; [reflexivity|].
    assert (Hmap :
              map snd
                (map (fun e : string * Achievement.t =>
                        (fst e, if dueFor user (snd e)
                                then snd (Achievement.unlock now (snd e))
                                else snd e))
                   (AchievementManager.achievements m))
              = map (fun a => if dueFor user a
                              then snd (Achievement.unlock now a) else a)
                  (map snd (AchievementManager.achievements m))).
    { rewrite !map_map. reflexivity. }
    rewrite Hmap. split; [reflexivity|]. split.
    { rewrite length_map. apply filter_unlocked_length.
      intros a Ha. unfold dueFor in Ha. apply andb_true_iff in Ha as [Ha _].
      apply negb_true_iff in Ha. exact Ha. }
    split; [reflexivity|].
    intros id. cbn [withAchievements User.stats User.achievements].
    rewrite Hids, map_map.
    assert (Hsame :
              map (fun x => Achievement.id (snd (Achievement.unlock now x)))
                (List.filter (dueFor user) (map snd (AchievementManager.achievements m)))
              = map Achievement.id
                  (List.filter (dueFor user) (map snd (AchievementManager.achievements m)))).
    { apply map_ext. intros a. apply unlock_same. }
    rewrite Hsame. reflexivity.
Qed.

Lemma nothing_due_after (now : Date) (user : User.t)
    (entries : list (string * Achievement.t)) :
  List.filter (dueFor user)
    (map snd
       (map (fun e : string * Achievement.t =>
               (fst e, if dueFor user (snd e)
                       then snd (Achievement.unlock now (snd e)) else snd e))
          entries)) = [].
Proof.
  induction entries as [|[k a] l IH]; [reflexivity|].
  cbn [map List.filter snd fst]. destruct (dueFor user a) eqn:Hd.
  - unfold dueFor at 1.
    rewrite (proj1 (proj2 (unlock_same now a))). cbn [negb andb]. exact IH.
  - rewrite Hd. exact IH.
Qed.

Lemma checkLoop_nothing_due (now : Date) (user0 : User.t)
    (entries : list (string * Achievement.t)) :
  Forall ignoresUnlocked (map snd entries) ->
  List.filter (dueFor user0) (map snd entries) = [] ->
  forall ids : list string,
    AchievementManager.checkLoop now entries (withAchievements user0 ids)
    = ([], entries, withAchievements user0 ids).
Proof.
  induction entries as [|[k a] l IH]; intros Hign Hnone ids; [reflexivity|].
  cbn [map List.filter snd] in Hnone. simpl in Hign.
  apply Forall_cons in Hign as [Ha Hl].
  cbn [AchievementManager.checkLoop]. rewrite (Ha user0 ids).
  unfold dueFor in Hnone at 1.
  destruct (Achievement.isUnlocked a); cbn [negb andb] in Hnone.
  - rewrite (IH Hl Hnone ids). reflexivity.
  - destruct (Achievement.condition a user0); [discriminate|].
    rewrite (IH Hl Hnone ids). reflexivity.
Qed.

(** X22. [checkAchievements] settles: called again, at any time, with
    the user it has just updated or with the user as it was, it reports
    nothing and changes neither the manager nor the user. *)
Theorem checkAchievements_settles (now now' : Date) (m m' : AchievementManager.t)
    (user user' : User.t) (newlyUnlocked : list Achievement.t) :
  Forall ignoresUnlocked (AchievementManager.getAllAchievements m) ->
  AchievementManager.checkAchievements now m user = (newlyUnlocked, m', user') ->
  AchievementManager.checkAchievements now' m' user' = ([], m', user') /\
  AchievementManager.checkAchievements now' m' user = ([], m', user).
Proof.
  intros Hign Hcheck.
  unfold AchievementManager.getAllAchievements in Hign.
  destruct (checkLoop_due now (AchievementManager.achievements m) user Hign
              (User.achievements (User.stats user))) as [E (ids' & Eu & _)].
  rewrite withAchievements_own in E, Eu.
  unfold AchievementManager.checkAchievements in Hcheck.
  destruct (AchievementManager.checkLoop now (AchievementManager.achievements m) user)
    as [[newly entries] user1].
  simpl in E, Eu. injection Hcheck as <- <- <-. injection E as -> ->. subst user1.
  assert (Hign' :
            Forall ignoresUnlocked
              (map snd
                 (map (fun e : string * Achievement.t =>
                         (fst e, if dueFor user (snd e)
                                 then snd (Achievement.unlock now (snd e)) else snd e))
                    (AchievementManager.achievements m)))).
  { rewrite map_map. cbn [snd].
    rewrite Forall_map in Hign |- *. eapply Forall_impl; [exact Hign|].
    intros [k a] Ha. cbn [snd] in *. destruct (dueFor user a); [|exact Ha].
    intros u ids. rewrite (proj2 (proj2 (proj2 (proj2 (proj1 (unlock_same now a)))))).
    apply Ha. }
  pose proof (checkLoop_nothing_due now' user _ Hign' (nothing_due_after now user _))
    as Hagain.
  unfold AchievementManager.checkAchievements. cbn [AchievementManager.achievements].
  split.
  - rewrite Hagain. reflexivity.
  - pose proof (Hagain (User.achievements (User.stats user))) as Hown.
    rewrite withAchievements_own in Hown. rewrite Hown. reflexivity.
Qed.

Lemma checkAchievements_unlocks_what_is_due_witness :
  exists newlyUnlocked m' user',
    AchievementManager.checkAchievements (noon 2) AchievementManager.constructor
      taskedUser = (newlyUnlocked, m', user') /\
    map Achievement.id newlyUnlocked = ["first-task"].
Proof.
  destruct (proj2 checkAchievements_unlocks_what_is_due (noon 2)
              AchievementManager.constructor taskedUser)
    as (newlyUnlocked & m' & user' & Hcheck & Hnew & _).
  - exact catalog_ignoresUnlocked.
  - exists newlyUnlocked, m', user'. split; [exact Hcheck|].
    rewrite Hnew. vm_compute. reflexivity.
Defined.

Lemma checkAchievements_settles_witness :
  AchievementManager.checkAchievements (noon 5) checkedManager checkedUser
  = ([], checkedManager, checkedUser).
Proof.
  apply (checkAchievements_settles (noon 2) (noon 5) AchievementManager.constructor
           checkedManager taskedUser checkedUser
           (fst (fst (AchievementManager.checkAchievements (noon 2)
                        AchievementManager.constructor taskedUser)))).
  - exact catalog_ignoresUnlocked.
  - unfold checkedManager, checkedUser.
    destruct (AchievementManager.checkAchievements (noon 2)
                AchievementManager.constructor taskedUser) as [[newly m'] user'].
    reflexivity.
Defined.

Lemma mapGet_None (k : string) (entries : list (string * Achievement.t)) :
  AchievementManager.mapGet k entries = None <-> k ∉ entries.*1.
Proof.
  induction entries as [|[k0 v] rest IH].
  - split; [intros _ H; inversion H | reflexivity].
  - rewrite mapGet_cons, fmap_cons, not_elem_of_cons. cbn [fst].
    destruct (String.eqb k0 k) eqn:Heq.
    + apply String.eqb_eq in Heq. split; [discriminate | intros [H _]; congruence].
    + apply String.eqb_neq in Heq. rewrite IH. split; [auto | tauto].
Qed.

Lemma restore_step (now : Date) (id : string)
    (entries : list (string * Achievement.t)) :
  NoDup entries.*1 ->
  match AchievementManager.mapGet id entries with
  | Some a =>
      if Achievement.isUnlocked a then entries
      else AchievementManager.mapSet id (snd (Achievement.unlock now a)) entries
  | None => entries
  end
  = map (fun e : string * Achievement.t =>
           (fst e, if negb (Achievement.isUnlocked (snd e)) && String.eqb (fst e) id
                   then snd (Achievement.unlock now (snd e)) else snd e))
      entries.
Proof.
  induction entries as [|[k0 v] rest IH]; intros Hnd; [reflexivity|].
  rewrite fmap_cons, NoDup_cons in Hnd. destruct Hnd as [Hk0 Hnd]. cbn [fst] in Hk0.
  rewrite mapGet_cons. cbn [map fst snd AchievementManager.mapSet].
  destruct (String.eqb k0 id) eqn:Heq.
  - apply String.eqb_eq in Heq. subst k0.
    assert (Hrest : AchievementManager.mapGet id rest = None)
      by (apply mapGet_None; exact Hk0).
    specialize (IH Hnd). rewrite Hrest in IH. rewrite <- IH.
    destruct (Achievement.isUnlocked v); reflexivity.
  - rewrite andb_false_r. specialize (IH Hnd).
    destruct (AchievementManager.mapGet id rest) as [a|];
      [destruct (Achievement.isUnlocked a)|]; rewrite <- IH;
      cbn [AchievementManager.mapSet]; rewrite ?Heq; reflexivity.
Qed.

Lemma restoreUnlocked_entries (now : Date) (unlockedIds : list string) :
  forall entries : list (string * Achievement.t),
    NoDup entries.*1 ->
    AchievementManager.achievements
      (AchievementManager.restoreUnlocked now (AchievementManager.mk entries) unlockedIds)
    = map (fun e : string * Achievement.t =>
             (fst e, if negb (Achievement.isUnlocked (snd e))
                        && bool_decide (fst e ∈ unlockedIds)
                     then snd (Achievement.unlock now (snd e)) else snd e))
        entries.
Proof.
  unfold AchievementManager.restoreUnlocked.
  cbn [AchievementManager.achievements].
  induction unlockedIds as [|id rest IH]; intros entries Hnd.
  - cbn [fold_left]. symmetry. etransitivity; [|apply map_id].
    apply map_ext. intros [k a]. cbn [fst snd].
    rewrite bool_decide_eq_false_2 by (intros H; inversion H).
    rewrite andb_false_r. reflexivity.
  - cbn [fold_left]. rewrite (restore_step now id entries Hnd).
    rewrite IH.
    + rewrite map_map. apply map_ext. intros [k a]. cbn [fst snd].
      destruct (Achievement.isUnlocked a) eqn:Hu; cbn [negb andb].
      * rewrite Hu. reflexivity.
      * destruct (String.eqb k id) eqn:Heq.
        -- apply String.eqb_eq in Heq. subst k.
           rewrite (proj1 (proj2 (unlock_same now a))). cbn [negb andb].
           rewrite bool_decide_eq_true_2 by apply list_elem_of_here. reflexivity.
        -- apply String.eqb_neq in Heq. rewrite Hu. cbn [negb andb].
           destruct (decide (k ∈ rest)) as [Hin|Hout].
           ++ rewrite !bool_decide_eq_true_2;
                [reflexivity | apply list_elem_of_further; exact Hin | exact Hin].
           ++ rewrite !bool_decide_eq_false_2;
                [reflexivity
                | rewrite not_elem_of_cons; split; [exact Heq | exact Hout]
                | exact Hout].
    + assert (Hkeys : forall f : string * Achievement.t -> Achievement.t,
                (map (fun e : string * Achievement.t => (fst e, f e)) entries).*1
                = entries.*1).
      { intros f. clear. induction entries as [|e l IHl]; [reflexivity|].
        cbn [map]. rewrite !fmap_cons, IHl. reflexivity. }
      rewrite Hkeys. exact Hnd.
Qed.

Lemma mapGet_map (f : string * Achievement.t -> Achievement.t) (k : string)
    (entries : list (string * Achievement.t)) :
  AchievementManager.mapGet k
    (map (fun e : string * Achievement.t => (fst e, f e)) entries)
  = match List.find (fun e => String.eqb (fst e) k) entries with
    | Some e => Some (f e)
    | None => None
    end.
Proof.
  unfold AchievementManager.mapGet.
  induction entries as [|[k0 v] rest IH]; [reflexivity|].
  cbn [map List.find fst]. destruct (String.eqb k0 k); [reflexivity | exact IH].
Qed.

(** X23. [restoreUnlocked] unlocks, at the time of the call, exactly the
    locked achievements whose id is listed, and leaves every other
    achievement as it is. So ids that no achievement has are ignored, the
    order of the ids and their repetition make no difference, and an id
    that was listed is never reported again by [checkAchievements]. *)
Theorem restoreUnlocked_unlocks_listed (now : Date) (m : AchievementManager.t)
    (unlockedIds : list string) :
  keyedById (AchievementManager.achievements m) ->
  (forall (achievementId : string) (a : Achievement.t),
     AchievementManager.getAchievement m achievementId = Some a ->
     AchievementManager.getAchievement
       (AchievementManager.restoreUnlocked now m unlockedIds) achievementId
     = Some (if negb (Achievement.isUnlocked a)
                && bool_decide (achievementId ∈ unlockedIds)
             then snd (Achievement.unlock now a) else a)) /\
  ((forall id, id ∈ unlockedIds -> AchievementManager.getAchievement m id = None) ->
   AchievementManager.restoreUnlocked now m unlockedIds = m) /\
  (forall ids' : list string,
     (forall id, id ∈ ids' <-> id ∈ unlockedIds) ->
     AchievementManager.restoreUnlocked now m ids'
     = AchievementManager.restoreUnlocked now m unlockedIds) /\
  (forall (now' : Date) (user : User.t) (id : string),
     id ∈ unlockedIds ->
     id ∉ AchievementManager.newlyUnlockedIds now'
            (AchievementManager.restoreUnlocked now m unlockedIds) user).
Proof.
  intros Hkeyed. pose proof Hkeyed as [Hnd Hids].
  assert (Hent : forall ids,
            AchievementManager.restoreUnlocked now m ids
            = AchievementManager.mk
                (map (fun e : string * Achievement.t =>
                        (fst e, if negb (Achievement.isUnlocked (snd e))
                                   && bool_decide (fst e ∈ ids)
                                then snd (Achievement.unlock now (snd e)) else snd e))
                   (AchievementManager.achievements m))).
  { intros ids. destruct m as [entries].
    pose proof (restoreUnlocked_entries now ids entries Hnd) as H.
    destruct (AchievementManager.restoreUnlocked now (AchievementManager.mk entries) ids)
      as [entries'].
    cbn [AchievementManager.achievements] in *. rewrite H. reflexivity. }
  split; [|split; [|split]].
  - intros achievementId a Hget.
    unfold AchievementManager.getAchievement in *. rewrite Hent.
    cbn [AchievementManager.achievements].
    rewrite (mapGet_map
               (fun e => if negb (Achievement.isUnlocked (snd e))
                            && bool_decide (fst e ∈ unlockedIds)
                         then snd (Achievement.unlock now (snd e)) else snd e)).
    unfold AchievementManager.mapGet in Hget.
    destruct (List.find _ (AchievementManager.achievements m)) as [[k v]|] eqn:Hfind;
      [|discriminate].
    cbn [option_map snd] in Hget. injection Hget as ->.
    apply find_some in Hfind as [_ Hk]. cbn [fst] in Hk.
    apply String.eqb_eq in Hk. subst k. reflexivity.
  - intros Hnone. rewrite Hent. destruct m as [entries].
    cbn [AchievementManager.achievements] in *. f_equal.
    etransitivity; [|apply map_id].
    apply map_ext_in. intros [k a] Hin. cbn [fst snd].
    destruct (decide (k ∈ unlockedIds)) as [Hk|Hk].
    + exfalso. specialize (Hnone k Hk).
      unfold AchievementManager.getAchievement in Hnone.
      cbn [AchievementManager.achievements] in Hnone.
      apply mapGet_None in Hnone. apply Hnone.
      apply list_elem_of_fmap. exists (k, a). split; [reflexivity|].
      apply list_elem_of_In. exact Hin.
    + rewrite bool_decide_eq_false_2 by exact Hk. rewrite andb_false_r. reflexivity.
  - intros ids' Hsame. rewrite !Hent. f_equal.
    apply map_ext. intros [k a]. cbn [fst snd].
    rewrite (bool_decide_ext _ _ (Hsame k)). reflexivity.
  - intros now' user id Hin Hnew.
    assert (Hkeyed' : keyedById
              (AchievementManager.achievements
                 (AchievementManager.restoreUnlocked now m unlockedIds))).
    { eapply entriesAdvance_keyedById; [apply restoreUnlocked_advance | exact Hkeyed]. }
    destruct (newly_unlocked_keys now' _ user id Hkeyed' Hnew) as [(a & Ha & Hl) _].
    rewrite Hent in Ha. cbn [AchievementManager.achievements] in Ha.
    apply list_elem_of_In, in_map_iff in Ha as ([k v] & E & _).
    cbn [fst snd] in E. injection E as -> <-.
    rewrite bool_decide_eq_true_2 in Hl by exact Hin.
    destruct (Achievement.isUnlocked v) eqn:Hu; cbn [negb andb] in Hl.
    + congruence.
    + rewrite (proj1 (proj2 (unlock_same now v))) in Hl. discriminate.
Qed.

Lemma restoreUnlocked_unlocks_listed_witness :
  "first-task" ∉ AchievementManager.newlyUnlockedIds (noon 2) restoredManager taskedUser.
Proof.
  apply (proj2 (proj2 (proj2
           (restoreUnlocked_unlocks_listed (noon 1) AchievementManager.constructor
              ["first-task"; "no-such-achievement"] constructor_keyedById)))
           (noon 2) taskedUser "first-task").
  apply list_elem_of_here.
Defined.

Lemma categorize_files_once (c : AchievementManager.Categories) (a : Achievement.t) :
  AchievementManager.streak (AchievementManager.categorize c a)
    ++ AchievementManager.routine (AchievementManager.categorize c a)
    ++ AchievementManager.skill (AchievementManager.categorize c a)
    ++ AchievementManager.xp (AchievementManager.categorize c a)
    ++ AchievementManager.task (AchievementManager.categorize c a)
    ++ AchievementManager.other (AchievementManager.categorize c a)
  ≡ₚ (AchievementManager.streak c ++ AchievementManager.routine c
      ++ AchievementManager.skill c ++ AchievementManager.xp c
      ++ AchievementManager.task c ++ AchievementManager.other c) ++ [a] /\
  AchievementManager.prestige (AchievementManager.categorize c a)
  = AchievementManager.prestige c.
Proof.
  destruct c as [s r k x t p o]. unfold AchievementManager.categorize.
  repeat match goal with
         | |- context [if ?b then _ else _] => destruct b
         end;
    cbn [AchievementManager.streak AchievementManager.routine AchievementManager.skill
         AchievementManager.xp AchievementManager.task AchievementManager.prestige
         AchievementManager.other];
    (split; [solve_Permutation | reflexivity]).
Qed.

Lemma categorize_ids (c c' : AchievementManager.Categories) (a a' : Achievement.t) :
  categoryIds c = categoryIds c' -> Achievement.id a = Achievement.id a' ->
  categoryIds (AchievementManager.categorize c a)
  = categoryIds (AchievementManager.categorize c' a').
Proof.
  destruct c as [s r k x t p o], c' as [s' r' k' x' t' p' o'].
  unfold categoryIds, AchievementManager.categorize.
  cbn [map AchievementManager.streak AchievementManager.routine AchievementManager.skill
       AchievementManager.xp AchievementManager.task AchievementManager.prestige
       AchievementManager.other].
  intros [= Hs Hr Hk Hx Ht Hp Ho] Hid. rewrite <- Hid.
  repeat match goal with
         | |- context [if ?b then _ else _] => destruct b
         end;
    cbn [map AchievementManager.streak AchievementManager.routine
         AchievementManager.skill AchievementManager.xp AchievementManager.task
         AchievementManager.prestige AchievementManager.other];
    rewrite ?map_app; cbn [map]; congruence.
Qed.

Lemma categories_by_id (l : list Achievement.t) :
  forall (l' : list Achievement.t) (c c' : AchievementManager.Categories),
    map Achievement.id l = map Achievement.id l' ->
    categoryIds c = categoryIds c' ->
    categoryIds (fold_left AchievementManager.categorize l c)
    = categoryIds (fold_left AchievementManager.categorize l' c').
Proof.
  induction l as [|a l IH]; intros [|a' l'] c c' Hl Hc; try discriminate.
  - exact Hc.
  - cbn [map] in Hl. injection Hl as Ha Hl. cbn [fold_left].
    apply IH; [exact Hl | apply categorize_ids; assumption].
Qed.

(** X24. [getAchievementsByCategory] files every achievement once: its
    lists taken together are the achievements of the manager, and the
    list [prestige] is always empty. For a manager built by the
    constructor and used in any way the lists are those below: the two
    achievements on prestige are filed under [skill], and "first-routine"
    and "first-task" under [other]. *)
Theorem getAchievementsByCategory_files_each_once :
  (forall m : AchievementManager.t,
     AchievementManager.streak (AchievementManager.getAchievementsByCategory m)
       ++ AchievementManager.routine (AchievementManager.getAchievementsByCategory m)
       ++ AchievementManager.skill (AchievementManager.getAchievementsByCategory m)
       ++ AchievementManager.xp (AchievementManager.getAchievementsByCategory m)
       ++ AchievementManager.task (AchievementManager.getAchievementsByCategory m)
       ++ AchievementManager.other (AchievementManager.getAchievementsByCategory m)
     ≡ₚ AchievementManager.getAllAchievements m /\
     AchievementManager.prestige (AchievementManager.getAchievementsByCategory m) = []) /\
  (forall history : list AchievementManager.op,
     categoryIds
       (AchievementManager.getAchievementsByCategory
          (AchievementManager.run history AchievementManager.constructor))
     = [ ["streak-5"; "streak-7"; "streak-15"; "streak-25"; "streak-100"; "streak-1000"];
         ["routine-10"; "routine-25"; "routine-50"; "routine-100"];
         ["skill-level-10"; "skill-level-25"; "skill-level-50"; "skill-level-75";
          "skill-level-100"; "all-skills-10"; "all-skills-25"; "all-skills-50";
          "first-prestige"; "prestige-5"];
         ["xp-1000"; "xp-10000"; "xp-50000"];
         ["tasks-100"; "tasks-500"; "tasks-1000"];
         [];
         ["first-routine"; "first-task"] ]).
Proof.
  split.
  - intros m. unfold AchievementManager.getAchievementsByCategory.
    assert (Hgen : forall (l : list Achievement.t) (c : AchievementManager.Categories),
              AchievementManager.streak (fold_left AchievementManager.categorize l c)
                ++ AchievementManager.routine (fold_left AchievementManager.categorize l c)
                ++ AchievementManager.skill (fold_left AchievementManager.categorize l c)
                ++ AchievementManager.xp (fold_left AchievementManager.categorize l c)
                ++ AchievementManager.task (fold_left AchievementManager.categorize l c)
                ++ AchievementManager.other (fold_left AchievementManager.categorize l c)
              ≡ₚ (AchievementManager.streak c ++ AchievementManager.routine c
                  ++ AchievementManager.skill c ++ AchievementManager.xp c
                  ++ AchievementManager.task c ++ AchievementManager.other c) ++ l /\
              AchievementManager.prestige (fold_left AchievementManager.categorize l c)
              = AchievementManager.prestige c).
    { induction l as [|a l IH]; intros c.
      - cbn [fold_left]. rewrite app_nil_r. split; reflexivity.
      - cbn [fold_left]. destruct (IH (AchievementManager.categorize c a)) as [Hp He].
        destruct (categorize_files_once c a) as [Hp1 He1].
        split; [|congruence].
        rewrite Hp, Hp1, <- app_assoc. reflexivity. }
    exact (Hgen (AchievementManager.getAllAchievements m)
             (AchievementManager.mkCategories [] [] [] [] [] [] [])).
  - intros history. unfold AchievementManager.getAchievementsByCategory.
    rewrite (categories_by_id _
               (AchievementManager.getAllAchievements AchievementManager.constructor)
               _ (AchievementManager.mkCategories [] [] [] [] [] [] [])).
    + vm_compute. reflexivity.
    + apply entriesKept_ids, run_kept.
    + reflexivity.
Qed.

(** *** The sessions of a manager *)

(** X25. [getSession] hands out one session per routine and calendar
    day: asked again on that day, at whatever time, it returns the same
    object and changes nothing. It never writes to the storage, never
    touches a session that exists, and caches under the key of the day
    only. *)
Theorem getSession_hands_out_one_session (now now' : Date)
    (m m1 : RoutineManager.t) (routineId : string) (date date' : option Date)
    (ref : nat) :
  RoutineManager.getSession now m routineId date = Return (ref, m1) ->
  toDateString (default now' date') = toDateString (default now date) ->
  RoutineManager.getSession now' m1 routineId date' = Return (ref, m1) /\
  RoutineManager.storageManager m1 = RoutineManager.storageManager m /\
  (forall r s, RoutineManager.heap m !! r = Some s ->
               RoutineManager.heap m1 !! r = Some s) /\
  (forall key, key <> (routineId, toDateString (default now date)) ->
               RoutineManager.sessions m1 !! key = RoutineManager.sessions m !! key).
Proof.
  intros Hget Hday.
  destruct (getSession_spec _ _ _ _ _ _ Hget) as (Hst & Hrt & Hkey & _ & _ & _).
  split; [|split; [exact Hst|]].
  - unfold RoutineManager.getSession, RoutineManager.getRoutine in *.
    rewrite Hrt. destruct (RoutineManager.routines m !! routineId); [|discriminate].
    rewrite Hday, Hkey. reflexivity.
  - unfold RoutineManager.getSession in Hget.
    destruct (RoutineManager.getRoutine m routineId) as [routine|]; [|discriminate].
    destruct (RoutineManager.sessions m !! _) as [r0|] eqn:Hcache.
    + injection Hget as <- <-. split; auto.
    + injection Hget as <- <-. cbn [RoutineManager.heap RoutineManager.sessions]. split.
      * intros r s Hr. apply lookup_app_l_Some. exact Hr.
      * intros key Hne. apply lookup_insert_ne. congruence.
Qed.

Lemma getSession_hands_out_one_session_witness :
  RoutineManager.getSession (mkDate 1 900) stretchedManager "morning" None
  = Return (0%nat, stretchedManager).
Proof.
  apply (getSession_hands_out_one_session (noon 1) (mkDate 1 900)
           stretchedManager stretchedManager "morning" None None 0%nat);
    vm_compute; reflexivity.
Defined.

Lemma session_routineId (now : Date) (s : RoutineSession.t) (itemId : string)
    (rewards : option (list (string * Z))) :
  RoutineSession.routineId (RoutineSession.completeItem now s itemId rewards)
    = RoutineSession.routineId s /\
  RoutineSession.routineId (RoutineSession.uncompleteItem s itemId rewards)
    = RoutineSession.routineId s /\
  RoutineSession.routineId (RoutineSession.complete now s) = RoutineSession.routineId s /\
  RoutineSession.routineId (RoutineSession.reset s) = RoutineSession.routineId s.
Proof.
  unfold RoutineSession.completeItem, RoutineSession.uncompleteItem,
    RoutineSession.complete, RoutineSession.start, RoutineSession.reset.
  repeat split.
  - destruct (bool_decide _); [reflexivity|]. cbn [RoutineSession.status].
    destruct (RoutineSession.status s); reflexivity.
  - destruct (bool_decide _); reflexivity.
  - destruct (RoutineSession.status s); reflexivity.
Qed.

Lemma getSession_owned (now : Date) (m m1 : RoutineManager.t) (routineId : string)
    (date : option Date) (ref : nat) :
  RoutineManager.wf m -> sessionsOwned m ->
  RoutineManager.getSession now m routineId date = Return (ref, m1) ->
  sessionsOwned m1.
Proof.
  intros Hwf Hown Hget. unfold RoutineManager.getSession in Hget.
  destruct (RoutineManager.getRoutine m routineId) as [routine|] eqn:Hr; [|discriminate].
  destruct (RoutineManager.sessions m !! _) as [r0|] eqn:Hcache.
  - injection Hget as <- <-. exact Hown.
  - injection Hget as <- <-. intros key r s rt.
    cbn [RoutineManager.sessions RoutineManager.heap RoutineManager.routines].
    destruct (decide ((routineId, toDateString (default now date)) = key)) as [<-|Hne].
    + rewrite lookup_insert_eq. intros [= <-].
      rewrite lookup_app_r by lia. rewrite Nat.sub_diag. cbn [fst].
      unfold RoutineManager.getRoutine in Hr. rewrite Hr. intros [= <-] [= <-].
      destruct (StorageManager.loadSessionLocal _ _ _ _); reflexivity.
    + rewrite lookup_insert_ne by exact Hne. intros Hk.
      pose proof (Hwf _ _ Hk) as Hlt.
      rewrite lookup_app_l by exact Hlt. apply Hown. exact Hk.
Qed.

(** Putting a session of the same routine in the place of the session at
    [ref] and saving it keeps the cache in order. *)
Lemma update_owned (now : Date) (m1 : RoutineManager.t) (routineId : string)
    (day : Z) (ref : nat) (s' : RoutineSession.t) :
  RoutineManager.wf m1 -> sessionsOwned m1 ->
  RoutineManager.sessions m1 !! (routineId, day) = Some ref ->
  RoutineSession.routineId s' = RoutineSession.routineId (RoutineManager.heap m1 !!! ref) ->
  RoutineManager.wf
    (RoutineManager.saveSession now (RoutineManager.setSession m1 ref s') routineId ref) /\
  sessionsOwned
    (RoutineManager.saveSession now (RoutineManager.setSession m1 ref s') routineId ref).
Proof.
  intros Hwf Hown Hkey Hid. pose proof (Hwf _ _ Hkey) as Href.
  pose proof (list_lookup_lookup_total_lt _ _ Href) as Hold.
  split.
  - apply saveSession_wf; [apply setSession_wf; exact Hwf|].
    unfold RoutineManager.setSession. cbn [RoutineManager.heap].
    rewrite length_insert. exact Href.
  - intros key r s rt.
    unfold RoutineManager.saveSession, RoutineManager.setSession.
    cbn [RoutineManager.sessions RoutineManager.heap RoutineManager.routines].
    rewrite list_lookup_total_insert_eq by exact Href.
    assert (Hcase : forall k, RoutineManager.sessions m1 !! k = Some r ->
                              fst k = fst key ->
                              <[ref:=s']> (RoutineManager.heap m1) !! r = Some s ->
                              RoutineManager.routines m1 !! fst key = Some rt ->
                              RoutineSession.routineId s = Routine.id rt).
    { intros k Hk Hfst Hs Hrt. rewrite <- Hfst in Hrt.
      destruct (decide (r = ref)) as [->|Hne].
      - rewrite list_lookup_insert_eq in Hs by exact Href. injection Hs as <-.
        rewrite Hid. exact (Hown k ref _ rt Hk Hold Hrt).
      - rewrite list_lookup_insert_ne in Hs by congruence.
        exact (Hown k r s rt Hk Hs Hrt). }
    match goal with
    | |- <[?k := _]> _ !! _ = _ -> _ => destruct (decide (k = key)) as [<-|Hne]
    end.
    + rewrite lookup_insert_eq. intros [= <-]. apply (Hcase _ Hkey). reflexivity.
    + rewrite lookup_insert_ne by exact Hne. intros Hk. apply (Hcase _ Hk). reflexivity.
Qed.

Lemma apply_owned (now : Date) (o : RoutineManager.op) (m : RoutineManager.t) :
  RoutineManager.wf m -> sessionsOwned m ->
  RoutineManager.wf (RoutineManager.apply now o m) /\
  sessionsOwned (RoutineManager.apply now o m).
Proof.
  intros Hwf Hown.
  assert (Hget : forall routineId date ref m1,
            RoutineManager.getSession now m routineId date = Return (ref, m1) ->
            RoutineManager.wf m1 /\ sessionsOwned m1 /\
            RoutineManager.sessions m1 !! (routineId, toDateString (default now date))
              = Some ref).
  { intros routineId date ref m1 Hg.
    destruct (getSession_spec _ _ _ _ _ _ Hg) as (_ & _ & Hkey & _ & _ & Hwf1).
    split; [auto|]. split; [|exact Hkey]. eapply getSession_owned; eassumption. }
  destruct o as [routineId date|routineId itemId user|routineId itemId|routineId date];
    cbn [RoutineManager.apply].
  - destruct (RoutineManager.getSession now m routineId date) as [[ref m1]|] eqn:Hg;
      [|auto].
    destruct (Hget _ _ _ _ Hg) as (H1 & H2 & _). auto.
  - unfold RoutineManager.completeItem.
    destruct (RoutineManager.getSession now m routineId None) as [[ref m1]|] eqn:Hg;
      [|auto].
    destruct (Hget _ _ _ _ Hg) as (Hwf1 & Hown1 & Hkey).
    destruct (RoutineManager.getRoutine m routineId) as [routine|]; [|auto].
    destruct (Routine.getItem routine itemId) as [item|]; [|auto].
    destruct (User.addRoutineRewards _ _ _) as [xpResults user1].
    destruct (RoutineSession.isComplete _ _);
      (eapply update_owned; [exact Hwf1 | exact Hown1 | exact Hkey |]).
    + rewrite (proj1 (proj2 (proj2 (session_routineId now _ "" None)))).
      apply session_routineId.
    + apply session_routineId.
  - unfold RoutineManager.uncompleteItem.
    destruct (RoutineManager.getSession now m routineId None) as [[ref m1]|] eqn:Hg;
      [|auto].
    destruct (Hget _ _ _ _ Hg) as (Hwf1 & Hown1 & Hkey).
    destruct (RoutineManager.getRoutine m routineId) as [routine|]; [|auto].
    destruct (Routine.getItem routine itemId) as [item|]; [|auto].
    eapply update_owned; [exact Hwf1 | exact Hown1 | exact Hkey |].
    apply (session_routineId now).
  - unfold RoutineManager.resetSession.
    destruct (RoutineManager.getSession now m routineId date) as [[ref m1]|] eqn:Hg;
      [|auto].
    destruct (Hget _ _ _ _ Hg) as (Hwf1 & Hown1 & Hkey).
    eapply update_owned; [exact Hwf1 | exact Hown1 | exact Hkey |].
    apply (session_routineId now _ "" None).
Qed.

Lemma run_owned (storage : StorageManager.t) (routines : gmap string Routine.t)
    (history : list (Date * RoutineManager.op)) :
  RoutineManager.wf (RoutineManager.run history (reloaded storage routines)) /\
  sessionsOwned (RoutineManager.run history (reloaded storage routines)).
Proof.
  assert (Hrun : forall m, RoutineManager.wf m -> sessionsOwned m ->
                           RoutineManager.wf (RoutineManager.run history m) /\
                           sessionsOwned (RoutineManager.run history m)).
  { induction history as [|[now o] rest IH]; intros m Hwf Hown; [auto|].
    change (RoutineManager.run ((now, o) :: rest) m)
      with (RoutineManager.run rest (RoutineManager.apply now o m)).
    destruct (apply_owned now o m Hwf Hown) as [H1 H2]. apply IH; assumption. }
  apply Hrun.
  - apply wf_empty_cache. reflexivity.
  - intros key ref s rt Hk. cbn [reloaded RoutineManager.sessions] in Hk.
    rewrite lookup_empty in Hk. discriminate.
Qed.

(** X26. In a manager built on a storage with its routines loaded, and
    used in any way ([getSession], [completeItem], [uncompleteItem],
    [resetSession]), every cached session is a session object of the
    manager and belongs to the routine of its key: its [routineId] is the
    id of that routine. Each call keeps this so. *)
Theorem cached_sessions_belong_to_their_routine :
  (forall (now : Date) (o : RoutineManager.op) (m : RoutineManager.t),
     RoutineManager.wf m -> sessionsOwned m ->
     RoutineManager.wf (RoutineManager.apply now o m) /\
     sessionsOwned (RoutineManager.apply now o m)) /\
  (forall (storage : StorageManager.t) (routines : gmap string Routine.t)
          (history : list (Date * RoutineManager.op)),
     RoutineManager.wf (RoutineManager.run history (reloaded storage routines)) /\
     sessionsOwned (RoutineManager.run history (reloaded storage routines))).
Proof.
  split; [exact apply_owned | exact run_owned].
Qed.

Lemma cached_sessions_belong_to_their_routine_witness :
  sessionsOwned
    (RoutineManager.apply (noon 2) (RoutineManager.ResetSession "morning" (Some (noon 1)))
       managerAfterDay).
Proof.
  apply (proj1 cached_sessions_belong_to_their_routine (noon 2)
           (RoutineManager.ResetSession "morning" (Some (noon 1))) managerAfterDay).
  - exact (proj1 (run_owned (StorageManager.mk ∅)
                    (RoutineManager.routines sampleManager) managerDay)).
  - exact (proj2 (run_owned (StorageManager.mk ∅)
                    (RoutineManager.routines sampleManager) managerDay)).
Defined.

Lemma session_round_trip (now : Date) (s : RoutineSession.t) (routine : Routine.t) :
  RoutineSession.routineId s = Routine.id routine ->
  RoutineSession.fromJSON now (RoutineSession.toJSON s) routine = s.
Proof.
  intros Hid. unfold RoutineSession.fromJSON, RoutineSession.toJSON. simpl.
  rewrite list_to_set_elements_L, <- Hid. destruct s; reflexivity.
Qed.

(** What [saveSession] leaves for a manager built anew: the session it
    has just put in the place of today's session. *)
Lemma saveSession_reloads (now : Date) (m1 : RoutineManager.t) (routineId : string)
    (routine : Routine.t) (ref : nat) (s' : RoutineSession.t) :
  RoutineManager.wf m1 -> sessionsOwned m1 ->
  RoutineManager.routines m1 !! routineId = Some routine ->
  RoutineManager.sessions m1 !! (routineId, toDateString now) = Some ref ->
  RoutineSession.routineId s' = RoutineSession.routineId (RoutineManager.heap m1 !!! ref) ->
  reloadsToday now routineId
    (RoutineManager.saveSession now (RoutineManager.setSession m1 ref s') routineId ref).
Proof.
  intros Hwf Hown Hroutine Hkey Hid. pose proof (Hwf _ _ Hkey) as Href.
  pose proof (list_lookup_lookup_total_lt _ _ Href) as Hold.
  assert (Hs' : RoutineSession.routineId s' = Routine.id routine).
  { rewrite Hid. exact (Hown _ ref _ routine Hkey Hold Hroutine). }
  exists s'. split.
  - unfold RoutineManager.sessionAt, RoutineManager.saveSession, RoutineManager.setSession.
    cbn [RoutineManager.sessions RoutineManager.heap].
    assert (Hlook : <[(routineId,
                       toDateString
                         (RoutineSession.date
                            (<[ref:=s']> (RoutineManager.heap m1) !!! ref))) := ref]>
                      (RoutineManager.sessions m1) !! (routineId, toDateString now)
                    = Some ref).
    { apply lookup_insert_Some.
      match goal with
      | |- (?k = ?k' /\ _) \/ _ => destruct (decide (k = k')) as [E|E]
      end; [left | right]; auto. }
    rewrite Hlook. apply list_lookup_insert_eq. exact Href.
  - intros now' Hday.
    unfold RoutineManager.getSession, RoutineManager.getRoutine, reloaded,
      RoutineManager.saveSession, RoutineManager.setSession,
      StorageManager.loadSessionLocal, StorageManager.saveSessionLocal.
    cbn [RoutineManager.routines RoutineManager.sessions RoutineManager.heap
         RoutineManager.storageManager StorageManager.sessions default].
    rewrite Hroutine, lookup_empty, Hday, lookup_insert_eq.
    rewrite list_lookup_total_insert_eq by exact Href.
    eexists _, _. split; [reflexivity|].
    cbn [RoutineManager.heap app length]. cbn [lookup list_lookup].
    rewrite (session_round_trip now' s' routine Hs'). reflexivity.
Qed.

(** X27. What [completeItem], [uncompleteItem] and [resetSession] leave
    for today's session of a routine is what they have saved: a manager
    built anew on the storage, with the same routines, loads that very
    session on the same day. (The rewards of the item are an object whose
    categories are not names inherited from [Object.prototype].) *)
Theorem saved_session_is_reloaded (now : Date) (m : RoutineManager.t)
    (routineId : string) :
  RoutineManager.wf m -> sessionsOwned m ->
  (forall (itemId : string) (user user' : User.t)
          (out : RoutineManager.CompleteResult) (m2 : RoutineManager.t),
     RoutineManager.completeItem now m routineId itemId user
       = Return (Some out, m2, user') ->
     plainKeys (default [] (Item.skillRewards
                              (Routine.item (RoutineManager.item out)))) ->
     reloadsToday now routineId m2) /\
  (forall (itemId : string) (out : RoutineManager.UncompleteResult)
          (m2 : RoutineManager.t),
     RoutineManager.uncompleteItem now m routineId itemId = Return (Some out, m2) ->
     plainKeys (default [] (Item.skillRewards
                              (Routine.item (RoutineManager.u_item out)))) ->
     reloadsToday now routineId m2) /\
  (forall (ref : nat) (m2 : RoutineManager.t),
     RoutineManager.resetSession now m routineId None = Return (ref, m2) ->
     reloadsToday now routineId m2).
Proof.
  intros Hwf Hown.
  assert (Hget : forall ref m1,
            RoutineManager.getSession now m routineId None = Return (ref, m1) ->
            RoutineManager.wf m1 /\ sessionsOwned m1 /\
            RoutineManager.routines m1 = RoutineManager.routines m /\
            RoutineManager.sessions m1 !! (routineId, toDateString now) = Some ref).
  { intros ref m1 Hg.
    destruct (getSession_spec _ _ _ _ _ _ Hg) as (_ & Hrt & Hkey & _ & _ & Hwf1).
    split; [auto|]. split; [eapply getSession_owned; eassumption|].
    split; [exact Hrt | exact Hkey]. }
  split; [|split].
  - intros itemId user user' out m2 Hcall _. revert Hcall.
    unfold RoutineManager.completeItem.
    destruct (RoutineManager.getSession now m routineId None) as [[ref m1]|] eqn:Hg;
      [|discriminate].
    destruct (Hget _ _ eq_refl) as (Hwf1 & Hown1 & Hrt & Hkey).
    unfold RoutineManager.getRoutine.
    destruct (RoutineManager.routines m !! routineId) as [routine|] eqn:Hr;
      [|discriminate].
    destruct (Routine.getItem routine itemId) as [item|]; [|discriminate].
    destruct (User.addRoutineRewards _ _ _) as [xpResults user1].
    rewrite <- Hrt in Hr.
    destruct (RoutineSession.isComplete _ _); intros [= <- <- <-];
      (eapply saveSession_reloads; [exact Hwf1 | exact Hown1 | exact Hr | exact Hkey |]).
    + rewrite (proj1 (proj2 (proj2 (session_routineId now _ "" None)))).
      apply session_routineId.
    + apply session_routineId.
  - intros itemId out m2 Hcall _. revert Hcall.
    unfold RoutineManager.uncompleteItem.
    destruct (RoutineManager.getSession now m routineId None) as [[ref m1]|] eqn:Hg;
      [|discriminate].
    destruct (Hget _ _ eq_refl) as (Hwf1 & Hown1 & Hrt & Hkey).
    unfold RoutineManager.getRoutine.
    destruct (RoutineManager.routines m !! routineId) as [routine|] eqn:Hr;
      [|discriminate].
    destruct (Routine.getItem routine itemId) as [item|]; [|discriminate].
    rewrite <- Hrt in Hr. intros [= <- <-].
    eapply saveSession_reloads; [exact Hwf1 | exact Hown1 | exact Hr | exact Hkey |].
    apply (session_routineId now).
  - intros ref m2. unfold RoutineManager.resetSession.
    destruct (RoutineManager.getSession now m routineId None) as [[ref1 m1]|] eqn:Hg;
      [|discriminate].
    destruct (Hget _ _ eq_refl) as (Hwf1 & Hown1 & Hrt & Hkey).
    assert (Hr : exists routine, RoutineManager.routines m1 !! routineId = Some routine).
    { unfold RoutineManager.getSession, RoutineManager.getRoutine in Hg. rewrite Hrt.
      destruct (RoutineManager.routines m !! routineId) as [routine|];
        [eauto | discriminate]. }
    destruct Hr as [routine Hr]. intros [= <- <-].
    eapply saveSession_reloads; [exact Hwf1 | exact Hown1 | exact Hr | exact Hkey |].
    apply (session_routineId now _ "" None).
Qed.

Lemma saved_session_is_reloaded_witness :
  reloadsToday (noon 1) "morning"
    (RoutineManager.apply (noon 1) (RoutineManager.UncompleteItem "morning" "stretch")
       managerAfterDay).
Proof.
  destruct (RoutineManager.uncompleteItem (noon 1) managerAfterDay "morning" "stretch")
    as [[[out|] m2]|] eqn:Hcall; try (vm_compute in Hcall; discriminate Hcall).
  unfold RoutineManager.apply. rewrite Hcall.
  apply (proj1 (proj2
           (saved_session_is_reloaded (noon 1) managerAfterDay "morning"
              (proj1 (run_owned (StorageManager.mk ∅)
                        (RoutineManager.routines sampleManager) managerDay))
              (proj2 (run_owned (StorageManager.mk ∅)
                        (RoutineManager.routines sampleManager) managerDay))))
           "stretch" out m2 Hcall).
  vm_compute in Hcall. injection Hcall as <- _.
  apply (bool_decide_unpack _). vm_compute. exact I.
Defined.

(** X28. [saveSession] stores under the key of today, whatever the day
    of the session. So [resetSession] for another day leaves the session
    of that day reset in the manager, writes it over what the storage
    holds for today, and leaves what the storage holds for that day as it
    was. *)
Theorem resetSession_of_another_day (now d : Date) (m m2 : RoutineManager.t)
    (routineId : string) (ref : nat) :
  RoutineManager.wf m ->
  toDateString d <> toDateString now ->
  RoutineManager.resetSession now m routineId (Some d) = Return (ref, m2) ->
  exists s : RoutineSession.t,
    RoutineManager.sessionAt m2 (routineId, toDateString d) = Some s /\
    RoutineSession.status s = RoutineSession.not_started /\
    RoutineSession.completedItems s = ∅ /\
    RoutineSession.xpEarned s = ∅ /\
    RoutineSession.startedAt s = None /\
    RoutineSession.completedAt s = None /\
    StorageManager.loadSessionLocal now (RoutineManager.storageManager m2) routineId None
      = Some (RoutineSession.toJSON s) /\
    (forall now' : Date,
       StorageManager.loadSessionLocal now' (RoutineManager.storageManager m2)
         routineId (Some d)
       = StorageManager.loadSessionLocal now' (RoutineManager.storageManager m)
           routineId (Some d)).
Proof.
  intros Hwf Hday. unfold RoutineManager.resetSession.
  destruct (RoutineManager.getSession now m routineId (Some d)) as [[ref1 m1]|] eqn:Hg;
    [|discriminate].
  pose proof (getSession_ref_valid _ _ _ _ _ _ Hwf Hg) as Href.
  destruct (getSession_spec _ _ _ _ _ _ Hg) as (Hst & _ & Hkey & _ & _ & _).
  cbn [default] in Hkey. intros [= <- <-].
  exists (RoutineSession.reset (RoutineManager.heap m1 !!! ref1)).
  split; [|repeat split].
  - unfold RoutineManager.sessionAt, RoutineManager.saveSession, RoutineManager.setSession.
    cbn [RoutineManager.sessions RoutineManager.heap].
    assert (Hlook : <[(routineId,
                       toDateString
                         (RoutineSession.date
                            (<[ref1:=RoutineSession.reset (RoutineManager.heap m1 !!! ref1)]>
                               (RoutineManager.heap m1) !!! ref1))) := ref1]>
                      (RoutineManager.sessions m1) !! (routineId, toDateString d)
                    = Some ref1).
    { apply lookup_insert_Some.
      match goal with
      | |- (?k = ?k' /\ _) \/ _ => destruct (decide (k = k')) as [E|E]
      end; [left | right]; auto. }
    rewrite Hlook. apply list_lookup_insert_eq. exact Href.
  - unfold RoutineManager.saveSession, RoutineManager.setSession,
      StorageManager.loadSessionLocal, StorageManager.saveSessionLocal.
    cbn [RoutineManager.storageManager RoutineManager.heap StorageManager.sessions default].
    rewrite lookup_insert_eq, list_lookup_total_insert_eq by exact Href. reflexivity.
  - intros now'.
    unfold RoutineManager.saveSession, RoutineManager.setSession,
      StorageManager.loadSessionLocal, StorageManager.saveSessionLocal.
    cbn [RoutineManager.storageManager RoutineManager.heap StorageManager.sessions default].
    rewrite lookup_insert_ne; [rewrite Hst; reflexivity|].
    intros [= E]. apply Hday. symmetry. exact E.
Qed.

Lemma resetSession_of_another_day_witness :
  StorageManager.loadSessionLocal (noon 2)
    (RoutineManager.storageManager
       (RoutineManager.apply (noon 2)
          (RoutineManager.ResetSession "morning" (Some (noon 1))) managerAfterDay))
    "morning" (Some (noon 1))
  = StorageManager.loadSessionLocal (noon 2)
      (RoutineManager.storageManager managerAfterDay) "morning" (Some (noon 1)).
Proof.
  destruct (RoutineManager.resetSession (noon 2) managerAfterDay "morning" (Some (noon 1)))
    as [[ref m2]|] eqn:Hcall; [|vm_compute in Hcall; discriminate Hcall].
  unfold RoutineManager.apply. rewrite Hcall.
  destruct (resetSession_of_another_day (noon 2) (noon 1) managerAfterDay m2 "morning" ref
              (proj1 (run_owned (StorageManager.mk ∅)
                        (RoutineManager.routines sampleManager) managerDay))
              ltac:(discriminate) Hcall) as (s & _ & _ & _ & _ & _ & _ & _ & Hkept).
  apply Hkept.
Defined.
